(** * Session lifecycle of the gurujiyog backend: token service, session
      store and session cache

    A shallow embedding of
    - [src/services/auth/tokenService.ts] (class [TokenService]),
    - [src/models/Session.ts] (the Mongoose schema of the session records),
    - the in-memory cache ([MemoryCache]),
    - the hybrid session controller ([HybridAuthController]) with its
      endpoints,
    - [src/middleware/authFastify.ts] (the two authentication middlewares)
      and
    - the login, refresh and logout of the authentication controller
      ([AuthControllerFastify]),
    followed by the properties of the specification that concern them and
    by further properties of the code.

    Conventions.  Instants are milliseconds since the epoch, as returned by
    [Date.now()], in [Z].  One call of a service method reads the clock at a
    single instant [now], passed as an argument: where the source reads the
    clock several times within a call, the reads fall on this instant.
    Strings are Stdlib strings; a character stands for the JavaScript code
    unit of the same number.  Stateful methods pass the collection (or the
    cache) explicitly and return it next to their outcome.  Console output
    is not modelled, and neither is the loss of the database connection. *)

From Stdlib Require Import ZArith String Ascii List Bool Lia DecimalString.
From stdpp Require Import base option list gmap strings.

Local Open Scope string_scope.
Local Open Scope Z_scope.
Local Open Scope list_scope.

(* ===================================================================== *)
(** ** JavaScript values and string primitives *)
(* ===================================================================== *)

Module Js.

(** The values a decoded token claim can hold.  Objects and arrays are not
    inspected by the service; [JComposite] stands for any of them. *)
Inductive Json :=
| JNull
| JBool (b : bool)
| JNum (n : Z)
| JStr (s : string)
| JComposite.

#[export] Instance Json_eq_dec : EqDecision Json.
Proof. solve_decision. Defined.

(** [!!v] for a property read that may be [undefined] ([None]). *)
Definition truthy (v : option Json) : bool :=
  match v with
  | None | Some JNull => false
  | Some (JBool b) => b
  | Some (JNum n) => negb (n =? 0)
  | Some (JStr s) => negb (String.eqb s "")
  | Some JComposite => true
  end.

(** [String(v)], as a template literal renders a value.  A composite is
    rendered as a plain object is; an array, which renders its elements, is
    not told apart. *)
Definition toStr (v : option Json) : string :=
  match v with
  | None => "undefined"
  | Some JNull => "null"
  | Some (JBool true) => "true"
  | Some (JBool false) => "false"
  | Some (JNum n) => NilZero.string_of_int (Z.to_int n)
  | Some (JStr s) => s
  | Some JComposite => "[object Object]"
  end.

(** [!s] on a string. *)
Definition falsyString (s : string) : bool := String.eqb s "".

(** [a || b] on a possibly undefined string: the fallback is taken for
    [undefined] and for the empty string. *)
Definition orElse (a : option string) (b : string) : string :=
  match a with
  | Some s => if falsyString s then b else s
  | None => b
  end.

(** The class [\s] of a regular expression, on code units below 256:
    TAB, LF, VT, FF, CR, SPACE and NBSP. *)
Definition isSpace (c : ascii) : bool :=
  let n := Z.of_nat (nat_of_ascii c) in
  ((9 <=? n) && (n <=? 13)) || (n =? 32) || (n =? 160).

(** Canonical form of a code unit for a case-insensitive match: ASCII
    letters are folded, nothing else below 256 folds onto an ASCII
    letter. *)
Definition foldCase (c : ascii) : ascii :=
  let n := nat_of_ascii c in
  if ((97 <=? n) && (n <=? 122))%nat then ascii_of_nat (n - 32) else c.

Definition eqIgnoreCase (c d : ascii) : bool :=
  Ascii.eqb (foldCase c) (foldCase d).

(** Match the literal [lit] without regard to case at the start of [s];
    the rest of [s] on success. *)
Fixpoint matchLiteralI (lit s : string) : option string :=
  match lit, s with
  | EmptyString, _ => Some s
  | String a lit', String b s' =>
      if eqIgnoreCase a b then matchLiteralI lit' s' else None
  | String _ _, EmptyString => None
  end.

Fixpoint dropSpaces (s : string) : string :=
  match s with
  | String c r => if isSpace c then dropSpaces r else s
  | EmptyString => EmptyString
  end.

(** [s.replace(/^Bearer\s+/i, "")]: the pattern is anchored, [\s+] is
    greedy and nothing follows it, so a match removes the word and the
    whole run of white space after it. *)
Definition replaceBearer (s : string) : string :=
  match matchLiteralI "Bearer" s with
  | Some (String c r) => if isSpace c then dropSpaces r else s
  | _ => s
  end.

(** [P] holds of every character of [s]. *)
Fixpoint allChars (P : ascii -> bool) (s : string) : bool :=
  match s with
  | EmptyString => true
  | String c r => P c && allChars P r
  end.

(** [s.split(c)] *)
Fixpoint splitOn (c : ascii) (s : string) : list string :=
  match s with
  | EmptyString => [EmptyString]
  | String a r =>
      if Ascii.eqb a c then EmptyString :: splitOn c r
      else match splitOn c r with
           | h :: t => String a h :: t
           | [] => [String a EmptyString]
           end
  end.

(** A lower-case hex digit. *)
Definition isLowerHex (c : ascii) : bool :=
  let n := Z.of_nat (nat_of_ascii c) in
  ((48 <=? n) && (n <=? 57)) || ((97 <=? n) && (n <=? 102)).

(** [hay.includes(needle)] as a proposition. *)
Definition contains (needle hay : string) : Prop :=
  exists a b, hay = a +:+ needle +:+ b.

(** The bytes Node hashes for a string: its UTF-8 encoding. *)
Definition utf8 (c : ascii) : list Z :=
  let n := Z.of_nat (nat_of_ascii c) in
  if n <? 128 then [n] else [192 + n / 64; 128 + n mod 64].

Fixpoint utf8Bytes (s : string) : list Z :=
  match s with
  | EmptyString => []
  | String c r => utf8 c ++ utf8Bytes r
  end.

(** [s.startsWith(p)] *)
Definition startsWith (p s : string) : bool := String.prefix p s.

(** [s.slice(n)] and [s.substring(n)], for [n] not negative. *)
Fixpoint drop (n : nat) (s : string) : string :=
  match n, s with
  | O, _ => s
  | S n', String _ r => drop n' r
  | S _, EmptyString => EmptyString
  end.

(** [hay.includes(needle)] *)
Fixpoint includes (needle hay : string) : bool :=
  String.prefix needle hay
  || match hay with
     | String _ r => includes needle r
     | EmptyString => false
     end.

(** [hay.replace(needle, "")] for a string pattern: the first occurrence of
    [needle] is removed. *)
Fixpoint removeFirst (needle hay : string) : string :=
  if String.prefix needle hay then drop (String.length needle) hay
  else match hay with
       | String c r => String c (removeFirst needle r)
       | EmptyString => EmptyString
       end.

End Js.

(* ===================================================================== *)
(** ** SHA-256 (FIPS 180-4) and its hex digest *)
(* ===================================================================== *)

Module Sha256.

Definition wrap (x : Z) : Z := x mod 2 ^ 32.
Definition add32 (x y : Z) : Z := wrap (x + y).
Definition not32 (x : Z) : Z := Z.lxor x 0xffffffff.
Definition rotr (n x : Z) : Z :=
  Z.lor (Z.shiftr x n) (wrap (Z.shiftl x (32 - n))).

Definition Ch (x y z : Z) : Z := Z.lxor (Z.land x y) (Z.land (not32 x) z).
Definition Maj (x y z : Z) : Z :=
  Z.lxor (Z.lxor (Z.land x y) (Z.land x z)) (Z.land y z).
Definition Sigma0 (x : Z) : Z := Z.lxor (Z.lxor (rotr 2 x) (rotr 13 x)) (rotr 22 x).
Definition Sigma1 (x : Z) : Z := Z.lxor (Z.lxor (rotr 6 x) (rotr 11 x)) (rotr 25 x).
Definition sigma0 (x : Z) : Z := Z.lxor (Z.lxor (rotr 7 x) (rotr 18 x)) (Z.shiftr x 3).
Definition sigma1 (x : Z) : Z := Z.lxor (Z.lxor (rotr 17 x) (rotr 19 x)) (Z.shiftr x 10).

(** The constants, as FIPS 180-4 defines them: the first 32 bits of the
    fractional parts of the cube roots of the first 64 primes, and of the
    square roots of the first 8. *)
Definition isPrime (n : Z) : bool :=
  forallb (fun d => negb (n mod Z.of_nat d =? 0)) (seq 2 (Z.to_nat n - 2)).

Definition primes : list Z :=
  List.filter isPrime (map Z.of_nat (seq 2 310)).

(** The integer cube root, found bit by bit from [2 ^ bits] down. *)
Fixpoint cubeRoot (bits : nat) (x r : Z) : Z :=
  match bits with
  | O => r
  | S b =>
      let r' := r + 2 ^ Z.of_nat b in
      cubeRoot b x (if r' * r' * r' <=? x then r' else r)
  end.

Definition K : list Z :=
  Eval vm_compute in map (fun p => wrap (cubeRoot 36 (p * 2 ^ 96) 0)) primes.

Definition H0 : list Z :=
  Eval vm_compute in map (fun p => wrap (Z.sqrt (p * 2 ^ 64))) (firstn 8 primes).

(** Big-endian bytes of a number, [n] of them. *)
Fixpoint bigEndian (n : nat) (x : Z) : list Z :=
  match n with
  | O => []
  | S n' => (x / 256 ^ Z.of_nat n') mod 256 :: bigEndian n' x
  end.

(** Padding: the bit 1, zeros up to 56 modulo 64, the bit length on 8 bytes. *)
Definition pad (msg : list Z) : list Z :=
  let len := Z.of_nat (length msg) in
  let zeros := Z.to_nat ((55 - len) mod 64) in
  msg ++ [0x80] ++ repeat 0 zeros ++ bigEndian 8 (8 * len).

Fixpoint word32s (n : nat) (bytes : list Z) : list Z :=
  match n, bytes with
  | S n', a :: b :: c :: d :: rest =>
      (((a * 256 + b) * 256 + c) * 256 + d) :: word32s n' rest
  | _, _ => []
  end.

(** The message schedule, extended one word at a time up to 64 words. *)
Fixpoint extend (n : nat) (w : list Z) : list Z :=
  match n with
  | O => w
  | S n' =>
      let t := length w in
      let at_ (k : nat) := nth (t - k) w 0 in
      extend n' (w ++ [add32 (add32 (sigma1 (at_ 2%nat)) (at_ 7%nat))
                             (add32 (sigma0 (at_ 15%nat)) (at_ 16%nat))])
  end.

Definition schedule (block : list Z) : list Z := extend 48 (word32s 16 block).

Record Regs := { ra : Z; rb : Z; rc : Z; rd : Z; re : Z; rf : Z; rg : Z; rh : Z }.

Definition round (r : Regs) (kw : Z * Z) : Regs :=
  let t1 := add32 (add32 (add32 (rh r) (Sigma1 (re r))) (Ch (re r) (rf r) (rg r)))
                  (add32 (fst kw) (snd kw)) in
  let t2 := add32 (Sigma0 (ra r)) (Maj (ra r) (rb r) (rc r)) in
  {| ra := add32 t1 t2; rb := ra r; rc := rb r; rd := rc r;
     re := add32 (rd r) t1; rf := re r; rg := rf r; rh := rg r |}.

Definition regsOf (h : list Z) : Regs :=
  {| ra := nth 0 h 0; rb := nth 1 h 0; rc := nth 2 h 0; rd := nth 3 h 0;
     re := nth 4 h 0; rf := nth 5 h 0; rg := nth 6 h 0; rh := nth 7 h 0 |}.

Definition compress (h : list Z) (block : list Z) : list Z :=
  let r := fold_left round (combine K (schedule block)) (regsOf h) in
  [ add32 (nth 0 h 0) (ra r); add32 (nth 1 h 0) (rb r);
    add32 (nth 2 h 0) (rc r); add32 (nth 3 h 0) (rd r);
    add32 (nth 4 h 0) (re r); add32 (nth 5 h 0) (rf r);
    add32 (nth 6 h 0) (rg r); add32 (nth 7 h 0) (rh r) ].

Fixpoint blocks (n : nat) (h : list Z) (bytes : list Z) : list Z :=
  match n with
  | O => h
  | S n' => blocks n' (compress h (firstn 64 bytes)) (skipn 64 bytes)
  end.

(** The eight state words after the whole padded message. *)
Definition digestWords (msg : list Z) : list Z :=
  let p := pad msg in blocks (length p / 64) H0 p.

Definition hexDigit (n : Z) : ascii :=
  ascii_of_nat (Z.to_nat (if n <? 10 then 48 + n else 87 + n)).

(** Eight lower-case hex digits of a 32-bit word. *)
Definition hexWord (w : Z) : list ascii :=
  map (fun i => hexDigit ((w / 16 ^ i) mod 16)) [7; 6; 5; 4; 3; 2; 1; 0].

(** The eight words that are rendered: [digestWords] always has eight. *)
Definition eightWords (h : list Z) : list Z :=
  map (fun i => nth i h 0) (seq 0 8).

(** [crypto.createHash("sha256").update(s).digest("hex")]. *)
Definition hex (s : string) : string :=
  string_of_list_ascii
    (concat (map hexWord (eightWords (digestWords (Js.utf8Bytes s))))).

End Sha256.

(* ===================================================================== *)
(** ** The [jsonwebtoken] library, as the service uses it *)
(* ===================================================================== *)

Module Jwt.
Import Js.

(** The classes of the exceptions [jwt.sign] and [jwt.verify] throw.
    [TokenExpiredError] and [NotBeforeError] are subclasses of
    [JsonWebTokenError]; [OtherError] is any exception outside that
    hierarchy. *)
Inductive ErrorClass :=
| JsonWebTokenError
| TokenExpiredError
| NotBeforeError
| OtherError.

#[export] Instance ErrorClass_eq_dec : EqDecision ErrorClass.
Proof. solve_decision. Defined.

(** [e instanceof jwt.JsonWebTokenError], [e instanceof jwt.TokenExpiredError]. *)
Definition instanceofJsonWebTokenError (e : ErrorClass) : bool :=
  match e with OtherError => false | _ => true end.
Definition instanceofTokenExpiredError (e : ErrorClass) : bool :=
  match e with TokenExpiredError => true | _ => false end.

Inductive Res (A : Type) :=
| Ok (a : A)
| Thrown (e : ErrorClass).
Arguments Ok {A} a.
Arguments Thrown {A} e.

Abbreviation Claims := (gmap string Json).

(** What [jwt.verify] returns: the claim set, or the bare string when the
    payload is not a JSON object. *)
Inductive Decoded :=
| DObject (c : Claims)
| DString (s : string).

(** [decoded.k] *)
Definition claim (d : Decoded) (k : string) : option Json :=
  match d with
  | DObject c => c !! k
  | DString _ => None
  end.

(** [SignOptions]; [expiresIn] in seconds. *)
Record SignOptions := {
  expiresIn : Z;
  algorithm : string;
  issuer : string;
  audience : string
}.

(** The two entry points; the last argument is the clock when called. *)
Class Library := {
  sign : Claims -> string -> SignOptions -> Z -> Res string;
  verify : string -> string -> Z -> Res Decoded
}.

(** Claims the library sets itself or checks against its options. *)
Definition registered : list string :=
  ["iat"; "exp"; "nbf"; "iss"; "aud"; "sub"; "jti"].

Definition plain (p : Claims) : bool :=
  forallb (fun k => bool_decide (p !! k = None)) registered.

(** The claim set that ends up in the token: the payload with the issue
    time in seconds, the expiry, the audience and the issuer. *)
Definition stamp (p : Claims) (o : SignOptions) (now : Z) : Claims :=
  <["iat" := JNum (now / 1000)]>
    (<["exp" := JNum (now / 1000 + expiresIn o)]>
       (<["aud" := JStr (audience o)]>
          (<["iss" := JStr (issuer o)]> p))).

(** The compact serialization: three segments of base64url characters
    separated by dots, the first two not empty. *)
Definition isAlnum (c : ascii) : bool :=
  let n := Z.of_nat (nat_of_ascii c) in
  ((48 <=? n) && (n <=? 57)) || ((65 <=? n) && (n <=? 90))
  || ((97 <=? n) && (n <=? 122)).

Definition isBase64url (c : ascii) : bool :=
  isAlnum c || Ascii.eqb c "-" || Ascii.eqb c "_".

Definition compact (tok : string) : bool :=
  match splitOn "." tok with
  | [h; p; s] =>
      negb (falsyString h) && negb (falsyString p)
      && allChars isBase64url h && allChars isBase64url p
      && allChars isBase64url s
  | _ => false
  end.

(** What the service relies on, for the algorithm it configures. *)
Record Laws (L : Library) : Prop := {
  (** signing a payload without registered claims under a non-empty
      secret, with HS256 and a positive lifetime, succeeds *)
  sign_plain : forall p s o now,
    s <> "" -> plain p = true -> algorithm o = "HS256" -> 0 < expiresIn o ->
    exists tok, sign p s o now = Ok tok;
  (** a token is in compact form *)
  sign_compact : forall p s o now tok,
    sign p s o now = Ok tok -> compact tok = true;
  (** the clock enters a token through its seconds only *)
  sign_seconds : forall p s o now now',
    now / 1000 = now' / 1000 -> sign p s o now = sign p s o now';
  (** until it expires, a token signed with HS256 for a payload without
      registered claims verifies under the secret it was signed with, and
      yields the stamped payload *)
  verify_sign : forall p s o now tok now',
    plain p = true -> algorithm o = "HS256" ->
    sign p s o now = Ok tok ->
    now' / 1000 < now / 1000 + expiresIn o ->
    verify tok s now' = Ok (DObject (stamp p o now));
  (** a string that is not in compact form is refused *)
  verify_compact : forall tok s now,
    compact tok = false -> verify tok s now = Thrown JsonWebTokenError
}.

End Jwt.

(** A small implementation of the interface, for running the service on
    concrete inputs: the body of a token lists its claims, keys and strings
    in hex, and the signature is the SHA-256 digest of the secret and the
    body.  It is not the wire format of the real library. *)
Module ToyJwt.
Import Js Jwt.

Definition hexNibble (n : nat) : ascii :=
  ascii_of_nat (if (n <? 10)%nat then 48 + n else 87 + n)%nat.

Definition nibbleOf (c : ascii) : option nat :=
  let n := nat_of_ascii c in
  if ((48 <=? n) && (n <=? 57))%nat then Some (n - 48)%nat
  else if ((97 <=? n) && (n <=? 102))%nat then Some (n - 87)%nat
  else None.

Fixpoint hexStr (s : string) : string :=
  match s with
  | EmptyString => EmptyString
  | String c r =>
      let n := nat_of_ascii c in
      String (hexNibble (n / 16)) (String (hexNibble (n mod 16)) (hexStr r))
  end.

Fixpoint unhex (s : string) : option string :=
  match s with
  | EmptyString => Some EmptyString
  | String a (String b r) =>
      match nibbleOf a, nibbleOf b, unhex r with
      | Some h, Some l, Some r' => Some (String (ascii_of_nat (h * 16 + l)) r')
      | _, _, _ => None
      end
  | String _ EmptyString => None
  end.

Fixpoint bits (p : positive) : string :=
  match p with
  | xH => EmptyString
  | xO q => String "0" (bits q)
  | xI q => String "1" (bits q)
  end.

Fixpoint unbits (s : string) : option positive :=
  match s with
  | EmptyString => Some xH
  | String c r =>
      if Ascii.eqb c "0" then xO <$> unbits r
      else if Ascii.eqb c "1" then xI <$> unbits r
      else None
  end.

Definition encodeJson (v : Json) : string :=
  match v with
  | JNull => "n"
  | JBool true => "T"
  | JBool false => "F"
  | JNum Z0 => "z"
  | JNum (Zpos p) => String "p" (bits p)
  | JNum (Zneg p) => String "m" (bits p)
  | JStr s => String "s" (hexStr s)
  | JComposite => "c"
  end.

Definition decodeJson (s : string) : option Json :=
  match s with
  | String c r =>
      if Ascii.eqb c "n" then if falsyString r then Some JNull else None
      else if Ascii.eqb c "T" then if falsyString r then Some (JBool true) else None
      else if Ascii.eqb c "F" then if falsyString r then Some (JBool false) else None
      else if Ascii.eqb c "z" then if falsyString r then Some (JNum 0) else None
      else if Ascii.eqb c "c" then if falsyString r then Some JComposite else None
      else if Ascii.eqb c "p" then (fun p => JNum (Zpos p)) <$> unbits r
      else if Ascii.eqb c "m" then (fun p => JNum (Zneg p)) <$> unbits r
      else if Ascii.eqb c "s" then JStr <$> unhex r
      else None
  | EmptyString => None
  end.

Definition encodeEntry (kv : string * Json) : string :=
  hexStr (fst kv) +:+ String "-" (encodeJson (snd kv)).

Definition decodeEntry (e : string) : option (string * Json) :=
  match splitOn "-" e with
  | [k; v] =>
      match unhex k, decodeJson v with
      | Some k', Some v' => Some (k', v')
      | _, _ => None
      end
  | _ => None
  end.

Fixpoint join (l : list string) : string :=
  match l with
  | [] => EmptyString
  | [e] => e
  | e :: r => e +:+ String "_" (join r)
  end.

Definition encodeClaims (c : Claims) : string :=
  join (map encodeEntry (map_to_list c)).

Definition decodeClaims (body : string) : option Claims :=
  list_to_map <$> mapM decodeEntry (splitOn "_" body).

Definition tag (secret body : string) : string :=
  Sha256.hex (secret +:+ String "." body).

Definition token (c : Claims) (secret : string) : string :=
  let body := encodeClaims c in
  String "t" (String "." (body +:+ String "." (tag secret body))).

Definition toySign (p : Claims) (s : string) (o : SignOptions) (now : Z)
  : Res string :=
  if falsyString s then Thrown OtherError
  else if negb (plain p) then Thrown OtherError
  else Ok (token (stamp p o now) s).

Definition toyVerify (tok secret : string) (now : Z) : Res Decoded :=
  if negb (compact tok) then Thrown JsonWebTokenError
  else match splitOn "." tok with
       | [h; body; sig] =>
           if negb (String.eqb h "t") then Thrown JsonWebTokenError
           else if negb (String.eqb sig (tag secret body))
           then Thrown JsonWebTokenError
           else match decodeClaims body with
                | None => Thrown JsonWebTokenError
                | Some c =>
                    match c !! "exp" with
                    | Some (JNum e) =>
                        if e <=? now / 1000 then Thrown TokenExpiredError
                        else Ok (DObject c)
                    | _ => Ok (DObject c)
                    end
                end
       | _ => Thrown JsonWebTokenError
       end.

#[export] Instance library : Library := {| sign := toySign; verify := toyVerify |}.

End ToyJwt.

(* ===================================================================== *)
(** ** Mongoose collections *)
(* ===================================================================== *)

(** The part of Mongoose 8 the session store relies on: a schema with its
    casts, defaults and [required] validators, the [strict] option (on by
    default: a path the schema does not declare is removed from what is
    written, in [create] and in the update operators alike), the
    [timestamps] option, and the operations [create], [findOne],
    [updateOne], [updateMany], [deleteMany] and [save] on a collection,
    which is the list of its documents in insertion order.  A path that the
    schema does not declare stays in a filter ([strictQuery] is off by
    default).  The generated [_id] and the version
    key are left out: a document is told from another by its position. *)
Module Mongoose.
Import Js.

Inductive Value :=
| VString (s : string)
| VBoolean (b : bool)
| VDate (t : Z)
| VObjectId (hex : string).

#[export] Instance Value_eq_dec : EqDecision Value.
Proof. solve_decision. Defined.

Abbreviation Document := (gmap string Value).

(** A property of an object literal handed to Mongoose. *)
Inductive Input :=
| IString (s : string)
| IBoolean (b : bool)
| IDate (t : Z)
| IUndefined.

Inductive SchemaType := TString | TBoolean | TDate | TObjectId.

Inductive Default :=
| NoDefault
| DefaultValue (v : Value)
| DefaultNow.

Record Path := {
  ptype : SchemaType;
  required : bool;
  pdefault : Default
}.

Record Schema := {
  paths : list (string * Path);
  timestamps : bool;
  strict : bool
}.

Definition isHexDigit (c : ascii) : bool :=
  let n := Z.of_nat (nat_of_ascii c) in
  ((48 <=? n) && (n <=? 57)) || ((65 <=? n) && (n <=? 70))
  || ((97 <=? n) && (n <=? 102)).

Definition lowerChar (c : ascii) : ascii :=
  let n := nat_of_ascii c in
  if ((65 <=? n) && (n <=? 90))%nat then ascii_of_nat (n + 32) else c.

Fixpoint lower (s : string) : string :=
  match s with
  | EmptyString => EmptyString
  | String c r => String (lowerChar c) (lower r)
  end.

(** [new ObjectId(s)]: 24 hex digits, or a cast error.  An ObjectId is
    kept as its [toString()], the lower-case digits. *)
Definition castObjectId (s : string) : option string :=
  if (Z.of_nat (String.length s) =? 24) && Js.allChars isHexDigit s
  then Some (lower s) else None.

(** The casts the service exercises; [None] is a cast error.  The service
    never hands a value of another type to a path. *)
Definition cast (t : SchemaType) (i : Input) : option Value :=
  match t, i with
  | TString, IString s => Some (VString s)
  | TBoolean, IBoolean b => Some (VBoolean b)
  | TDate, IDate d => Some (VDate d)
  | TObjectId, IString s => VObjectId <$> castObjectId s
  | _, _ => None
  end.

(** A value stored for a path the schema does not know (not strict). *)
Definition uncast (i : Input) : option Value :=
  match i with
  | IString s => Some (VString s)
  | IBoolean b => Some (VBoolean b)
  | IDate d => Some (VDate d)
  | IUndefined => None
  end.

Definition date : Path :=
  {| ptype := TDate; required := false; pdefault := NoDefault |}.

(** The declared paths, and the two that [timestamps: true] adds. *)
Definition schemaPaths (s : Schema) : list (string * Path) :=
  paths s ++ (if timestamps s then [("createdAt", date); ("updatedAt", date)] else []).

Definition pathOf (s : Schema) (k : string) : option Path :=
  snd <$> List.find (fun kp => String.eqb (fst kp) k) (schemaPaths s).

Definition property (obj : list (string * Input)) (k : string) : Input :=
  match List.find (fun kv => String.eqb (fst kv) k) obj with
  | Some kv => snd kv
  | None => IUndefined
  end.

(** One path of a new document: [None] is a validation error,
    [Some None] leaves the path unset. *)
Definition initPath (obj : list (string * Input)) (now : Z)
    (kp : string * Path) : option (option Value) :=
  match property obj (fst kp) with
  | IUndefined =>
      match pdefault (snd kp) with
      | DefaultValue v => Some (Some v)
      | DefaultNow => Some (Some (VDate now))
      | NoDefault => if required (snd kp) then None else Some None
      end
  | i =>
      match cast (ptype (snd kp)) i with
      | Some v =>
          if required (snd kp) && bool_decide (v = VString "")
          then None else Some (Some v)
      | None => None
      end
  end.

Fixpoint initPaths (obj : list (string * Input)) (now : Z)
    (ps : list (string * Path)) (d : Document) : option Document :=
  match ps with
  | [] => Some d
  | kp :: rest =>
      match initPath obj now kp with
      | None => None
      | Some None => initPaths obj now rest d
      | Some (Some v) => initPaths obj now rest (<[fst kp := v]> d)
      end
  end.

(** Properties outside the schema: kept only when the schema is not strict. *)
Fixpoint extras (s : Schema) (obj : list (string * Input)) (d : Document)
  : Document :=
  match obj with
  | [] => d
  | (k, i) :: rest =>
      match pathOf s k, uncast i with
      | None, Some v => extras s rest (<[k := v]> d)
      | _, _ => extras s rest d
      end
  end.

(** On a new document [createdAt] is set unless given, and [updatedAt]
    takes the value of [createdAt]. *)
Definition stampNew (s : Schema) (now : Z) (d : Document) : Document :=
  if timestamps s then
    let created := default (VDate now) (d !! "createdAt") in
    <["updatedAt" := created]> (<["createdAt" := created]> d)
  else d.

Definition newDocument (s : Schema) (obj : list (string * Input)) (now : Z)
  : option Document :=
  match initPaths obj now (schemaPaths s) ∅ with
  | Some d => Some (stampNew s now (if strict s then d else extras s obj d))
  | None => None
  end.

(** [Model.create(obj)]: [None] when validation throws. *)
Definition create (s : Schema) (obj : list (string * Input)) (now : Z)
    (coll : list Document) : option (list Document) :=
  match newDocument s obj now with
  | Some d => Some (coll ++ [d])
  | None => None
  end.

(** Query conditions: [{k: v}], [{k: {$gt: t}}], [{k: {$lt: t}}]. *)
Inductive Condition :=
| Equals (i : Input)
| GreaterThan (t : Z)
| LessThan (t : Z).

Inductive Test :=
| IsValue (v : Value)
| After (t : Z)
| Before (t : Z).

Definition castCondition (s : Schema) (kc : string * Condition)
  : option (string * Test) :=
  match snd kc with
  | Equals i =>
      match pathOf s (fst kc) with
      | Some p => (fun v => (fst kc, IsValue v)) <$> cast (ptype p) i
      | None => (fun v => (fst kc, IsValue v)) <$> uncast i
      end
  | GreaterThan t => Some (fst kc, After t)
  | LessThan t => Some (fst kc, Before t)
  end.

(** The filter after casting; [None] is a cast error. *)
Definition castFilter (s : Schema) (f : list (string * Condition))
  : option (list (string * Test)) :=
  mapM (castCondition s) f.

Definition holds (d : Document) (kt : string * Test) : bool :=
  match snd kt, d !! fst kt with
  | IsValue v, Some w => bool_decide (v = w)
  | After t, Some (VDate x) => t <? x
  | Before t, Some (VDate x) => x <? t
  | _, _ => false
  end.

Definition matches (f : list (string * Test)) (d : Document) : bool :=
  forallb (holds d) f.

(** The [$set] an update object stands for, after casting: under [strict]
    the paths the schema does not declare are dropped. *)
Fixpoint castSet (s : Schema) (u : list (string * Input))
  : option (list (string * Value)) :=
  match u with
  | [] => Some []
  | (k, i) :: rest =>
      match pathOf s k with
      | Some p =>
          match cast (ptype p) i, castSet s rest with
          | Some v, Some r => Some ((k, v) :: r)
          | _, _ => None
          end
      | None =>
          if strict s then castSet s rest
          else match uncast i, castSet s rest with
               | Some v, Some r => Some ((k, v) :: r)
               | _, _ => None
               end
      end
  end.

(** With [timestamps], an update also sets [updatedAt]. *)
Definition castUpdate (s : Schema) (u : list (string * Input)) (now : Z)
  : option (list (string * Value)) :=
  match castSet s u with
  | Some sets =>
      Some (if timestamps s
               && negb (existsb (fun kv => String.eqb (fst kv) "updatedAt") sets)
            then sets ++ [("updatedAt", VDate now)] else sets)
  | None => None
  end.

Definition applySet (sets : list (string * Value)) (d : Document) : Document :=
  fold_left (fun acc kv => <[fst kv := snd kv]> acc) sets d.

Record UpdateResult := { matchedCount : nat; modifiedCount : nat }.

Definition changed (d d' : Document) : nat :=
  if bool_decide (d = d') then 0%nat else 1%nat.

(** The first document that matches is rewritten. *)
Fixpoint updateFirst (f : list (string * Test)) (sets : list (string * Value))
    (coll : list Document) : UpdateResult * list Document :=
  match coll with
  | [] => ({| matchedCount := 0; modifiedCount := 0 |}, [])
  | d :: rest =>
      if matches f d then
        let d' := applySet sets d in
        ({| matchedCount := 1; modifiedCount := changed d d' |}, d' :: rest)
      else
        let (r, rest') := updateFirst f sets rest in (r, d :: rest')
  end.

(** Every document that matches is rewritten. *)
Fixpoint updateAll (f : list (string * Test)) (sets : list (string * Value))
    (coll : list Document) : UpdateResult * list Document :=
  match coll with
  | [] => ({| matchedCount := 0; modifiedCount := 0 |}, [])
  | d :: rest =>
      let (r, rest') := updateAll f sets rest in
      if matches f d then
        let d' := applySet sets d in
        ({| matchedCount := S (matchedCount r);
            modifiedCount := (changed d d' + modifiedCount r)%nat |}, d' :: rest')
      else (r, d :: rest')
  end.

(** [Model.updateOne(filter, update)], [Model.updateMany(filter, update)];
    [None] when a cast throws. *)
Definition updateOne (s : Schema) (f : list (string * Condition))
    (u : list (string * Input)) (now : Z) (coll : list Document)
  : option (UpdateResult * list Document) :=
  match castFilter s f, castUpdate s u now with
  | Some f', Some sets => Some (updateFirst f' sets coll)
  | _, _ => None
  end.

Definition updateMany (s : Schema) (f : list (string * Condition))
    (u : list (string * Input)) (now : Z) (coll : list Document)
  : option (UpdateResult * list Document) :=
  match castFilter s f, castUpdate s u now with
  | Some f', Some sets => Some (updateAll f' sets coll)
  | _, _ => None
  end.

Fixpoint findFirst (f : list (string * Test)) (i : nat) (coll : list Document)
  : option (nat * Document) :=
  match coll with
  | [] => None
  | d :: rest => if matches f d then Some (i, d) else findFirst f (S i) rest
  end.

(** [Model.findOne(filter)]: the position and the document, [Some None]
    for [null], [None] when a cast throws. *)
Definition findOne (s : Schema) (f : list (string * Condition))
    (coll : list Document) : option (option (nat * Document)) :=
  match castFilter s f with
  | Some f' => Some (findFirst f' 0 coll)
  | None => None
  end.

(** [doc.k = v; await doc.save()] for the document at position [i]: when
    the assignment changes nothing the document is not written. *)
Definition save (s : Schema) (i : nat) (k : string) (v : Input) (now : Z)
    (coll : list Document) : option (list Document) :=
  match coll !! i, pathOf s k with
  | Some d, Some p =>
      match cast (ptype p) v with
      | Some v' =>
          if bool_decide (d !! k = Some v') then Some coll
          else
            let d' := <[k := v']> d in
            Some (<[i := if timestamps s then <["updatedAt" := VDate now]> d' else d']> coll)
      | None => None
      end
  | Some d, None =>
      match uncast v with
      | Some v' => if strict s then Some coll else Some (<[i := <[k := v']> d]> coll)
      | None => Some coll
      end
  | None, _ => None
  end.

(** [Model.deleteMany({$or: [f1, ..., fn]})]: the number of documents
    removed and the documents left; [None] when a cast throws. *)
Definition deleteMany (s : Schema) (alternatives : list (list (string * Condition)))
    (coll : list Document) : option (nat * list Document) :=
  match mapM (castFilter s) alternatives with
  | Some fs =>
      let kept :=
        List.filter (fun d => negb (existsb (fun f => matches f d) fs)) coll in
      Some ((length coll - length kept)%nat, kept)
  | None => None
  end.

End Mongoose.

(* ===================================================================== *)
(** ** [models/Session.ts] *)
(* ===================================================================== *)

Module Session.
Import Mongoose.

(** [sessionSchema].  It declares no [revokedAt]; [strict] is not set, so
    it has its default. *)
Definition sessionSchema : Schema := {|
  paths :=
    [ ("userId", {| ptype := TObjectId; required := true; pdefault := NoDefault |});
      ("refreshTokenHash", {| ptype := TString; required := true; pdefault := NoDefault |});
      ("deviceInfo", {| ptype := TString; required := false;
                        pdefault := DefaultValue (VString "Unknown Device") |});
      ("ipAddress", {| ptype := TString; required := true; pdefault := NoDefault |});
      ("userAgent", {| ptype := TString; required := false; pdefault := NoDefault |});
      ("expiresAt", {| ptype := TDate; required := true; pdefault := NoDefault |});
      ("lastUsed", {| ptype := TDate; required := false; pdefault := DefaultNow |});
      ("isActive", {| ptype := TBoolean; required := false;
                      pdefault := DefaultValue (VBoolean true) |}) ];
  timestamps := true;
  strict := true
|}.

End Session.

(* ===================================================================== *)
(** ** [services/auth/tokenService.ts] *)
(* ===================================================================== *)

Module TokenService.
Import Js Jwt Mongoose Session.

(** [TOKEN_CONFIG]: ["15m"] and ["7d"], in seconds. *)
Definition ACCESS_TOKEN_EXPIRY : Z := 15 * 60.
Definition REFRESH_TOKEN_EXPIRY : Z := 7 * 24 * 60 * 60.
Definition ALGORITHM : string := "HS256".

Inductive TokenType := access | refresh.

(** [interface SessionData] (its [userId] is not read by the service). *)
Record SessionData := {
  deviceInfo : string;
  ipAddress : string;
  userAgent : option string
}.

(** [interface TokenValidationResult]; [userId] is whatever the claim
    holds. *)
Record TokenValidationResult := {
  userId : Json;
  isValid : bool;
  error : option string
}.

(** A call returns, or throws a [TokenError] with the given code. *)
Inductive Outcome (A : Type) :=
| Return (a : A)
| Throws (code : string).
Arguments Return {A} a.
Arguments Throws {A} code.

Section WithLibrary.
Context {jwt : Library}.
(** [process.env] *)
Variable env : gmap string string.

Definition getSecret (type : TokenType) : string :=
  let secretKey :=
    match type with access => "JWT_SECRET" | refresh => "JWT_REFRESH_SECRET" end in
  let fallbackSecret :=
    match type with access => "fallback-secret" | refresh => "fallback-refresh-secret" end in
  orElse (env !! secretKey) fallbackSecret.

Definition signOptions (expiry : Z) : SignOptions := {|
  expiresIn := expiry;
  algorithm := ALGORITHM;
  issuer := orElse (env !! "JWT_ISSUER") "gurujiyog-api";
  audience := orElse (env !! "JWT_AUDIENCE") "gurujiyog-client"
|}.

(** [{ userId, type, ...additionalClaims }]: a later key wins. *)
Definition payload (userId type : string) (additionalClaims : option Claims)
  : Claims :=
  default ∅ additionalClaims ∪ {[ "userId" := JStr userId; "type" := JStr type ]}.

Definition generateAccessToken (userId : string)
    (additionalClaims : option Claims) (now : Z) : Outcome string :=
  if falsyString userId then Throws "TOKEN_GENERATION_FAILED"
  else
    match sign (payload userId "access" additionalClaims) (getSecret access)
               (signOptions ACCESS_TOKEN_EXPIRY) now with
    | Ok token => Return token
    | Thrown _ => Throws "TOKEN_GENERATION_FAILED"
    end.

Definition generateRefreshToken (userId : string) (now : Z) : Outcome string :=
  if falsyString userId then Throws "TOKEN_GENERATION_FAILED"
  else
    match sign (payload userId "refresh" None) (getSecret refresh)
               (signOptions REFRESH_TOKEN_EXPIRY) now with
    | Ok token => Return token
    | Thrown _ => Throws "TOKEN_GENERATION_FAILED"
    end.

(** The part the two verifiers share after [jwt.verify]: the type check,
    the [userId] check, and the [catch] block. *)
Definition checkDecoded (expected : string) (r : Res Decoded)
  : option TokenValidationResult :=
  match r with
  | Ok decoded =>
      if negb (bool_decide (claim decoded "type" = Some (JStr expected))) then None
      else
        match claim decoded "userId" with
        | Some u =>
            if negb (truthy (Some u)) then None
            else Some {| userId := u; isValid := true; error := None |}
        | None => None
        end
  | Thrown e =>
      if instanceofJsonWebTokenError e then
        Some {| userId := JStr ""; isValid := false;
                error := Some "Invalid token signature" |}
      else if instanceofTokenExpiredError e then
        Some {| userId := JStr ""; isValid := false;
                error := Some "Token expired" |}
      else None
  end.

Definition verifyAccessToken (token : string) (now : Z)
  : option TokenValidationResult :=
  if falsyString token then None
  else
    let cleanToken := replaceBearer token in
    checkDecoded "access" (verify cleanToken (getSecret access) now).

Definition verifyRefreshToken (token : string) (now : Z)
  : option TokenValidationResult :=
  if falsyString token then None
  else checkDecoded "refresh" (verify token (getSecret refresh) now).

Definition hashRefreshToken (token : string) : Outcome string :=
  if falsyString token then Throws "HASH_GENERATION_FAILED"
  else Return (Sha256.hex token).

Definition SEVEN_DAYS : Z := 7 * 24 * 60 * 60 * 1000.

Definition createSession (userId refreshToken : string)
    (sessionData : SessionData) (now : Z) (sessions : list Document)
  : Outcome unit * list Document :=
  if falsyString userId || falsyString refreshToken
  then (Throws "SESSION_CREATION_FAILED", sessions)
  else
    match hashRefreshToken refreshToken with
    | Throws _ => (Throws "SESSION_CREATION_FAILED", sessions)
    | Return refreshTokenHash =>
        let expiresAt := now + SEVEN_DAYS in
        match create sessionSchema
                [ ("userId", IString userId);
                  ("refreshTokenHash", IString refreshTokenHash);
                  ("deviceInfo", IString (deviceInfo sessionData));
                  ("ipAddress", IString (ipAddress sessionData));
                  ("userAgent", match userAgent sessionData with
                                | Some ua => IString ua
                                | None => IUndefined
                                end);
                  ("expiresAt", IDate expiresAt);
                  ("isActive", IBoolean true);
                  ("createdAt", IDate now);
                  ("lastUsed", IDate now) ] now sessions with
        | Some sessions' => (Return tt, sessions')
        | None => (Throws "SESSION_CREATION_FAILED", sessions)
        end
    end.

(** [session.userId.toString()] *)
Definition userIdOf (session : Document) : option string :=
  match session !! "userId" with
  | Some (VObjectId hex) => Some hex
  | Some (VString s) => Some s
  | _ => None
  end.

(** Every exception ends in the [catch] block, which returns [null]. *)
Definition validateSession (refreshToken : string) (now : Z)
    (sessions : list Document) : option string * list Document :=
  if falsyString refreshToken then (None, sessions)
  else
    match verifyRefreshToken refreshToken now with
    | None => (None, sessions)
    | Some tokenVerification =>
        if negb (isValid tokenVerification) then (None, sessions)
        else
          match hashRefreshToken refreshToken with
          | Throws _ => (None, sessions)
          | Return refreshTokenHash =>
              match findOne sessionSchema
                      [ ("refreshTokenHash", Equals (IString refreshTokenHash));
                        ("isActive", Equals (IBoolean true));
                        ("expiresAt", GreaterThan now) ] sessions with
              | Some (Some (i, session)) =>
                  match save sessionSchema i "lastUsed" (IDate now) now sessions with
                  | Some sessions' =>
                      match userIdOf session with
                      | Some u => (Some u, sessions')
                      | None => (None, sessions')
                      end
                  | None => (None, sessions)
                  end
              | _ => (None, sessions)
              end
          end
    end.

Definition revokeSession (refreshToken : string) (now : Z)
    (sessions : list Document) : Outcome unit * list Document :=
  if falsyString refreshToken
  then (Throws "SESSION_REVOCATION_FAILED", sessions)
  else
    match hashRefreshToken refreshToken with
    | Throws _ => (Throws "SESSION_REVOCATION_FAILED", sessions)
    | Return refreshTokenHash =>
        match updateOne sessionSchema
                [ ("refreshTokenHash", Equals (IString refreshTokenHash)) ]
                [ ("isActive", IBoolean false); ("revokedAt", IDate now) ]
                now sessions with
        | Some (_, sessions') => (Return tt, sessions')
        | None => (Throws "SESSION_REVOCATION_FAILED", sessions)
        end
    end.

Definition revokeAllUserSessions (userId : string) (now : Z)
    (sessions : list Document) : Outcome nat * list Document :=
  if falsyString userId
  then (Throws "BULK_REVOCATION_FAILED", sessions)
  else
    match updateMany sessionSchema
            [ ("userId", Equals (IString userId));
              ("isActive", Equals (IBoolean true)) ]
            [ ("isActive", IBoolean false); ("revokedAt", IDate now) ]
            now sessions with
    | Some (result, sessions') => (Return (modifiedCount result), sessions')
    | None => (Throws "BULK_REVOCATION_FAILED", sessions)
    end.

Record TokenPair := { accessToken : string; refreshToken : string }.

Definition generateTokenPair (userId : string) (sessionData : SessionData)
    (now : Z) (sessions : list Document)
  : Outcome TokenPair * list Document :=
  match generateAccessToken userId None now with
  | Throws _ => (Throws "TOKEN_PAIR_GENERATION_FAILED", sessions)
  | Return accessToken =>
      match generateRefreshToken userId now with
      | Throws _ => (Throws "TOKEN_PAIR_GENERATION_FAILED", sessions)
      | Return refreshToken =>
          match createSession userId refreshToken sessionData now sessions with
          | (Return _, sessions') =>
              (Return {| accessToken := accessToken;
                         refreshToken := refreshToken |}, sessions')
          | (Throws _, sessions') =>
              (Throws "TOKEN_PAIR_GENERATION_FAILED", sessions')
          end
      end
  end.

Definition refreshAccessToken (refreshToken : string) (now : Z)
    (sessions : list Document) : option string * list Document :=
  match validateSession refreshToken now sessions with
  | (None, sessions') => (None, sessions')
  | (Some u, sessions') =>
      match generateAccessToken u None now with
      | Return newAccessToken => (Some newAccessToken, sessions')
      | Throws _ => (None, sessions')
      end
  end.

Definition THIRTY_DAYS : Z := 30 * 24 * 60 * 60 * 1000.

(** [result.deletedCount || 0] is the count itself. *)
Definition cleanupExpiredSessions (now : Z) (sessions : list Document)
  : Outcome nat * list Document :=
  match deleteMany sessionSchema
          [ [("expiresAt", LessThan now)];
            [("isActive", Equals (IBoolean false));
             ("revokedAt", LessThan (now - THIRTY_DAYS))] ] sessions with
  | Some (deletedCount, sessions') => (Return deletedCount, sessions')
  | None => (Throws "CLEANUP_FAILED", sessions)
  end.

End WithLibrary.

End TokenService.

(* ===================================================================== *)
(** ** The in-memory cache *)
(* ===================================================================== *)

(** [class MemoryCache].  The cached [data] is a string in the source; the
    type is left open here, and the session controller uses it at the type
    of its snapshots, which stand for their JSON text ([JSON.stringify] and
    [JSON.parse] give back the same fields, instants at the millisecond).
    The background sweep removes entries that [get] no longer returns. *)
Module MemoryCache.

Section Cache.
Variable A : Type.

Record CacheEntry := { data : A; expiresAt : Z }.

Definition isExpired (entry : CacheEntry) (now : Z) : bool :=
  expiresAt entry <? now.

Definition get (key : string) (now : Z) (cacheStorage : gmap string CacheEntry)
  : option A * gmap string CacheEntry :=
  match cacheStorage !! key with
  | None => (None, cacheStorage)
  | Some entry =>
      if isExpired entry now then (None, delete key cacheStorage)
      else (Some (data entry), cacheStorage)
  end.

Definition setex (key : string) (ttlSeconds : Z) (value : A) (now : Z)
    (cacheStorage : gmap string CacheEntry) : gmap string CacheEntry :=
  <[key := {| data := value; expiresAt := now + ttlSeconds * 1000 |}]> cacheStorage.

Definition del (key : string) (cacheStorage : gmap string CacheEntry)
  : gmap string CacheEntry :=
  delete key cacheStorage.

Definition removeExpiredEntries (now : Z)
    (cacheStorage : gmap string CacheEntry) : gmap string CacheEntry :=
  filter (fun kv => negb (expiresAt (snd kv) <? now) = true) cacheStorage.

End Cache.

Arguments data {A} _.
Arguments expiresAt {A} _.
Arguments isExpired {A} _ _.
Arguments get {A} _ _ _.
Arguments setex {A} _ _ _ _ _.
Arguments del {A} _ _.
Arguments removeExpiredEntries {A} _ _.

End MemoryCache.

(* ===================================================================== *)
(** ** The hybrid session controller *)
(* ===================================================================== *)

Module HybridAuthController.
Import Js Jwt.

Record Permissions := {
  canBookClasses : bool;
  canTeach : bool;
  canManageShaalas : bool;
  canViewAnalytics : bool;
  maxBookingsPerDay : Z
}.

(** A user document as [User.findById(id).lean()] returns it, with the
    fields the controller reads. *)
Record UserDoc := {
  email : string;
  name : string;
  avatar : option string;
  role : string;
  isActive : bool;
  isVerified : bool
}.

Record SessionMetadata := {
  tokenExpiresAt : Z;
  refreshAt : Z;
  cacheExpiresAt : Z
}.

(** The session data with [authenticated: true]; [recentBookings] is
    always empty and [preferences] takes its default. *)
Record SessionData := {
  id : string;
  user : UserDoc;
  permissions : Permissions;
  sessionMetadata : SessionMetadata
}.

Inductive Response :=
| Authenticated (sessionData : SessionData)
| Unauthenticated (error : string).

(** The controller: its cache instance and its three read-only fields. *)
Record Controller := {
  cache : gmap string (MemoryCache.CacheEntry SessionData);
  CACHE_KEY_PREFIX : string;
  CACHE_TTL_SECONDS : Z;
  REFRESH_BEFORE_EXPIRY_SECONDS : Z
}.

Inductive Construction :=
| Constructed (this : Controller)
| Rejected.

(** The field initialisers and the constructor body: nothing is checked. *)
Definition constructor (cacheInstance : gmap string (MemoryCache.CacheEntry SessionData))
  : Construction :=
  Constructed {| cache := cacheInstance;
                 CACHE_KEY_PREFIX := "user_session:";
                 CACHE_TTL_SECONDS := 1800;
                 REFRESH_BEFORE_EXPIRY_SECONDS := 300 |}.

Definition withCache (this : Controller)
    (c : gmap string (MemoryCache.CacheEntry SessionData)) : Controller :=
  {| cache := c;
     CACHE_KEY_PREFIX := CACHE_KEY_PREFIX this;
     CACHE_TTL_SECONDS := CACHE_TTL_SECONDS this;
     REFRESH_BEFORE_EXPIRY_SECONDS := REFRESH_BEFORE_EXPIRY_SECONDS this |}.

(** The user collection, by ObjectId, and the number of [User.findById]
    calls made so far. *)
Record Database := {
  users : gmap string UserDoc;
  lookups : nat
}.

Definition findById (userId : option Json) (db : Database)
  : option UserDoc * Database :=
  (match Mongoose.castObjectId (toStr userId) with
   | Some hex => users db !! hex
   | None => None
   end,
   {| users := users db; lookups := S (lookups db) |}).

Definition basePermissions : Permissions := {|
  canBookClasses := false; canTeach := false; canManageShaalas := false;
  canViewAnalytics := false; maxBookingsPerDay := 0
|}.

Definition generatePermissions (role : string) : Permissions :=
  if String.eqb role "student" then
    {| canBookClasses := true; canTeach := false; canManageShaalas := false;
       canViewAnalytics := false; maxBookingsPerDay := 3 |}
  else if String.eqb role "teacher" then
    {| canBookClasses := true; canTeach := true; canManageShaalas := false;
       canViewAnalytics := true; maxBookingsPerDay := 5 |}
  else if String.eqb role "shaala_owner" then
    {| canBookClasses := true; canTeach := true; canManageShaalas := true;
       canViewAnalytics := true; maxBookingsPerDay := 10 |}
  else basePermissions.

Definition DAY : Z := 24 * 60 * 60 * 1000.

Section WithLibrary.
Context {jwt : Library}.
Variable env : gmap string string.

(** [jwt.verify(token, process.env.JWT_SECRET!)]: the library throws
    when it is given no secret. *)
Definition verifyToken (token : string) (now : Z) : option (option Json) :=
  match env !! "JWT_SECRET" with
  | Some secret =>
      if falsyString secret then None
      else match verify token secret now with
           | Ok decoded => Some (claim decoded "userId")
           | Thrown _ => None
           end
  | None => None
  end.

Definition buildSessionData (this : Controller) (userId : option Json)
    (now : Z) (db : Database) : option SessionData * Database :=
  let (found, db') := findById userId db in
  match found with
  | Some u =>
      if negb (isActive u) then (None, db')
      else
        let tokenExpiresAt := now + DAY in
        let refreshAt := tokenExpiresAt - REFRESH_BEFORE_EXPIRY_SECONDS this * 1000 in
        let cacheExpiresAt := now + CACHE_TTL_SECONDS this * 1000 in
        (Some {| id := default "" (Mongoose.castObjectId (toStr userId));
                 user := u;
                 permissions := generatePermissions (role u);
                 sessionMetadata :=
                   {| tokenExpiresAt := tokenExpiresAt;
                      refreshAt := refreshAt;
                      cacheExpiresAt := cacheExpiresAt |} |}, db')
  | None => (None, db')
  end.

Definition getCachedSession (this : Controller) (cacheKey : string) (now : Z)
  : option SessionData * Controller :=
  let (cached, c) := MemoryCache.get cacheKey now (cache this) in
  (cached, withCache this c).

Definition cacheSession (this : Controller) (cacheKey : string)
    (sessionData : SessionData) (now : Z) : Controller :=
  withCache this
    (MemoryCache.setex cacheKey (CACHE_TTL_SECONDS this) sessionData now (cache this)).

Definition shouldRefreshCache (cachedSession : SessionData) (now : Z) : bool :=
  refreshAt (sessionMetadata cachedSession) <=? now.

Definition getSessionData (this : Controller) (token : string) (now : Z)
    (db : Database) : Response * Controller * Database :=
  match verifyToken token now with
  | None => (Unauthenticated "Invalid token", this, db)
  | Some userId =>
      let cacheKey := CACHE_KEY_PREFIX this +:+ toStr userId in
      let (cachedSession, this') := getCachedSession this cacheKey now in
      match cachedSession with
      | Some cached =>
          if negb (shouldRefreshCache cached now)
          then (Authenticated cached, this', db)
          else
            let (sessionData, db') := buildSessionData this' userId now db in
            match sessionData with
            | None => (Unauthenticated "User not found", this', db')
            | Some fresh =>
                (Authenticated fresh, cacheSession this' cacheKey fresh now, db')
            end
      | None =>
          let (sessionData, db') := buildSessionData this' userId now db in
          match sessionData with
          | None => (Unauthenticated "User not found", this', db')
          | Some fresh =>
              (Authenticated fresh, cacheSession this' cacheKey fresh now, db')
          end
      end
  end.

End WithLibrary.

(** *** The endpoints *)

(** What the controller reads of a request: the [Authorization] header and
    the [token] cookie. *)
Record Request := {
  authorization : option string;
  cookieToken : option string
}.

(** The headers of the answer 200: [Cache-Control], and the two instants
    that [X-Session-Expires] and [X-Refresh-At] carry in ISO form. *)
Record Headers := {
  cacheControl : string;
  xSessionExpires : Z;
  xRefreshAt : Z
}.

Record Reply := {
  code : Z;
  headers : option Headers;
  body : Response
}.

(** The answer of [invalidateSession]. *)
Record Acknowledgement := {
  ackCode : Z;
  success : bool;
  message : string
}.

Definition extractToken (request : Request) : option string :=
  let cookie :=
    match cookieToken request with
    | Some t => if falsyString t then None else Some t
    | None => None
    end in
  match authorization request with
  | Some authHeader =>
      if startsWith "Bearer " authHeader then Some (drop 7 authHeader) else cookie
  | None => cookie
  end.

Section Endpoints.
Context {jwt : Library}.
Variable env : gmap string string.

(** Whether [getSessionData] answers with the object that [JSON.parse] made
    of the cached text.  The instants of that object are strings; those of
    an object that [buildSessionData] has just made are [Date]s. *)
Definition servedFromCache (this : Controller) (token : string) (now : Z) : bool :=
  match verifyToken env token now with
  | Some userId =>
      match fst (getCachedSession this (CACHE_KEY_PREFIX this +:+ toStr userId) now) with
      | Some cached => negb (shouldRefreshCache cached now)
      | None => false
      end
  | None => false
  end.

Definition noToken : Reply :=
  {| code := 401; headers := None;
     body := Unauthenticated "No authentication token provided" |}.

(** [session]: [cacheExpiresAt.getTime()] throws a [TypeError] on a string,
    and the [catch] block answers 500. *)
Definition session (this : Controller) (request : Request) (now : Z)
    (db : Database) : Reply * Controller * Database :=
  match extractToken request with
  | None => (noToken, this, db)
  | Some authToken =>
      if falsyString authToken then (noToken, this, db)
      else
        let '(sessionData, this', db') := getSessionData env this authToken now db in
        match sessionData with
        | Unauthenticated _ =>
            ({| code := 401; headers := None; body := sessionData |}, this', db')
        | Authenticated s =>
            if servedFromCache this authToken now
            then ({| code := 500; headers := None;
                     body := Unauthenticated "Internal server error" |}, this', db')
            else
              let cacheTimeRemaining :=
                (cacheExpiresAt (sessionMetadata s) - now) / 1000 in
              ({| code := 200;
                  headers :=
                    Some {| cacheControl :=
                              "private, max-age="
                              +:+ toStr (Some (JNum (Z.max 0 cacheTimeRemaining)));
                            xSessionExpires := tokenExpiresAt (sessionMetadata s);
                            xRefreshAt := refreshAt (sessionMetadata s) |};
                  body := sessionData |}, this', db')
        end
  end.

Definition invalidateSession (this : Controller) (request : Request) (now : Z)
  : Acknowledgement * Controller :=
  let this' :=
    match extractToken request with
    | Some token =>
        if falsyString token then this
        else match verifyToken env token now with
             | Some userId =>
                 withCache this
                   (MemoryCache.del (CACHE_KEY_PREFIX this +:+ toStr userId) (cache this))
             | None => this
             end
    | None => this
    end in
  ({| ackCode := 200; success := true;
      message := "Session cache cleared - user will need to re-authenticate" |},
   this').

End Endpoints.

End HybridAuthController.

(* ===================================================================== *)
(** ** [models/User.ts] *)
(* ===================================================================== *)

Module User.

(** The [enum] of the path [role]. *)
Definition roles : list string := ["student"; "instructor"; "shala_owner"; "admin"].

End User.

(* ===================================================================== *)
(** ** [middleware/authFastify.ts] *)
(* ===================================================================== *)

Module AuthFastify.
Import Js Jwt.

(** [request.user] *)
Record RequestUser := {
  id : string;
  email : string;
  role : string
}.

(** A middleware lets the request through, with or without a user, or
    answers it. *)
Inductive Result :=
| Continue (user : option RequestUser)
| Reply (status : Z) (message : string).

(** [authHeader?.startsWith("Bearer ") ? authHeader.slice(7) : null] *)
Definition bearer (authHeader : option string) : option string :=
  match authHeader with
  | Some h => if startsWith "Bearer " h then Some (drop 7 h) else None
  | None => None
  end.

(** [User.findById(id)]: [None] when the cast of [id] to an ObjectId
    throws; [null] finds nothing. *)
Definition findById (userId : Json) (db : HybridAuthController.Database)
  : option (option (string * HybridAuthController.UserDoc))
    * HybridAuthController.Database :=
  (match userId with
   | JNull => Some None
   | _ =>
       match Mongoose.castObjectId (toStr (Some userId)) with
       | Some hex =>
           Some ((fun u => (hex, u)) <$> HybridAuthController.users db !! hex)
       | None => None
       end
   end,
   {| HybridAuthController.users := HybridAuthController.users db;
      HybridAuthController.lookups := S (HybridAuthController.lookups db) |}).

Definition attach (hex : string) (u : HybridAuthController.UserDoc) : RequestUser :=
  {| id := hex;
     email := HybridAuthController.email u;
     role := HybridAuthController.role u |}.

Section WithLibrary.
Context {jwt : Library}.
Variable env : gmap string string.

Definition authMiddleware (authHeader : option string) (now : Z)
    (db : HybridAuthController.Database)
  : Result * HybridAuthController.Database :=
  match bearer authHeader with
  | None => (Reply 401 "Access token required", db)
  | Some token =>
      if falsyString token then (Reply 401 "Access token required", db)
      else
        match TokenService.verifyAccessToken env token now with
        | None => (Reply 401 "Invalid or expired access token", db)
        | Some decoded =>
            match findById (TokenService.userId decoded) db with
            | (None, db') => (Reply 401 "Authentication failed", db')
            | (Some None, db') => (Reply 401 "User not found or inactive", db')
            | (Some (Some (hex, user)), db') =>
                if negb (HybridAuthController.isActive user)
                then (Reply 401 "User not found or inactive", db')
                else (Continue (Some (attach hex user)), db')
            end
        end
  end.

Definition optionalAuthMiddleware (authHeader : option string) (now : Z)
    (db : HybridAuthController.Database)
  : Result * HybridAuthController.Database :=
  match bearer authHeader with
  | None => (Continue None, db)
  | Some token =>
      if falsyString token then (Continue None, db)
      else
        match TokenService.verifyAccessToken env token now with
        | None => (Continue None, db)
        | Some decoded =>
            match findById (TokenService.userId decoded) db with
            | (Some (Some (hex, user)), db') =>
                if HybridAuthController.isActive user
                then (Continue (Some (attach hex user)), db')
                else (Continue None, db')
            | (_, db') => (Continue None, db')
            end
        end
  end.

End WithLibrary.

End AuthFastify.

(* ===================================================================== *)
(** ** The authentication controller: login, refresh and logout *)
(* ===================================================================== *)

Module AuthControllerFastify.
Import Js Jwt Mongoose.

(** What the controller reads of a request. *)
Record Request := {
  userAgentHeader : option string;
  ip : option string;
  remoteAddress : option string;
  refreshTokenCookie : option string
}.

(** The cookie [refreshToken] as [setAuthResponse] sets it. *)
Record Cookie := {
  value : string;
  httpOnly : bool;
  secure : bool;
  sameSite : string;
  maxAge : Z;
  path : string
}.

(** An answer: its status, [success], and [message] or [accessToken];
    [clearsCookie] when the cookie [refreshToken] is cleared with it. *)
Record Reply := {
  status : Z;
  success : bool;
  message : option string;
  accessToken : option string;
  clearsCookie : bool
}.

Definition getDeviceInfo (request : Request) : TokenService.SessionData :=
  let userAgent := orElse (userAgentHeader request) "Unknown" in
  let ipAddress :=
    removeFirst "::ffff:"
      (orElse (ip request) (orElse (remoteAddress request) "unknown")) in
  let deviceInfo :=
    if includes "Mobile" userAgent then "Mobile Device"
    else if includes "Chrome" userAgent then "Chrome Browser"
    else if includes "Firefox" userAgent then "Firefox Browser"
    else if includes "Safari" userAgent then "Safari Browser"
    else "Unknown Device" in
  {| TokenService.deviceInfo := deviceInfo;
     TokenService.ipAddress := ipAddress;
     TokenService.userAgent := Some userAgent |}.

Section WithLibrary.
Context {jwt : Library}.
Variable env : gmap string string.

(** [setAuthResponse]: the access token and the cookie; the [user] it is
    given is handed back as it is.  An exception of the service is not
    caught here. *)
Definition setAuthResponse (request : Request) (userId : string) (now : Z)
    (sessions : list Document)
  : TokenService.Outcome (string * Cookie) * list Document :=
  match TokenService.generateAccessToken env userId None now with
  | TokenService.Throws c => (TokenService.Throws c, sessions)
  | TokenService.Return accessToken =>
      match TokenService.generateRefreshToken env userId now with
      | TokenService.Throws c => (TokenService.Throws c, sessions)
      | TokenService.Return refreshToken =>
          match TokenService.createSession userId refreshToken
                  (getDeviceInfo request) now sessions with
          | (TokenService.Throws c, sessions') => (TokenService.Throws c, sessions')
          | (TokenService.Return _, sessions') =>
              (TokenService.Return
                 (accessToken,
                  {| value := refreshToken;
                     httpOnly := true;
                     secure := bool_decide (env !! "NODE_ENV" = Some "production");
                     sameSite := "strict";
                     maxAge := 7 * 24 * 60 * 60 * 1000;
                     path := "/" |}), sessions')
          end
      end
  end.

Definition refreshToken (request : Request) (now : Z) (sessions : list Document)
  : Reply * list Document :=
  let refused m s :=
    ({| status := 401; success := false; message := Some m;
        accessToken := None; clearsCookie := false |}, s) in
  match refreshTokenCookie request with
  | None => refused "No refresh token provided" sessions
  | Some refreshToken =>
      if falsyString refreshToken then refused "No refresh token provided" sessions
      else
        match TokenService.validateSession env refreshToken now sessions with
        | (None, sessions') => refused "Invalid or expired refresh token" sessions'
        | (Some userId, sessions') =>
            match TokenService.generateAccessToken env userId None now with
            | TokenService.Return accessToken =>
                ({| status := 200; success := true; message := None;
                    accessToken := Some accessToken; clearsCookie := false |},
                 sessions')
            | TokenService.Throws _ =>
                ({| status := 500; success := false;
                    message := Some "Server error during token refresh";
                    accessToken := None; clearsCookie := false |}, sessions')
            end
        end
  end.

End WithLibrary.

Definition logout (request : Request) (now : Z) (sessions : list Document)
  : Reply * list Document :=
  let done s :=
    ({| status := 200; success := true; message := Some "Logout successful";
        accessToken := None; clearsCookie := true |}, s) in
  match refreshTokenCookie request with
  | None => done sessions
  | Some refreshToken =>
      if falsyString refreshToken then done sessions
      else
        match TokenService.revokeSession refreshToken now sessions with
        | (TokenService.Return _, sessions') => done sessions'
        | (TokenService.Throws _, sessions') =>
            ({| status := 500; success := false;
                message := Some "Server error during logout";
                accessToken := None; clearsCookie := false |}, sessions')
        end
  end.

End AuthControllerFastify.

(* ===================================================================== *)
(** ** Notions used in the statements, and example data *)
(* ===================================================================== *)

Import TokenService.

Section Notions.
Import Js Jwt Mongoose Session.

Definition isNot (c : ascii) : ascii -> bool := fun x => negb (Ascii.eqb x c).

Definition isTokenChar (c : ascii) : bool := isBase64url c || Ascii.eqb c ".".

(** A word equal to [Bearer] up to letter case, then white space, at
    least one character of it: what the pattern removes. *)
Definition isBearerPrefix (p : string) : bool :=
  match matchLiteralI "Bearer" p with
  | Some (String c ws) => isSpace c && allChars isSpace ws
  | _ => false
  end.

Definition startsWithSpace (t : string) : bool :=
  match t with
  | String c _ => isSpace c
  | EmptyString => false
  end.

(** The filters and the update of the service, after casting. *)
Definition byHash (h : string) : list (string * Test) :=
  [("refreshTokenHash", IsValue (VString h))].

Definition usable (h : string) (now : Z) : list (string * Test) :=
  [ ("refreshTokenHash", IsValue (VString h));
    ("isActive", IsValue (VBoolean true));
    ("expiresAt", After now) ].

Definition activeOf (u : string) : list (string * Test) :=
  [("userId", IsValue (VObjectId u)); ("isActive", IsValue (VBoolean true))].

(** What reaches the database of [{isActive: false, revokedAt: now}]:
    the schema has no [revokedAt], and [updatedAt] is added. *)
Definition deactivation (now : Z) : list (string * Value) :=
  [("isActive", VBoolean false); ("updatedAt", VDate now)].

Definition deactivate (now : Z) (d : Document) : Document :=
  <["updatedAt" := VDate now]> (<["isActive" := VBoolean false]> d).

(** The record [createSession] writes, for the principal [h] (an
    ObjectId), the digest [hsh], the metadata [sd] and the instant [now]. *)
Definition sessionDocument (h hsh : string) (sd : SessionData) (now : Z)
  : Document :=
  <["updatedAt" := VDate now]>
  (<["createdAt" := VDate now]>
  (<["isActive" := VBoolean true]>
  (<["lastUsed" := VDate now]>
  (<["expiresAt" := VDate (now + SEVEN_DAYS)]>
  (match userAgent sd with
   | Some ua => <["userAgent" := VString ua]>
   | None => fun d => d
   end
  (<["ipAddress" := VString (ipAddress sd)]>
  (<["deviceInfo" := VString (deviceInfo sd)]>
  (<["refreshTokenHash" := VString hsh]>
  (<["userId" := VObjectId h]> ∅))))))))).

(** The collections the service makes of the empty one. *)
Inductive Reachable : list Document -> Prop :=
| reach_empty : Reachable []
| reach_createSession u R sd now s :
    Reachable s -> Reachable (snd (createSession u R sd now s))
| reach_validateSession (jwt : Library) env R now s :
    Reachable s -> Reachable (snd (validateSession env R now s))
| reach_revokeSession R now s :
    Reachable s -> Reachable (snd (revokeSession R now s))
| reach_revokeAllUserSessions u now s :
    Reachable s -> Reachable (snd (revokeAllUserSessions u now s))
| reach_cleanupExpiredSessions now s :
    Reachable s -> Reachable (snd (cleanupExpiredSessions now s))
| reach_generateTokenPair (jwt : Library) env u sd now s :
    Reachable s -> Reachable (snd (generateTokenPair env u sd now s))
| reach_refreshAccessToken (jwt : Library) env R now s :
    Reachable s -> Reachable (snd (refreshAccessToken env R now s)).

(** The shape of a session record: a principal, a digest of 64 characters,
    an address, an expiry at most seven days after the creation, an activity
    flag, and no [revokedAt]. *)
Definition wellFormed (d : Document) : Prop :=
  (exists h, d !! "userId" = Some (VObjectId h)
             /\ String.length h = 24%nat /\ allChars isLowerHex h = true)
  /\ (exists x, d !! "refreshTokenHash" = Some (VString x)
                /\ String.length x = 64%nat)
  /\ (exists a, d !! "ipAddress" = Some (VString a) /\ a <> "")
  /\ (exists t e, d !! "createdAt" = Some (VDate t)
                  /\ d !! "expiresAt" = Some (VDate e)
                  /\ e <= t + SEVEN_DAYS)
  /\ (exists b, d !! "isActive" = Some (VBoolean b))
  /\ d !! "revokedAt" = None.

(** The records that [cleanupExpiredSessions] removes. *)
Definition expiredBefore (now : Z) (d : Document) : bool :=
  match d !! "expiresAt" with
  | Some (VDate x) => x <? now
  | _ => false
  end.

Definition revokedBefore (t : Z) (d : Document) : bool :=
  bool_decide (d !! "isActive" = Some (VBoolean false))
  && match d !! "revokedAt" with
     | Some (VDate x) => x <? t
     | _ => false
     end.

End Notions.

Section ControllerNotions.
Import Js HybridAuthController.

(** The user a rebuild reads. *)
Definition userOf (userId : option Json) (db : Database) : option UserDoc :=
  match Mongoose.castObjectId (toStr userId) with
  | Some hex => users db !! hex
  | None => None
  end.

Definition isActiveUser (userId : option Json) (db : Database) : bool :=
  match userOf userId db with
  | Some u => isActive u
  | None => false
  end.

End ControllerNotions.

(** Example data: a principal, two devices. *)
Definition alice : string := "507f1f77bcf86cd799439011".
Definition laptop : SessionData :=
  {| deviceInfo := "Chrome Browser"; ipAddress := "203.0.113.1";
     userAgent := Some "Mozilla/5.0 (Macintosh) Chrome/126" |}.
Definition phone : SessionData :=
  {| deviceInfo := "Mobile Device"; ipAddress := "198.51.100.7";
     userAgent := Some "Mozilla/5.0 (iPhone) Mobile/15E148" |}.


(** A caller that passes the raw token as device description. *)
Definition leaky : SessionData :=
  {| deviceInfo := "a.b.c"; ipAddress := "203.0.113.1"; userAgent := None |}.

(** Three sessions: two of [alice], one of another principal. *)
Definition bob : string := "65a1b2c3d4e5f60718293a4b".
Definition threeSessions : list (gmap string Mongoose.Value) :=
  snd (createSession bob "g.h.i" laptop 3000
         (snd (createSession alice "d.e.f" phone 2000
                 (snd (createSession alice "a.b.c" laptop 1000 []))))).

(** Example data for the controller. *)
Definition secretEnv : gmap string string := {[ "JWT_SECRET" := "s3cret" ]}.

Definition aliceToken : string :=
  match generateAccessToken (jwt := ToyJwt.library) secretEnv alice None 0 with
  | Return t => t
  | Throws _ => ""
  end.

Definition aliceDoc (active : bool) : HybridAuthController.UserDoc :=
  {| HybridAuthController.email := "alice@example.com";
     HybridAuthController.name := "Alice";
     HybridAuthController.avatar := None;
     HybridAuthController.role := "student";
     HybridAuthController.isActive := active;
     HybridAuthController.isVerified := true |}.

Definition dbWith (active : bool) : HybridAuthController.Database :=
  {| HybridAuthController.users := {[ alice := aliceDoc active ]};
     HybridAuthController.lookups := 0 |}.

Definition freshController : HybridAuthController.Controller :=
  {| HybridAuthController.cache := ∅;
     HybridAuthController.CACHE_KEY_PREFIX := "user_session:";
     HybridAuthController.CACHE_TTL_SECONDS := 1800;
     HybridAuthController.REFRESH_BEFORE_EXPIRY_SECONDS := 300 |}.

(** A snapshot with early instants, an entry that holds it until 2000, and
    a cache that has this entry for [alice]. *)
Definition staleSnapshot : HybridAuthController.SessionData :=
  {| HybridAuthController.id := alice;
     HybridAuthController.user := aliceDoc true;
     HybridAuthController.permissions :=
       HybridAuthController.generatePermissions "student";
     HybridAuthController.sessionMetadata :=
       {| HybridAuthController.tokenExpiresAt := 800;
          HybridAuthController.refreshAt := 500;
          HybridAuthController.cacheExpiresAt := 2000 |} |}.

Definition staleEntry : MemoryCache.CacheEntry HybridAuthController.SessionData :=
  {| MemoryCache.data := staleSnapshot; MemoryCache.expiresAt := 2000 |}.

Definition staleCache
  : gmap string (MemoryCache.CacheEntry HybridAuthController.SessionData) :=
  {[ "user_session:" +:+ alice := staleEntry ]}.

Definition staleController : HybridAuthController.Controller :=
  {| HybridAuthController.cache := staleCache;
     HybridAuthController.CACHE_KEY_PREFIX := "user_session:";
     HybridAuthController.CACHE_TTL_SECONDS := 1800;
     HybridAuthController.REFRESH_BEFORE_EXPIRY_SECONDS := 300 |}.

(** The snapshot of a response, [staleSnapshot] standing in when it has none. *)
Definition snapshotOf (r : HybridAuthController.Response)
  : HybridAuthController.SessionData :=
  match r with
  | HybridAuthController.Authenticated s => s
  | HybridAuthController.Unauthenticated _ => staleSnapshot
  end.

(** The first read for [alice], at the instant 0, on an empty cache. *)
Definition firstRead
  : HybridAuthController.Response * HybridAuthController.Controller
    * HybridAuthController.Database :=
  HybridAuthController.getSessionData (jwt := ToyJwt.library) secretEnv
    freshController aliceToken 0 (dbWith true).

(** Example data for the endpoints: a request of [alice] with her access
    token, the controller after her first read at the instant 0, and its
    cache entry. *)
Definition aliceRequest : HybridAuthController.Request :=
  {| HybridAuthController.authorization := Some ("Bearer " +:+ aliceToken);
     HybridAuthController.cookieToken := None |}.

Definition warmController : HybridAuthController.Controller := snd (fst firstRead).

Definition warmEntry : MemoryCache.CacheEntry HybridAuthController.SessionData :=
  {| MemoryCache.data := snapshotOf (fst (fst firstRead));
     MemoryCache.expiresAt := 1800000 |}.



(** An environment in which the two secrets are the same. *)
Definition sharedSecretEnv : gmap string string :=
  {[ "JWT_SECRET" := "s3cret"; "JWT_REFRESH_SECRET" := "s3cret" ]}.

Definition aliceRefresh : string :=
  match generateRefreshToken (jwt := ToyJwt.library) sharedSecretEnv alice 0 with
  | Return t => t
  | Throws _ => ""
  end.

(** A request of a browser behind an IPv4-mapped address, with the cookie
    of a refresh token. *)
Definition browserRequest (cookie : option string) : AuthControllerFastify.Request :=
  {| AuthControllerFastify.userAgentHeader := Some "Mozilla/5.0 (Macintosh) Chrome/126";
     AuthControllerFastify.ip := Some "::ffff:203.0.113.1";
     AuthControllerFastify.remoteAddress := None;
     AuthControllerFastify.refreshTokenCookie := cookie |}.

(** One session of [alice], for the token [a.b.c]. *)
Definition oneSession : list (gmap string Mongoose.Value) :=
  snd (createSession alice "a.b.c" laptop 1000 []).

(** The answer of the middleware to a request with the access token of
    [alice], at the instant 1000. *)
Definition aliceThrough
  : AuthFastify.Result * HybridAuthController.Database :=
  AuthFastify.authMiddleware (jwt := ToyJwt.library) secretEnv
    (Some ("Bearer " +:+ aliceToken)) 1000 (dbWith true).

(* ===================================================================== *)
(** * Properties *)
(* ===================================================================== *)

(** An equation between closed terms, decided by evaluation. *)
Ltac by_vm :=
  match goal with
  | |- @eq ?T ?a ?b => vm_cast_no_check (@eq_refl T b)
  end.

(** ** The digest on two test vectors of FIPS 180-4 *)

Example sha256_abc :
  Sha256.hex "abc" = "ba7816bf8f01cfea414140de5dae2223b00361a396177a9cb410ff61f20015ad".
Proof. vm_compute. reflexivity. Qed.

Example sha256_empty :
  Sha256.hex "" = "e3b0c44298fc1c149afbf4c8996fb92427ae41e4649b934ca495991b7852b855".
Proof. vm_compute. reflexivity. Qed.

(** ** Strings *)

Section Strings.
Import Js Jwt.

Lemma allChars_app P a b :
  allChars P (a +:+ b) = allChars P a && allChars P b.
Proof.
  induction a as [|c a IH]; simpl; [reflexivity|].
  rewrite IH. apply andb_assoc.
Qed.

Lemma allChars_impl (P Q : ascii -> bool) s :
  (forall c, P c = true -> Q c = true) ->
  allChars P s = true -> allChars Q s = true.
Proof.
  intros HPQ. induction s as [|c s IH]; simpl; [reflexivity|].
  intros [Hc Hs]%andb_true_iff. rewrite (HPQ c Hc), (IH Hs). reflexivity.
Qed.

Lemma allChars_list P l :
  allChars P (string_of_list_ascii l) = forallb P l.
Proof. induction l as [|c l IH]; simpl; congruence. Qed.

Lemma splitOn_cons c s : exists h t, splitOn c s = h :: t.
Proof.
  induction s as [|a s [h [t IH]]]; simpl; [eauto|].
  destruct (Ascii.eqb a c); [eauto|]. rewrite IH. eauto.
Qed.

Lemma splitOn_free c a :
  allChars (isNot c) a = true -> splitOn c a = [a].
Proof.
  induction a as [|x a IH]; simpl; [reflexivity|].
  intros [Hx Ha]%andb_true_iff. unfold isNot in Hx.
  apply negb_true_iff in Hx. rewrite Hx, (IH Ha). reflexivity.
Qed.

Lemma splitOn_sep c a b :
  allChars (isNot c) a = true ->
  splitOn c (a +:+ String c b) = a :: splitOn c b.
Proof.
  induction a as [|x a IH]; simpl.
  - intros _. rewrite Ascii.eqb_refl. reflexivity.
  - intros [Hx Ha]%andb_true_iff. unfold isNot in Hx.
    apply negb_true_iff in Hx. rewrite Hx, (IH Ha). reflexivity.
Qed.

Lemma lowerHex_alnum c : isLowerHex c = true -> isAlnum c = true.
Proof.
  unfold isLowerHex, isAlnum. generalize (Z.of_nat (nat_of_ascii c)). intros n.
  rewrite !orb_true_iff, !andb_true_iff, !Z.leb_le. lia.
Qed.

Lemma alnum_base64url c : isAlnum c = true -> isBase64url c = true.
Proof. unfold isBase64url. intros ->. reflexivity. Qed.

Lemma alnum_isNot d :
  isAlnum d = false -> forall c, isAlnum c = true -> isNot d c = true.
Proof.
  intros Hd c Hc. unfold isNot. apply negb_true_iff.
  destruct (Ascii.eqb_spec c d); [congruence|reflexivity].
Qed.

Lemma base64url_not_dot c : isBase64url c = true -> isNot "." c = true.
Proof.
  unfold isNot. intros H. apply negb_true_iff.
  destruct (Ascii.eqb_spec c "."); [subst; discriminate|reflexivity].
Qed.

End Strings.

(** ** The toy implementation satisfies the laws of the library *)

Section Toy.
Import Js Jwt ToyJwt.

Lemma hexStr_chars s : allChars isLowerHex (hexStr s) = true.
Proof.
  induction s as [|c s IH]; simpl; [reflexivity|].
  rewrite IH, !andb_true_r.
  destruct c as [[] [] [] [] [] [] [] []]; reflexivity.
Qed.

Lemma unhex_hexStr s : unhex (hexStr s) = Some s.
Proof.
  induction s as [|c s IH]; [reflexivity|].
  cbn [hexStr unhex]. rewrite IH.
  destruct c as [[] [] [] [] [] [] [] []]; reflexivity.
Qed.

Lemma bits_chars p : allChars isLowerHex (bits p) = true.
Proof. induction p as [p IH|p IH|]; simpl; try rewrite IH; reflexivity. Qed.

Lemma unbits_bits p : unbits (bits p) = Some p.
Proof. induction p as [p IH|p IH|]; simpl; try rewrite IH; reflexivity. Qed.

Lemma encodeJson_chars v : allChars isAlnum (encodeJson v) = true.
Proof.
  destruct v as [|[]|[|p|p]|s|]; try reflexivity; simpl;
    apply (allChars_impl isLowerHex); auto using lowerHex_alnum, bits_chars, hexStr_chars.
Qed.

Lemma decodeJson_encodeJson v : decodeJson (encodeJson v) = Some v.
Proof.
  destruct v as [|[]|[|p|p]|s|]; try reflexivity; simpl.
  - rewrite unbits_bits. reflexivity.
  - rewrite unbits_bits. reflexivity.
  - rewrite unhex_hexStr. reflexivity.
Qed.

Lemma decodeEntry_encodeEntry kv : decodeEntry (encodeEntry kv) = Some kv.
Proof.
  destruct kv as [k v]. unfold decodeEntry, encodeEntry. simpl fst; simpl snd.
  rewrite splitOn_sep.
  - rewrite splitOn_free.
    + rewrite unhex_hexStr, decodeJson_encodeJson. reflexivity.
    + apply (allChars_impl isAlnum); [|apply encodeJson_chars].
      apply alnum_isNot. reflexivity.
  - apply (allChars_impl isLowerHex); [|apply hexStr_chars].
    intros c Hc. apply alnum_isNot; [reflexivity|]. apply lowerHex_alnum, Hc.
Qed.

Lemma encodeEntry_chars kv :
  allChars (fun c => isAlnum c || Ascii.eqb c "-") (encodeEntry kv) = true.
Proof.
  unfold encodeEntry. rewrite allChars_app. simpl.
  rewrite andb_true_iff. split.
  - apply (allChars_impl isLowerHex); [|apply hexStr_chars].
    intros c Hc. rewrite (lowerHex_alnum c Hc). reflexivity.
  - apply (allChars_impl isAlnum); [|apply encodeJson_chars].
    intros c ->. reflexivity.
Qed.

Lemma entry_char_base64url c :
  isAlnum c || Ascii.eqb c "-" = true -> isBase64url c = true.
Proof. unfold isBase64url. intros ->. reflexivity. Qed.

Lemma entry_char_not_underscore c :
  isAlnum c || Ascii.eqb c "-" = true -> isNot "_" c = true.
Proof.
  intros H. unfold isNot. apply negb_true_iff.
  destruct (Ascii.eqb_spec c "_"); [subst; discriminate|reflexivity].
Qed.

Lemma join_chars l :
  allChars isBase64url (join (map encodeEntry l)) = true.
Proof.
  induction l as [|kv l IH]; [reflexivity|].
  assert (He : allChars isBase64url (encodeEntry kv) = true)
    by (eapply allChars_impl; [apply entry_char_base64url|apply encodeEntry_chars]).
  destruct l as [|kv' l]; [exact He|].
  change (join (map encodeEntry (kv :: kv' :: l)))
    with (encodeEntry kv +:+ String "_" (join (map encodeEntry (kv' :: l)))).
  rewrite allChars_app, He. simpl allChars at 1.
  change (isBase64url "_") with true. exact IH.
Qed.

Lemma splitOn_join l :
  l <> [] -> splitOn "_" (join (map encodeEntry l)) = map encodeEntry l.
Proof.
  induction l as [|kv l IH]; [congruence|]. intros _.
  assert (He : allChars (isNot "_") (encodeEntry kv) = true)
    by (eapply allChars_impl; [apply entry_char_not_underscore|apply encodeEntry_chars]).
  destruct l as [|kv' l]; [apply splitOn_free, He|].
  change (join (map encodeEntry (kv :: kv' :: l)))
    with (encodeEntry kv +:+ String "_" (join (map encodeEntry (kv' :: l)))).
  rewrite (splitOn_sep _ _ _ He), IH by congruence. reflexivity.
Qed.

Lemma mapM_decodeEntry l : mapM decodeEntry (map encodeEntry l) = Some l.
Proof.
  induction l as [|kv l IH]; [reflexivity|].
  cbn [map mapM]. rewrite decodeEntry_encodeEntry. simpl.
  rewrite IH. reflexivity.
Qed.

Lemma decodeClaims_encodeClaims (c : Claims) :
  c <> ∅ -> decodeClaims (encodeClaims c) = Some c.
Proof.
  intros Hc. unfold decodeClaims, encodeClaims.
  rewrite splitOn_join.
  - rewrite mapM_decodeEntry. simpl. rewrite list_to_map_to_list. reflexivity.
  - intros H. apply Hc. apply map_to_list_empty_iff. exact H.
Qed.

Lemma encodeClaims_chars (c : Claims) :
  allChars isBase64url (encodeClaims c) = true.
Proof. apply join_chars. Qed.

Lemma encodeClaims_nonempty (c : Claims) :
  c <> ∅ -> falsyString (encodeClaims c) = false.
Proof.
  intros Hc. unfold encodeClaims.
  destruct (map_to_list c) as [|[k v] l] eqn:E.
  - exfalso. apply Hc. apply map_to_list_empty_iff. exact E.
  - destruct l; simpl; unfold encodeEntry; simpl;
      destruct (hexStr k); reflexivity.
Qed.

End Toy.

Section Digest.
Import Js Jwt.

Lemma hexDigit_lower n : 0 <= n < 16 -> isLowerHex (Sha256.hexDigit n) = true.
Proof.
  intros Hn.
  assert (H : forallb (fun k => isLowerHex (Sha256.hexDigit (Z.of_nat k))) (seq 0 16)
              = true) by reflexivity.
  rewrite forallb_forall in H. specialize (H (Z.to_nat n)).
  rewrite Z2Nat.id in H by lia. apply H, in_seq. lia.
Qed.

Lemma hexWord_chars w : forallb isLowerHex (Sha256.hexWord w) = true.
Proof.
  unfold Sha256.hexWord. simpl.
  rewrite !hexDigit_lower; [reflexivity|..]; apply Z.mod_pos_bound; lia.
Qed.

Lemma hexWords_chars ws :
  forallb isLowerHex (concat (map Sha256.hexWord ws)) = true.
Proof.
  induction ws as [|w ws IH]; [reflexivity|].
  change (concat (map Sha256.hexWord (w :: ws)))
    with (Sha256.hexWord w ++ concat (map Sha256.hexWord ws)).
  rewrite forallb_app, hexWord_chars, IH. reflexivity.
Qed.

(** A digest is made of lower-case hex digits, 64 of them. *)
Lemma digest_chars s : allChars isLowerHex (Sha256.hex s) = true.
Proof. unfold Sha256.hex. rewrite allChars_list. apply hexWords_chars. Qed.

Lemma digest_length s : String.length (Sha256.hex s) = 64%nat.
Proof.
  unfold Sha256.hex, Sha256.eightWords.
  generalize (Sha256.digestWords (utf8Bytes s)). intros h.
  simpl. reflexivity.
Qed.

End Digest.

Section ToyLaws.
Import Js Jwt ToyJwt.

Lemma stamp_nonempty p o now : stamp p o now <> ∅.
Proof.
  unfold stamp. intros H.
  apply (f_equal (fun m : Claims => m !! "iat")) in H.
  rewrite lookup_insert_eq, lookup_empty in H. discriminate.
Qed.

Lemma stamp_exp p o now :
  stamp p o now !! "exp" = Some (JNum (now / 1000 + expiresIn o)).
Proof.
  unfold stamp. rewrite lookup_insert_ne by discriminate.
  apply lookup_insert_eq.
Qed.

Lemma tag_chars s body : allChars isBase64url (tag s body) = true.
Proof.
  unfold tag. apply (allChars_impl isLowerHex); [|apply digest_chars].
  intros c Hc. apply alnum_base64url, lowerHex_alnum, Hc.
Qed.

Lemma split_token c s :
  splitOn "." (token c s) = ["t"; encodeClaims c; tag s (encodeClaims c)].
Proof.
  unfold token. cbn [splitOn]. change (Ascii.eqb "t" ".") with false.
  change (Ascii.eqb "." ".") with true. cbv iota.
  rewrite splitOn_sep.
  - rewrite splitOn_free; [reflexivity|].
    apply (allChars_impl isBase64url); [apply base64url_not_dot|apply tag_chars].
  - apply (allChars_impl isBase64url);
      [apply base64url_not_dot|apply encodeClaims_chars].
Qed.

Lemma token_compact c s : c <> ∅ -> compact (token c s) = true.
Proof.
  intros Hc. unfold compact. rewrite split_token.
  rewrite (encodeClaims_nonempty c Hc), encodeClaims_chars, tag_chars.
  reflexivity.
Qed.

Lemma toyVerify_token c s now :
  c <> ∅ ->
  toyVerify (token c s) s now =
    match c !! "exp" with
    | Some (JNum e) =>
        if e <=? now / 1000 then Thrown TokenExpiredError else Ok (DObject c)
    | _ => Ok (DObject c)
    end.
Proof.
  intros Hc. unfold toyVerify.
  rewrite (token_compact c s Hc), split_token. cbn [negb].
  change (String.eqb "t" "t") with true. cbn [negb].
  rewrite String.eqb_refl. cbn [negb].
  rewrite (decodeClaims_encodeClaims c Hc). reflexivity.
Qed.

Theorem toy_laws : Laws ToyJwt.library.
Proof.
  split; simpl.
  - intros p s o now Hs Hp _ _. unfold toySign.
    destruct (falsyString s) eqn:E.
    + apply String.eqb_eq in E. contradiction.
    + rewrite Hp. simpl. eauto.
  - intros p s o now tok. unfold toySign.
    destruct (falsyString s); [discriminate|].
    destruct (negb (plain p)); [discriminate|].
    intros [= <-]. apply token_compact, stamp_nonempty.
  - intros p s o now now' H. unfold toySign, stamp. rewrite H. reflexivity.
  - intros p s o now tok now' _ _. unfold toySign.
    destruct (falsyString s); [discriminate|].
    destruct (negb (plain p)); [discriminate|].
    intros [= <-] Hlt.
    rewrite toyVerify_token by apply stamp_nonempty.
    rewrite stamp_exp.
    destruct (Z.leb_spec (now / 1000 + expiresIn o) (now' / 1000)); [lia|reflexivity].
  - intros tok s now H. unfold toyVerify. rewrite H. reflexivity.
Qed.

End ToyLaws.

(** ** Tokens and the [Bearer] prefix *)

Section Bearer.
Import Js Jwt.

Lemma segments_chars s :
  forallb (allChars isBase64url) (splitOn "." s) = true ->
  allChars isTokenChar s = true.
Proof.
  induction s as [|a s IH]; [reflexivity|].
  cbn [splitOn allChars]. unfold isTokenChar at 1.
  destruct (Ascii.eqb a ".") eqn:Ea.
  - cbn [forallb allChars andb]. intros H. rewrite orb_true_r. exact (IH H).
  - destruct (splitOn_cons "." s) as [h [t Hs]]. rewrite Hs in *.
    cbn [forallb allChars]. intros H.
    apply andb_true_iff in H as [[Ha Hh]%andb_true_iff Ht].
    rewrite Ha. cbn [orb andb]. apply IH. cbn [forallb].
    rewrite Hh, Ht. reflexivity.
Qed.

Lemma compact_chars tok : compact tok = true -> allChars isTokenChar tok = true.
Proof.
  unfold compact. intros H. apply segments_chars.
  destruct (splitOn "." tok) as [|h [|p [|s [|x l]]]]; try discriminate.
  cbn [forallb].
  repeat (apply andb_true_iff in H as [H ?]).
  repeat (apply andb_true_iff; split); auto.
Qed.

Lemma compact_nonempty tok : compact tok = true -> falsyString tok = false.
Proof. destruct tok; [discriminate|reflexivity]. Qed.

Lemma matchLiteralI_rest lit s rest :
  matchLiteralI lit s = Some rest -> exists pre, s = pre +:+ rest.
Proof.
  revert s. induction lit as [|a lit IH]; intros s; simpl.
  - intros [= ->]. exists EmptyString. reflexivity.
  - destruct s as [|b s]; [discriminate|].
    destruct (eqIgnoreCase a b); [|discriminate].
    intros H. destruct (IH _ H) as [pre ->]. exists (String b pre). reflexivity.
Qed.

Lemma space_not_tokenChar c : isSpace c = true -> isTokenChar c = false.
Proof.
  destruct c as [[] [] [] [] [] [] [] []]; vm_compute; congruence.
Qed.

(** The prefix pattern finds nothing to remove in a string of token
    characters, so in a token in compact form. *)
Lemma replaceBearer_tokenChars tok :
  allChars isTokenChar tok = true -> replaceBearer tok = tok.
Proof.
  intros H. unfold replaceBearer.
  destruct (matchLiteralI "Bearer" tok) as [[|c r]|] eqn:E; try reflexivity.
  destruct (isSpace c) eqn:Hc; [|reflexivity].
  destruct (matchLiteralI_rest _ _ _ E) as [pre ->].
  rewrite allChars_app in H. apply andb_true_iff in H as [_ H].
  cbn [allChars] in H. apply andb_true_iff in H as [H _].
  rewrite (space_not_tokenChar c Hc) in H. discriminate.
Qed.

Lemma replaceBearer_compact tok : compact tok = true -> replaceBearer tok = tok.
Proof. intros H. apply replaceBearer_tokenChars, compact_chars, H. Qed.

(** A string with a white-space character is not in compact form. *)
Lemma space_not_compact a c b :
  isSpace c = true -> compact (a +:+ String c b) = false.
Proof.
  intros Hc. destruct (compact (a +:+ String c b)) eqn:E; [|reflexivity].
  apply compact_chars in E. rewrite allChars_app in E.
  apply andb_true_iff in E as [_ E]. cbn [allChars] in E.
  apply andb_true_iff in E as [E _].
  rewrite (space_not_tokenChar c Hc) in E. discriminate.
Qed.

Lemma dropSpaces_id s :
  match s with String c _ => isSpace c = false | EmptyString => True end ->
  dropSpaces s = s.
Proof. destruct s as [|c r]; [reflexivity|]. simpl. intros ->. reflexivity. Qed.

Lemma dropSpaces_app ws s :
  allChars isSpace ws = true -> dropSpaces (ws +:+ s) = dropSpaces s.
Proof.
  induction ws as [|c ws IH]; [reflexivity|].
  cbn [allChars]. intros [Hc Hws]%andb_true_iff.
  simpl. rewrite Hc. apply IH, Hws.
Qed.

End Bearer.

(** ** The verifiers *)

Section Verifiers.
Import Js Jwt.
Context {jwt : Library}.
Variable env : gmap string string.

Lemma orElse_nonempty a b : b <> "" -> orElse a b <> "".
Proof.
  intros Hb. unfold orElse. destruct a as [s|]; [|exact Hb].
  destruct (falsyString s) eqn:E; [exact Hb|].
  intros ->. discriminate.
Qed.

Lemma getSecret_nonempty type : getSecret env type <> "".
Proof. destruct type; apply orElse_nonempty; discriminate. Qed.

(** A verifier answers "valid" exactly for a decoded claim set of its own
    type with a truthy [userId]. *)
Lemma checkDecoded_valid expected r res :
  checkDecoded expected r = Some res /\ isValid res = true <->
  exists d u, r = Ok d /\ claim d "type" = Some (JStr expected)
              /\ claim d "userId" = Some u /\ truthy (Some u) = true
              /\ res = {| userId := u; isValid := true; error := None |}.
Proof.
  unfold checkDecoded. split.
  - intros [H Hv]. destruct r as [d|e].
    + destruct (bool_decide_reflect (claim d "type" = Some (JStr expected)))
        as [Ht|Ht]; [|discriminate].
      cbn [negb] in H. destruct (claim d "userId") as [u|] eqn:Hcu; [|discriminate].
      destruct (truthy (Some u)) eqn:Hu; [|discriminate].
      cbn [negb] in H. injection H as <-. exists d, u. auto 10.
    + destruct (instanceofJsonWebTokenError e);
        [|destruct (instanceofTokenExpiredError e)];
        try discriminate; injection H as <-; discriminate.
  - intros (d & u & -> & Ht & Hu & Htr & ->).
    rewrite bool_decide_true by exact Ht. cbn [negb].
    rewrite Hu, Htr. split; reflexivity.
Qed.

Lemma checkDecoded_other_type expected d :
  claim d "type" <> Some (JStr expected) -> checkDecoded expected (Ok d) = None.
Proof.
  intros H. unfold checkDecoded. rewrite bool_decide_false by exact H. reflexivity.
Qed.

End Verifiers.

(** C7.  Each verifier accepts only tokens of its own kind.
    [verifyAccessToken] answers with a valid result exactly when the library
    verifies the token (after the prefix removal) under the access secret
    and the claim set it yields has [type = "access"] and a truthy [userId];
    [verifyRefreshToken] likewise with the refresh secret and
    [type = "refresh"].  So a token whose type claim is ["refresh"] gets no
    valid result from [verifyAccessToken], and a token whose type claim is
    ["access"] gets none from [verifyRefreshToken], whatever the token. *)
Theorem C7_verifiers_accept_only_their_kind :
  forall (jwt : Jwt.Library) (env : gmap string string) (token : string) (now : Z),
    ((exists r, verifyAccessToken env token now = Some r /\ isValid r = true) <->
     (token <> "" /\
      exists d u,
        Jwt.verify (Js.replaceBearer token) (getSecret env access) now = Jwt.Ok d
        /\ Jwt.claim d "type" = Some (Js.JStr "access")
        /\ Jwt.claim d "userId" = Some u /\ Js.truthy (Some u) = true))
    /\
    ((exists r, verifyRefreshToken env token now = Some r /\ isValid r = true) <->
     (token <> "" /\
      exists d u,
        Jwt.verify token (getSecret env refresh) now = Jwt.Ok d
        /\ Jwt.claim d "type" = Some (Js.JStr "refresh")
        /\ Jwt.claim d "userId" = Some u /\ Js.truthy (Some u) = true))
    /\
    (forall d,
        Jwt.verify (Js.replaceBearer token) (getSecret env access) now = Jwt.Ok d ->
        Jwt.claim d "type" = Some (Js.JStr "refresh") ->
        verifyAccessToken env token now = None)
    /\
    (forall d,
        Jwt.verify token (getSecret env refresh) now = Jwt.Ok d ->
        Jwt.claim d "type" = Some (Js.JStr "access") ->
        verifyRefreshToken env token now = None).
Proof.
  intros jwt env token now.
  assert (Hempty : forall t, Js.falsyString t = false <-> t <> "").
  { intros t. unfold Js.falsyString. rewrite <- not_true_iff_false, String.eqb_eq.
    reflexivity. }
  split; [|split; [|split]].
  - split.
    + intros [r [H Hv]]. unfold verifyAccessToken in H.
      destruct (Js.falsyString token) eqn:E; [discriminate|].
      split; [apply Hempty; exact E|].
      destruct (proj1 (checkDecoded_valid _ _ _) (conj H Hv))
        as (d & u & Hd & Ht & Hu & Htr & _).
      eauto 10.
    + intros [Hne (d & u & Hd & Ht & Hu & Htr)].
      exists {| userId := u; isValid := true; error := None |}.
      unfold verifyAccessToken. rewrite (proj2 (Hempty token) Hne).
      apply checkDecoded_valid. eauto 10.
  - split.
    + intros [r [H Hv]]. unfold verifyRefreshToken in H.
      destruct (Js.falsyString token) eqn:E; [discriminate|].
      split; [apply Hempty; exact E|].
      destruct (proj1 (checkDecoded_valid _ _ _) (conj H Hv))
        as (d & u & Hd & Ht & Hu & Htr & _).
      eauto 10.
    + intros [Hne (d & u & Hd & Ht & Hu & Htr)].
      exists {| userId := u; isValid := true; error := None |}.
      unfold verifyRefreshToken. rewrite (proj2 (Hempty token) Hne).
      apply checkDecoded_valid. eauto 10.
  - intros d Hd Ht. unfold verifyAccessToken.
    destruct (Js.falsyString token); [reflexivity|].
    rewrite Hd. apply checkDecoded_other_type. rewrite Ht. discriminate.
  - intros d Hd Ht. unfold verifyRefreshToken.
    destruct (Js.falsyString token); [reflexivity|].
    rewrite Hd. apply checkDecoded_other_type. rewrite Ht. discriminate.
Qed.

(** ** Issuing and verifying an access token *)

Section Issue.
Import Js Jwt.
Context {jwt : Library}.
Variable env : gmap string string.

Lemma payload_plain u type : plain (payload u type None) = true.
Proof. reflexivity. Qed.

Lemma stamp_type u type o now :
  stamp (payload u type None) o now !! "type" = Some (JStr type).
Proof. reflexivity. Qed.

Lemma stamp_userId u type o now :
  stamp (payload u type None) o now !! "userId" = Some (JStr u).
Proof. reflexivity. Qed.

(** What verification answers for a token the service has just signed. *)
Lemma verify_generated (laws : Laws jwt) kind secret u expiry now now' tok :
  sign (payload u kind None) secret (signOptions env expiry) now = Ok tok ->
  u <> "" ->
  now' / 1000 < now / 1000 + expiry ->
  checkDecoded kind (verify tok secret now')
  = Some {| userId := JStr u; isValid := true; error := None |}.
Proof.
  intros Hs Hu Hlt.
  rewrite (verify_sign jwt laws (payload u kind None) secret (signOptions env expiry)
             now tok now' (payload_plain u kind) eq_refl Hs) by exact Hlt.
  unfold checkDecoded, claim.
  rewrite stamp_type, stamp_userId.
  rewrite bool_decide_true by reflexivity. cbn [negb truthy].
  destruct (String.eqb_spec u ""); [contradiction|reflexivity].
Qed.

End Issue.

(** C2.  An access token issued for a non-empty principal id [P], as the
    token-pair path issues it (no additional claims), verifies to
    [{userId: P, isValid: true}] when it is verified at once, and at any
    instant before the second in which it expires. *)
Theorem C2_issue_then_verify_access :
  forall (jwt : Jwt.Library) (laws : Jwt.Laws jwt) (env : gmap string string)
         (P : string) (now now' : Z),
    P <> "" ->
    now' / 1000 < now / 1000 + ACCESS_TOKEN_EXPIRY ->
    exists tok,
      generateAccessToken env P None now = Return tok
      /\ verifyAccessToken env tok now'
         = Some {| userId := Js.JStr P; isValid := true; error := None |}
      /\ forall sessionData sessions pair sessions',
           generateTokenPair env P sessionData now sessions = (Return pair, sessions') ->
           accessToken pair = tok.
Proof.
  intros jwt laws env P now now' HP Hlt.
  destruct (Jwt.sign_plain jwt laws (payload P "access" None) (getSecret env access)
              (signOptions env ACCESS_TOKEN_EXPIRY) now
              (getSecret_nonempty env access) (payload_plain P "access") eq_refl eq_refl)
    as [tok Hs].
  assert (Hg : generateAccessToken env P None now = Return tok).
  { unfold generateAccessToken. rewrite Hs.
    destruct (Js.falsyString P) eqn:E; [|reflexivity].
    apply String.eqb_eq in E. contradiction. }
  exists tok. split; [exact Hg|]. split.
  - pose proof (Jwt.sign_compact jwt laws _ _ _ _ _ Hs) as Hc.
    unfold verifyAccessToken.
    rewrite (compact_nonempty tok Hc), (replaceBearer_compact tok Hc).
    eapply verify_generated; eauto.
  - intros sd sessions pair sessions' H. unfold generateTokenPair in H.
    rewrite Hg in H.
    destruct (generateRefreshToken env P now) as [r|]; [|discriminate].
    destruct (createSession P r sd now sessions) as [[[]|c] s'];
      [|discriminate].
    injection H as <- _. reflexivity.
Qed.

Lemma C2_issue_then_verify_access_witness :
  exists tok,
    generateAccessToken (jwt := ToyJwt.library) ∅ "507f1f77bcf86cd799439011" None 1000200
    = Return tok
    /\ verifyAccessToken (jwt := ToyJwt.library) ∅ tok 1000200
       = Some {| userId := Js.JStr "507f1f77bcf86cd799439011"; isValid := true;
                 error := None |}.
Proof.
  destruct (C2_issue_then_verify_access ToyJwt.library toy_laws ∅
              "507f1f77bcf86cd799439011" 1000200 1000200) as (tok & H1 & H2 & _).
  - discriminate.
  - vm_compute. reflexivity.
  - exists tok. split; assumption.
Defined.

(** ** The [Bearer] prefix at the two verifiers *)

Section Prefix.
Import Js Jwt.

Lemma matchLiteralI_app lit p r t :
  matchLiteralI lit p = Some r -> matchLiteralI lit (p +:+ t) = Some (r +:+ t).
Proof.
  revert p. induction lit as [|a lit IH]; intros p; simpl.
  - intros [= ->]. reflexivity.
  - destruct p as [|b p]; [discriminate|]. simpl.
    destruct (eqIgnoreCase a b); [apply IH|discriminate].
Qed.

Lemma replaceBearer_prefix p t :
  isBearerPrefix p = true -> replaceBearer (p +:+ t) = dropSpaces t.
Proof.
  unfold isBearerPrefix, replaceBearer. intros H.
  destruct (matchLiteralI "Bearer" p) as [[|c ws]|] eqn:E; try discriminate.
  apply andb_true_iff in H as [Hc Hws].
  rewrite (matchLiteralI_app _ _ _ t E). simpl. rewrite Hc.
  apply dropSpaces_app, Hws.
Qed.

Lemma bearerPrefix_nonempty p t :
  isBearerPrefix p = true -> falsyString (p +:+ t) = false.
Proof. destruct p; [discriminate|reflexivity]. Qed.

End Prefix.

(** C10, as amended.  [verifyAccessToken] removes one leading [Bearer]
    (in any letter case) with all the white space that follows it.  For a
    non-empty [t] that does not start with white space and does not itself
    start with such a prefix, the result for the prefixed string is the
    result for [t].  [verifyRefreshToken] removes nothing: for every [t],
    ["Bearer " + t] gets the invalid result from it. *)
Theorem C10_bearer_prefix :
  forall (jwt : Jwt.Library) (laws : Jwt.Laws jwt) (env : gmap string string)
         (t : string) (now : Z),
    (t <> "" -> startsWithSpace t = false -> Js.replaceBearer t = t ->
     forall prefix, isBearerPrefix prefix = true ->
       verifyAccessToken env (prefix +:+ t) now = verifyAccessToken env t now)
    /\ verifyRefreshToken env ("Bearer " +:+ t) now
       = Some {| userId := Js.JStr ""; isValid := false;
                 error := Some "Invalid token signature" |}.
Proof.
  intros jwt laws env t now. split.
  - intros Hne Hsp Hid prefix Hp. unfold verifyAccessToken.
    rewrite (bearerPrefix_nonempty prefix t Hp), (replaceBearer_prefix prefix t Hp).
    rewrite dropSpaces_id by (destruct t; [exact I|exact Hsp]).
    rewrite Hid.
    destruct (Js.falsyString t) eqn:E; [|reflexivity].
    apply String.eqb_eq in E. contradiction.
  - unfold verifyRefreshToken.
    change (Js.falsyString ("Bearer " +:+ t)) with false. cbv iota.
    rewrite (Jwt.verify_compact jwt laws).
    + reflexivity.
    + exact (space_not_compact "Bearer" " " t eq_refl).
Qed.

Lemma C10_bearer_prefix_witness :
  verifyAccessToken (jwt := ToyJwt.library) ∅ ("bEARER  " +:+ "a.b.c") 0
  = verifyAccessToken (jwt := ToyJwt.library) ∅ "a.b.c" 0
  /\ verifyRefreshToken (jwt := ToyJwt.library) ∅ ("Bearer " +:+ "a.b.c") 0
     = Some {| userId := Js.JStr ""; isValid := false;
               error := Some "Invalid token signature" |}.
Proof.
  destruct (C10_bearer_prefix ToyJwt.library toy_laws ∅ "a.b.c" 0) as [H1 H2].
  split; [|exact H2].
  apply H1; [discriminate|reflexivity|reflexivity|reflexivity].
Defined.

(** C10, as stated, fails: the empty string gets [null] but ["Bearer "] gets
    the invalid result; white space before a token is removed with the
    prefix but not without it; and of two prefixes only one is removed. *)
Lemma C10_counterexample :
  verifyAccessToken (jwt := ToyJwt.library) ∅ ("Bearer " +:+ "") 0
  <> verifyAccessToken (jwt := ToyJwt.library) ∅ "" 0
  /\ match generateAccessToken (jwt := ToyJwt.library) ∅ "507f1f77bcf86cd799439011" None 0 with
     | Return tok =>
         verifyAccessToken (jwt := ToyJwt.library) ∅ ("Bearer " +:+ (" " +:+ tok)) 0
         <> verifyAccessToken (jwt := ToyJwt.library) ∅ (" " +:+ tok) 0
         /\ verifyAccessToken (jwt := ToyJwt.library) ∅ ("Bearer " +:+ ("Bearer " +:+ tok)) 0
            <> verifyAccessToken (jwt := ToyJwt.library) ∅ ("Bearer " +:+ tok) 0
     | Throws _ => False
     end.
Proof. vm_compute. repeat split; discriminate. Qed.

(** ** The session collection *)

Section Store.
Import Js Mongoose Session.

Lemma castUpdate_revoke now :
  castUpdate sessionSchema [("isActive", IBoolean false); ("revokedAt", IDate now)] now
  = Some (deactivation now).
Proof. reflexivity. Qed.

Lemma applySet_deactivation now d : applySet (deactivation now) d = deactivate now d.
Proof. reflexivity. Qed.

Lemma matches_byHash h d :
  matches (byHash h) d = true <-> d !! "refreshTokenHash" = Some (VString h).
Proof.
  unfold matches, byHash, holds. cbn [forallb fst snd].
  rewrite andb_true_r.
  destruct (d !! "refreshTokenHash") as [w|]; [|split; discriminate].
  rewrite bool_decide_eq_true. split; congruence.
Qed.

Lemma matches_usable h now d :
  matches (usable h now) d = true <->
  d !! "refreshTokenHash" = Some (VString h)
  /\ d !! "isActive" = Some (VBoolean true)
  /\ exists x, d !! "expiresAt" = Some (VDate x) /\ now < x.
Proof.
  unfold matches, usable, holds. cbn [forallb fst snd].
  rewrite andb_true_r, !andb_true_iff.
  destruct (d !! "refreshTokenHash") as [w|];
    [|split; [intros [? _]; discriminate | intros [? _]; discriminate]].
  destruct (d !! "isActive") as [a|];
    [|split; [intros (_ & ? & _); discriminate | intros (_ & ? & _); discriminate]].
  rewrite !bool_decide_eq_true.
  destruct (d !! "expiresAt") as [[s|b|x|o]|].
  all: split;
    [ intros (H1 & H2 & H3); try discriminate
    | intros (H1 & H2 & (x' & H3 & H4)); try discriminate ].
  - apply Z.ltb_lt in H3. repeat split; try congruence. eauto.
  - injection H3 as ->. repeat split; try congruence. apply Z.ltb_lt, H4.
Qed.

Lemma matches_activeOf u d :
  matches (activeOf u) d = true <->
  d !! "userId" = Some (VObjectId u) /\ d !! "isActive" = Some (VBoolean true).
Proof.
  unfold matches, activeOf, holds. cbn [forallb fst snd].
  rewrite andb_true_r, andb_true_iff.
  destruct (d !! "userId") as [w|];
    [|split; [intros [? _]; discriminate | intros [? _]; discriminate]].
  destruct (d !! "isActive") as [a|];
    [|split; [intros [_ ?]; discriminate | intros [_ ?]; discriminate]].
  rewrite !bool_decide_eq_true. split; intros [? ?]; split; congruence.
Qed.




Lemma updateAll_map f sets coll :
  snd (updateAll f sets coll)
  = map (fun d => if matches f d then applySet sets d else d) coll.
Proof.
  induction coll as [|d coll IH]; [reflexivity|]. simpl.
  destruct (updateAll f sets coll) as [r rest]. simpl in IH.
  destruct (matches f d); simpl; congruence.
Qed.

Lemma updateAll_modified f sets coll :
  (forall d, matches f d = true -> applySet sets d <> d) ->
  modifiedCount (fst (updateAll f sets coll)) = length (filter (fun d => matches f d = true) coll).
Proof.
  intros Hch. induction coll as [|d coll IH]; [reflexivity|]. simpl.
  destruct (updateAll f sets coll) as [r rest]. simpl in IH.
  destruct (matches f d) eqn:Em.
  - rewrite filter_cons_True by exact Em. simpl. unfold changed.
    rewrite bool_decide_false by (intros E; apply (Hch d Em); symmetry; exact E).
    simpl. congruence.
  - rewrite filter_cons_False by (rewrite Em; discriminate). exact IH.
Qed.

Lemma findFirst_lookup f n coll i d :
  findFirst f n coll = Some (i, d) ->
  (n <= i)%nat /\ coll !! (i - n)%nat = Some d /\ matches f d = true.
Proof.
  revert n. induction coll as [|e coll IH]; intros n; simpl; [discriminate|].
  destruct (matches f e) eqn:Em.
  - intros [= <- <-]. rewrite Nat.sub_diag. auto.
  - intros H. destruct (IH _ H) as (Hle & Hl & Hm).
    split; [lia|]. split; [|exact Hm].
    replace (i - n)%nat with (S (i - S n)) by lia. exact Hl.
Qed.

Lemma findFirst_none f n coll :
  findFirst f n coll = None <-> forall d, d ∈ coll -> matches f d = false.
Proof.
  revert n. induction coll as [|e coll IH]; intros n; simpl.
  - split; [intros _ d Hd; inversion Hd|reflexivity].
  - destruct (matches f e) eqn:Em.
    + split; [discriminate|]. intros H.
      rewrite (H e) in Em by apply list_elem_of_here. discriminate.
    + rewrite IH. split.
      * intros H d Hd. apply elem_of_cons in Hd as [->|Hd]; auto.
      * intros H d Hd. apply H, list_elem_of_further, Hd.
Qed.

Lemma findFirst_first f n coll i d :
  coll !! i = Some d -> matches f d = true ->
  (forall j e, (j < i)%nat -> coll !! j = Some e -> matches f e = false) ->
  findFirst f n coll = Some ((n + i)%nat, d).
Proof.
  revert n i. induction coll as [|e coll IH]; intros n i Hi Hm Hbefore; [discriminate|].
  simpl. destruct i as [|i]; simpl in Hi.
  - injection Hi as ->. rewrite Hm, Nat.add_0_r. reflexivity.
  - rewrite (Hbefore 0%nat e) by (reflexivity || lia).
    rewrite (IH (S n) i Hi Hm).
    + f_equal. f_equal. lia.
    + intros j x Hj Hx. apply (Hbefore (S j) x); [lia|exact Hx].
Qed.

Lemma updateFirst_findFirst f sets coll n :
  snd (updateFirst f sets coll)
  = match findFirst f n coll with
    | Some (i, d) => <[(i - n)%nat := applySet sets d]> coll
    | None => coll
    end.
Proof.
  revert n. induction coll as [|e coll IH]; intros n; [reflexivity|]. simpl.
  destruct (matches f e) eqn:Em.
  - rewrite Nat.sub_diag. reflexivity.
  - specialize (IH (S n)).
    destruct (updateFirst f sets coll) as [r rest]. simpl in *.
    destruct (findFirst f (S n) coll) as [[i d]|] eqn:Ef; [|congruence].
    destruct (findFirst_lookup _ _ _ _ _ Ef) as (Hle & _ & _).
    replace (i - n)%nat with (S (i - S n)) by lia. simpl. congruence.
Qed.

End Store.

(** ** The session operations of the service *)

Section Sessions.
Import Js Mongoose Session.

Lemma falsyString_false s : s <> "" -> falsyString s = false.
Proof.
  intros H. unfold falsyString. destruct (String.eqb_spec s ""); congruence.
Qed.

Lemma castFilter_byHash h :
  castFilter sessionSchema [("refreshTokenHash", Equals (IString h))]
  = Some (byHash h).
Proof. reflexivity. Qed.

Lemma castFilter_usable h now :
  castFilter sessionSchema
    [ ("refreshTokenHash", Equals (IString h));
      ("isActive", Equals (IBoolean true));
      ("expiresAt", GreaterThan now) ]
  = Some (usable h now).
Proof. reflexivity. Qed.

(** [revokeSession] on a non-empty token: no exception, and the first
    document with the digest of the token is deactivated. *)
Lemma revokeSession_run R now sessions :
  R <> "" ->
  revokeSession R now sessions
  = (Return tt, snd (updateFirst (byHash (Sha256.hex R)) (deactivation now) sessions)).
Proof.
  intros HR. unfold revokeSession, hashRefreshToken, updateOne.
  rewrite (falsyString_false R HR), castFilter_byHash, castUpdate_revoke.
  destruct (updateFirst _ _ sessions). reflexivity.
Qed.

Lemma deactivate_other now d k :
  k <> "updatedAt" -> k <> "isActive" -> deactivate now d !! k = d !! k.
Proof.
  intros H1 H2. unfold deactivate.
  rewrite !lookup_insert_ne by congruence. reflexivity.
Qed.

Lemma deactivate_inactive now d k :
  d !! "isActive" = Some (VBoolean false) ->
  k <> "updatedAt" -> deactivate now d !! k = d !! k.
Proof.
  intros Hd Hk. unfold deactivate. rewrite lookup_insert_ne by congruence.
  destruct (decide (k = "isActive")) as [->|Hne].
  - rewrite lookup_insert_eq. symmetry. exact Hd.
  - rewrite lookup_insert_ne by congruence. reflexivity.
Qed.

Lemma save_lastUsed i d now sessions :
  sessions !! i = Some d ->
  exists sessions', save sessionSchema i "lastUsed" (IDate now) now sessions = Some sessions'.
Proof.
  intros H. unfold save. rewrite H.
  change (pathOf sessionSchema "lastUsed")
    with (Some {| ptype := TDate; required := false; pdefault := DefaultNow |}).
  cbn [ptype cast]. destruct (bool_decide _); eauto.
Qed.

End Sessions.




(** ** Validation of a session *)

Section Validate.
Import Js Jwt Mongoose Session.
Context {jwt : Library}.
Variable env : gmap string string.

(** Once the token itself is verified, [validateSession] is the lookup of
    the first usable record, the write of [lastUsed], and the read of the
    record's [userId]. *)
Lemma validateSession_run R now sessions tv :
  R <> "" ->
  verifyRefreshToken env R now = Some tv -> isValid tv = true ->
  validateSession env R now sessions =
    match findFirst (usable (Sha256.hex R) now) 0 sessions with
    | Some (i, session) =>
        match save sessionSchema i "lastUsed" (IDate now) now sessions with
        | Some sessions' =>
            match userIdOf session with
            | Some u => (Some u, sessions')
            | None => (None, sessions')
            end
        | None => (None, sessions)
        end
    | None => (None, sessions)
    end.
Proof.
  intros HR Hv Hvalid. unfold validateSession, hashRefreshToken, findOne.
  rewrite (falsyString_false R HR), Hv, Hvalid, castFilter_usable.
  cbn [negb]. destruct (findFirst _ 0 sessions) as [[i d]|]; reflexivity.
Qed.

Lemma validateSession_unverified R now sessions :
  (forall tv, verifyRefreshToken env R now = Some tv -> isValid tv = false) ->
  validateSession env R now sessions = (None, sessions).
Proof.
  intros H. unfold validateSession.
  destruct (falsyString R); [reflexivity|].
  destruct (verifyRefreshToken env R now) as [tv|] eqn:E; [|reflexivity].
  rewrite (H tv eq_refl). reflexivity.
Qed.

(** The first half of C1: on a collection whose records carry a [userId],
    [validateSession] returns a principal exactly when the token passes
    the stateless verification and some record has the digest of the
    token, is active, and expires strictly after [now]. *)
Theorem validateSession_spec R now sessions :
  (forall d, d ∈ sessions -> is_Some (userIdOf d)) ->
  is_Some (fst (validateSession env R now sessions)) <->
  (R <> ""
   /\ (exists tv, verifyRefreshToken env R now = Some tv /\ isValid tv = true)
   /\ exists d, d ∈ sessions
        /\ d !! "refreshTokenHash" = Some (VString (Sha256.hex R))
        /\ d !! "isActive" = Some (VBoolean true)
        /\ exists x, d !! "expiresAt" = Some (VDate x) /\ now < x).
Proof.
  intros Hwf. split.
  - intros Hsome.
    destruct (String.eqb_spec R "") as [->|HR].
    { destruct Hsome as [u Hu]. discriminate Hu. }
    destruct (verifyRefreshToken env R now) as [tv|] eqn:Ev.
    2:{ rewrite validateSession_unverified in Hsome
          by (intros tv Htv; rewrite Ev in Htv; discriminate Htv).
        destruct Hsome as [u Hu]. discriminate Hu. }
    destruct (isValid tv) eqn:Evalid.
    2:{ rewrite validateSession_unverified in Hsome
          by (intros tv' Htv; rewrite Ev in Htv; injection Htv as <-; exact Evalid).
        destruct Hsome as [u Hu]. discriminate Hu. }
    rewrite (validateSession_run R now sessions tv HR Ev Evalid) in Hsome.
    destruct (findFirst (usable (Sha256.hex R) now) 0 sessions) as [[i d]|] eqn:Ef.
    2:{ destruct Hsome as [u Hu]. discriminate Hu. }
    destruct (findFirst_lookup _ _ _ _ _ Ef) as (_ & Hl & Hm).
    split; [exact HR|]. split; [eauto|].
    exists d. split; [eapply list_elem_of_lookup_2, Hl|].
    apply matches_usable, Hm.
  - intros (HR & (tv & Ev & Evalid) & d & Hd & Hh & Ha & x & Hx & Hlt).
    rewrite (validateSession_run R now sessions tv HR Ev Evalid).
    destruct (findFirst (usable (Sha256.hex R) now) 0 sessions) as [[i e]|] eqn:Ef.
    + destruct (findFirst_lookup _ _ _ _ _ Ef) as (_ & Hl & Hm).
      rewrite Nat.sub_0_r in Hl.
      destruct (save_lastUsed i e now sessions Hl) as [s' ->].
      destruct (Hwf e (list_elem_of_lookup_2 _ _ _ Hl)) as [u ->].
      eexists. reflexivity.
    + exfalso. pose proof (proj1 (findFirst_none _ _ _) Ef d Hd) as Hn.
      apply not_true_iff_false in Hn. apply Hn, matches_usable. eauto 10.
Qed.

(** Two refresh tokens issued to one principal within one clock second
    are the same string. *)
Lemma generateRefreshToken_same_second (laws : Laws jwt) u now now' :
  now / 1000 = now' / 1000 ->
  generateRefreshToken env u now = generateRefreshToken env u now'.
Proof.
  intros H. unfold generateRefreshToken.
  rewrite (sign_seconds jwt laws _ _ _ now now' H). reflexivity.
Qed.

End Validate.

(** After a revocation, validation fails when the digest of the token
    identifies one record at most. *)
Theorem revoke_then_validate_unique :
  forall (jwt : Jwt.Library) (env : gmap string string) (R : string)
         (now now' : Z) (sessions : list (gmap string Mongoose.Value)),
    R <> "" ->
    (forall i j d e, sessions !! i = Some d -> sessions !! j = Some e ->
       d !! "refreshTokenHash" = Some (Mongoose.VString (Sha256.hex R)) ->
       e !! "refreshTokenHash" = Some (Mongoose.VString (Sha256.hex R)) -> i = j) ->
    fst (validateSession env R now' (snd (revokeSession R now sessions))) = None.
Proof.
  intros jwt env R now now' sessions HR Huniq.
  rewrite (revokeSession_run R now sessions HR).
  cbn [snd].
  set (sessions' := snd (Mongoose.updateFirst _ _ sessions)).
  assert (Hnone : forall d, d ∈ sessions' ->
            Mongoose.matches (usable (Sha256.hex R) now') d = false).
  { intros d' Hd'. apply not_true_iff_false. intros Hm.
    apply matches_usable in Hm as (Hh & Ha & _).
    apply list_elem_of_lookup_1 in Hd' as [i Hi].
    subst sessions'.
    rewrite (updateFirst_findFirst _ _ _ 0%nat) in Hi.
    destruct (Mongoose.findFirst (byHash (Sha256.hex R)) 0 sessions)
      as [[i0 d0]|] eqn:Ef.
    - destruct (findFirst_lookup _ _ _ _ _ Ef) as (_ & Hl & Hm0).
      rewrite Nat.sub_0_r in Hl, Hi.
      destruct (decide (i0 = i)) as [->|Hne].
      + rewrite list_lookup_insert_eq in Hi by (eapply lookup_lt_Some, Hl).
        injection Hi as <-.
        rewrite lookup_insert_ne, lookup_insert_eq in Ha by discriminate.
        discriminate Ha.
      + rewrite list_lookup_insert_ne in Hi by exact Hne.
        apply matches_byHash in Hm0.
        apply Hne. exact (Huniq i0 i d0 d' Hl Hi Hm0 Hh).
    - pose proof (proj1 (findFirst_none _ _ _) Ef d'
                     (list_elem_of_lookup_2 _ _ _ Hi)) as Hn.
      apply not_true_iff_false in Hn. apply Hn, matches_byHash, Hh. }
  unfold validateSession.
  destruct (Js.falsyString R); [reflexivity|].
  destruct (verifyRefreshToken env R now') as [tv|]; [|reflexivity].
  destruct (negb (isValid tv)); [reflexivity|].
  unfold hashRefreshToken. rewrite (falsyString_false R HR).
  unfold Mongoose.findOne. rewrite castFilter_usable.
  rewrite (proj2 (findFirst_none _ 0%nat sessions') Hnone). reflexivity.
Qed.

(** ** Creating a session *)

Section Create.
Import Js Jwt Mongoose Session.

Lemma newDocument_session u hsh sd now :
  newDocument sessionSchema
    [ ("userId", IString u);
      ("refreshTokenHash", IString hsh);
      ("deviceInfo", IString (deviceInfo sd));
      ("ipAddress", IString (ipAddress sd));
      ("userAgent", match userAgent sd with
                    | Some ua => IString ua
                    | None => IUndefined
                    end);
      ("expiresAt", IDate (now + SEVEN_DAYS));
      ("isActive", IBoolean true);
      ("createdAt", IDate now);
      ("lastUsed", IDate now) ] now
  = match castObjectId u with
    | Some h =>
        if falsyString hsh || falsyString (ipAddress sd) then None
        else Some (sessionDocument h hsh sd now)
    | None => None
    end.
Proof.
  unfold newDocument, schemaPaths, sessionSchema, sessionDocument, date.
  cbn [paths timestamps strict app].
  cbn [initPaths initPath property List.find fst snd String.eqb Ascii.eqb
       Bool.eqb pdefault ptype required cast].
  destruct (castObjectId u) as [h|]; [|reflexivity].
  cbn [fmap option_fmap option_map andb].
  rewrite (bool_decide_false (VObjectId h = VString "")) by discriminate.
  unfold falsyString.
  destruct (String.eqb_spec hsh "") as [->|Hh]; [reflexivity|].
  rewrite (bool_decide_false (VString hsh = VString "")) by congruence.
  destruct (String.eqb_spec (ipAddress sd) "") as [Hip|Hip].
  { rewrite Hip. reflexivity. }
  rewrite (bool_decide_false (VString (ipAddress sd) = VString "")) by congruence.
  cbn [orb].
  rewrite (bool_decide_false (VDate (now + SEVEN_DAYS) = VString "")) by discriminate.
  destruct (userAgent sd) as [ua|];
    cbn [initPaths initPath property List.find fst snd String.eqb Ascii.eqb
         Bool.eqb pdefault ptype required cast andb stampNew timestamps];
    rewrite lookup_insert_eq; cbn [default from_option];
    rewrite insert_insert_eq; reflexivity.
Qed.

(** [createSession] succeeds exactly on a non-empty token, a principal id
    that is an ObjectId and a non-empty address, and then appends the
    record above with the digest of the token. *)
Lemma createSession_run u R sd now sessions :
  createSession u R sd now sessions =
    match castObjectId u with
    | Some h =>
        if falsyString R || falsyString (ipAddress sd)
        then (Throws "SESSION_CREATION_FAILED", sessions)
        else (Return tt, sessions ++ [sessionDocument h (Sha256.hex R) sd now])
    | None => (Throws "SESSION_CREATION_FAILED", sessions)
    end.
Proof.
  unfold createSession, hashRefreshToken, create.
  destruct (falsyString u) eqn:Eu.
  { apply String.eqb_eq in Eu. subst u. reflexivity. }
  destruct (falsyString R) eqn:ER; cbn [orb].
  { destruct (castObjectId u); reflexivity. }
  rewrite newDocument_session.
  destruct (castObjectId u) as [h|]; [|reflexivity].
  assert (Hd : falsyString (Sha256.hex R) = false).
  { pose proof (digest_length R) as Hl.
    destruct (Sha256.hex R) eqn:E; [simpl in Hl; discriminate Hl|reflexivity]. }
  rewrite Hd. cbn [orb].
  destruct (falsyString (ipAddress sd)); reflexivity.
Qed.

(** The fields of the record. *)
Lemma sessionDocument_lookup h hsh sd now k v :
  sessionDocument h hsh sd now !! k = Some v ->
  (k = "userId" /\ v = VObjectId h)
  \/ (k = "refreshTokenHash" /\ v = VString hsh)
  \/ (k = "deviceInfo" /\ v = VString (deviceInfo sd))
  \/ (k = "ipAddress" /\ v = VString (ipAddress sd))
  \/ (k = "userAgent" /\ exists ua, userAgent sd = Some ua /\ v = VString ua)
  \/ (exists t, v = VDate t)
  \/ (exists b, v = VBoolean b).
Proof.
  unfold sessionDocument. intros H.
  repeat (rewrite lookup_insert in H;
          destruct (decide _) as [<-|_] in H;
          [injection H as <-; eauto 12|]).
  destruct (userAgent sd) as [ua|].
  - repeat (rewrite lookup_insert in H;
            destruct (decide _) as [<-|_] in H;
            [injection H as <-; eauto 12|]).
    rewrite lookup_empty in H. discriminate H.
  - repeat (rewrite lookup_insert in H;
            destruct (decide _) as [<-|_] in H;
            [injection H as <-; eauto 12|]).
    rewrite lookup_empty in H. discriminate H.
Qed.

Lemma sessionDocument_hash h hsh sd now :
  sessionDocument h hsh sd now !! "refreshTokenHash" = Some (VString hsh).
Proof.
  unfold sessionDocument. destruct (userAgent sd); reflexivity.
Qed.

Lemma lower_chars c : isHexDigit c = true -> isLowerHex (lowerChar c) = true.
Proof. destruct c as [[] [] [] [] [] [] [] []]; vm_compute; congruence. Qed.

Lemma castObjectId_chars u h :
  castObjectId u = Some h -> allChars isLowerHex h = true.
Proof.
  unfold castObjectId.
  destruct (Z.of_nat (String.length u) =? 24); [|discriminate].
  cbn [andb]. destruct (allChars isHexDigit u) eqn:E; [|discriminate].
  intros [= <-]. induction u as [|c u IH]; [reflexivity|].
  cbn [allChars] in E. apply andb_true_iff in E as [Hc Hu].
  cbn [lower allChars]. rewrite (lower_chars c Hc), (IH Hu). reflexivity.
Qed.

Lemma contains_chars P R s :
  contains R s -> allChars P s = true -> allChars P R = true.
Proof.
  intros (a & b & ->). rewrite !allChars_app.
  intros [_ [H _]%andb_true_iff]%andb_true_iff. exact H.
Qed.

(** A token in compact form has a character that is no hex digit. *)
Lemma compact_not_hex tok : compact tok = true -> allChars isLowerHex tok = false.
Proof.
  intros Hc. destruct (allChars isLowerHex tok) eqn:E; [|reflexivity].
  unfold compact in Hc. rewrite splitOn_free in Hc; [discriminate Hc|].
  apply (allChars_impl isLowerHex); [|exact E].
  intros c H. apply alnum_isNot; [reflexivity|apply lowerHex_alnum, H].
Qed.

End Create.

(** C9, as amended.  A session that [createSession] persists is one new
    record whose [refreshTokenHash] is the SHA-256 hex digest of the raw
    token.  When the token has a character that is no lower-case hex digit
    (a token in compact form has its dots), the only fields of the record
    that can contain the raw token are [deviceInfo], [ipAddress] and
    [userAgent], which hold what the caller passed for them. *)
Theorem C9_createSession_stores_digest :
  forall (u R : string) (sd : SessionData) (now : Z)
         (sessions sessions' : list (gmap string Mongoose.Value)),
    createSession u R sd now sessions = (Return tt, sessions') ->
    exists doc,
      sessions' = sessions ++ [doc]
      /\ doc !! "refreshTokenHash" = Some (Mongoose.VString (Sha256.hex R))
      /\ (Js.allChars Js.isLowerHex R = false ->
          forall k s,
            doc !! k = Some (Mongoose.VString s) \/ doc !! k = Some (Mongoose.VObjectId s) ->
            Js.contains R s ->
            (k = "deviceInfo" /\ s = deviceInfo sd)
            \/ (k = "ipAddress" /\ s = ipAddress sd)
            \/ (k = "userAgent" /\ userAgent sd = Some s)).
Proof.
  intros u R sd now sessions sessions' H.
  rewrite createSession_run in H.
  destruct (Mongoose.castObjectId u) as [h|] eqn:Eh; [|discriminate H].
  destruct (Js.falsyString R || Js.falsyString (ipAddress sd)); [discriminate H|].
  injection H as <-.
  exists (sessionDocument h (Sha256.hex R) sd now).
  split; [reflexivity|]. split; [apply sessionDocument_hash|].
  intros Hnot k s Hk Hc.
  assert (Hhex : Js.allChars Js.isLowerHex s = true -> False).
  { intros Hs. rewrite (contains_chars _ _ _ Hc Hs) in Hnot. discriminate Hnot. }
  destruct Hk as [Hk|Hk];
    apply sessionDocument_lookup in Hk
      as [[-> Hv]|[[-> Hv]|[[-> Hv]|[[-> Hv]|[[-> (ua & Hua & Hv)]|[[t Hv]|[b Hv]]]]]]];
    try discriminate Hv; try injection Hv as ->.
  - exfalso. apply Hhex, digest_chars.
  - left. auto.
  - right. left. auto.
  - right. right. auto.
  - exfalso. apply Hhex. eapply castObjectId_chars, Eh.
Qed.

Lemma C9_createSession_stores_digest_witness :
  exists doc,
    snd (createSession alice "a.b.c" laptop 1000 []) = [] ++ [doc]
    /\ doc !! "refreshTokenHash" = Some (Mongoose.VString (Sha256.hex "a.b.c")).
Proof.
  destruct (C9_createSession_stores_digest alice "a.b.c" laptop 1000 []
              (snd (createSession alice "a.b.c" laptop 1000 [])))
    as (doc & H1 & H2 & _).
  - by_vm.
  - exists doc. split; assumption.
Defined.

(** C9, as stated, fails: the metadata are stored as they come, so the raw
    token is in the record when the caller put it there; and the digest of
    a token made of hex digits can contain the token. *)
Lemma C9_counterexample :
  fst (createSession alice "a.b.c" leaky 1000 []) = Return tt
  /\ (snd (createSession alice "a.b.c" leaky 1000 []) !! 0%nat)
       ≫= (fun doc => doc !! "deviceInfo")
     = Some (Mongoose.VString "a.b.c")
  /\ (snd (createSession alice "a" laptop 1000 []) !! 0%nat)
       ≫= (fun doc => doc !! "refreshTokenHash")
     = Some (Mongoose.VString (Sha256.hex "a"))
  /\ Js.contains "a" (Sha256.hex "a").
Proof.
  split; [by_vm|]. split; [by_vm|]. split; [by_vm|].
  exists "c", "978112ca1bbdcafac231b39a23dc4da786eff8147c4e72b9807785afee48bb".
  by_vm.
Qed.

(** ** Two logins in one second, in general *)

Section Duplicates.
Import Js Jwt Mongoose Session.
Context {jwt : Library}.
Variable env : gmap string string.

Lemma sessionDocument_fields h hsh sd now :
  sessionDocument h hsh sd now !! "isActive" = Some (VBoolean true)
  /\ sessionDocument h hsh sd now !! "expiresAt" = Some (VDate (now + SEVEN_DAYS))
  /\ userIdOf (sessionDocument h hsh sd now) = Some h.
Proof.
  unfold userIdOf, sessionDocument. destruct (userAgent sd); repeat split; reflexivity.
Qed.

Lemma castObjectId_nonempty u h : castObjectId u = Some h -> u <> "".
Proof. intros H ->. discriminate H. Qed.

(** A login of a principal with an ObjectId and a non-empty address
    succeeds; it appends the record of the refresh token it returns. *)
Lemma generateTokenPair_run (laws : Laws jwt) u h sd now sessions :
  castObjectId u = Some h -> ipAddress sd <> "" ->
  exists a r,
    generateAccessToken env u None now = Return a
    /\ generateRefreshToken env u now = Return r
    /\ sign (payload u "refresh" None) (getSecret env refresh)
         (signOptions env REFRESH_TOKEN_EXPIRY) now = Ok r
    /\ generateTokenPair env u sd now sessions
       = (Return {| accessToken := a; refreshToken := r |},
          sessions ++ [sessionDocument h (Sha256.hex r) sd now]).
Proof.
  intros Hu Hip. pose proof (castObjectId_nonempty u h Hu) as Hne.
  destruct (sign_plain jwt laws (payload u "access" None) (getSecret env access)
              (signOptions env ACCESS_TOKEN_EXPIRY) now
              (getSecret_nonempty env access) (payload_plain u "access") eq_refl eq_refl) as [a Ha].
  destruct (sign_plain jwt laws (payload u "refresh" None) (getSecret env refresh)
              (signOptions env REFRESH_TOKEN_EXPIRY) now
              (getSecret_nonempty env refresh) (payload_plain u "refresh") eq_refl eq_refl) as [r Hr].
  exists a, r.
  assert (Hga : generateAccessToken env u None now = Return a).
  { unfold generateAccessToken. rewrite (falsyString_false u Hne), Ha. reflexivity. }
  assert (Hgr : generateRefreshToken env u now = Return r).
  { unfold generateRefreshToken. rewrite (falsyString_false u Hne), Hr. reflexivity. }
  split; [exact Hga|]. split; [exact Hgr|]. split; [exact Hr|].
  unfold generateTokenPair. rewrite Hga, Hgr, createSession_run, Hu.
  rewrite (falsyString_false (ipAddress sd) Hip).
  rewrite (compact_nonempty r (sign_compact jwt laws _ _ _ _ _ Hr)).
  reflexivity.
Qed.

Lemma findFirst_le f n coll j e :
  coll !! j = Some e -> matches f e = true ->
  exists i d, findFirst f n coll = Some (i, d) /\ (i <= n + j)%nat.
Proof.
  revert n j. induction coll as [|x coll IH]; intros n j Hj Hm; [discriminate|].
  simpl. destruct (matches f x) eqn:Ex.
  - exists n, x. split; [reflexivity|lia].
  - destruct j as [|j]; simpl in Hj.
    + injection Hj as ->. congruence.
    + destruct (IH (S n) j Hj Hm) as (i & d & Hf & Hle).
      exists i, d. split; [exact Hf|lia].
Qed.

(** The defect behind C1, for every implementation of the library that
    satisfies the laws: after two logins of a principal in one clock second
    the refresh token of the two is the same, and once it has been revoked
    [validateSession] still returns a principal for it, as long as it has
    not expired. *)
Theorem revoke_misses_duplicate (laws : Laws jwt) u h sd1 sd2 t1 t2 t3 t4 sessions :
  castObjectId u = Some h -> ipAddress sd1 <> "" -> ipAddress sd2 <> "" ->
  (forall d, d ∈ sessions -> is_Some (userIdOf d)) ->
  t1 / 1000 = t2 / 1000 ->
  t4 / 1000 < t1 / 1000 + REFRESH_TOKEN_EXPIRY ->
  t4 < t2 + SEVEN_DAYS ->
  exists p1 p2 s1 s2,
    generateTokenPair env u sd1 t1 sessions = (Return p1, s1)
    /\ generateTokenPair env u sd2 t2 s1 = (Return p2, s2)
    /\ refreshToken p1 = refreshToken p2
    /\ fst (revokeSession (refreshToken p1) t3 s2) = Return tt
    /\ is_Some (fst (validateSession env (refreshToken p1) t4
                       (snd (revokeSession (refreshToken p1) t3 s2)))).
Proof.
  intros Hu Hip1 Hip2 Hwf Hsec Hexp Hrec.
  destruct (generateTokenPair_run laws u h sd1 t1 sessions Hu Hip1)
    as (a1 & r & _ & Hg1 & Hs1 & Hp1).
  destruct (generateTokenPair_run laws u h sd2 t2
              (sessions ++ [sessionDocument h (Sha256.hex r) sd1 t1]) Hu Hip2)
    as (a2 & r2 & _ & Hg2 & _ & Hp2).
  assert (r2 = r) as ->.
  { rewrite (generateRefreshToken_same_second env laws u t1 t2 Hsec) in Hg1.
    congruence. }
  pose proof (sign_compact jwt laws _ _ _ _ _ Hs1) as Hc.
  assert (Hr : r <> "") by (intros ->; discriminate Hc).
  set (doc1 := sessionDocument h (Sha256.hex r) sd1 t1) in *.
  set (doc2 := sessionDocument h (Sha256.hex r) sd2 t2) in *.
  set (s2 := (sessions ++ [doc1]) ++ [doc2]) in *.
  do 4 eexists. split; [exact Hp1|]. split; [exact Hp2|].
  split; [reflexivity|]. cbn [refreshToken].
  rewrite (revokeSession_run r t3 s2 Hr). split; [reflexivity|]. cbn [snd].
  (* the positions of the two records *)
  assert (H1 : s2 !! length sessions = Some doc1).
  { subst s2. rewrite lookup_app_l by (rewrite length_app; simpl; lia).
    rewrite lookup_app_r by lia. rewrite Nat.sub_diag. reflexivity. }
  assert (H2 : s2 !! S (length sessions) = Some doc2).
  { subst s2. rewrite lookup_app_r by (rewrite length_app; simpl; lia).
    rewrite length_app. simpl.
    replace (S (length sessions) - (length sessions + 1))%nat with 0%nat by lia.
    reflexivity. }
  assert (Hm1 : matches (byHash (Sha256.hex r)) doc1 = true)
    by (apply matches_byHash, sessionDocument_hash).
  destruct (findFirst_le _ 0%nat s2 _ _ H1 Hm1) as (i0 & d0 & Hf & Hle).
  destruct (findFirst_lookup _ _ _ _ _ Hf) as (_ & Hl0 & _).
  rewrite Nat.sub_0_r in Hl0.
  rewrite (updateFirst_findFirst _ _ _ 0%nat), Hf, Nat.sub_0_r.
  rewrite applySet_deactivation.
  set (s3 := <[i0 := deactivate t3 d0]> s2).
  assert (H3 : s3 !! S (length sessions) = Some doc2).
  { subst s3. rewrite list_lookup_insert_ne by lia. exact H2. }
  destruct (sessionDocument_fields h (Sha256.hex r) sd2 t2) as (Hact & Hex & _).
  apply validateSession_spec.
  - (* every record still carries its principal *)
    intros d Hd. apply list_elem_of_lookup_1 in Hd as [i Hi]. subst s3.
    assert (Hs2 : forall e, e ∈ s2 -> is_Some (userIdOf e)).
    { intros e He. subst s2.
      apply elem_of_app in He as [He|He];
        [apply elem_of_app in He as [He|He]|].
      - apply Hwf, He.
      - apply list_elem_of_singleton in He as ->.
        exists h. apply sessionDocument_fields.
      - apply list_elem_of_singleton in He as ->.
        exists h. apply sessionDocument_fields. }
    destruct (decide (i0 = i)) as [->|Hne].
    + rewrite list_lookup_insert_eq in Hi by (eapply lookup_lt_Some, Hl0).
      injection Hi as <-.
      destruct (Hs2 d0 (list_elem_of_lookup_2 _ _ _ Hl0)) as [x Hx].
      exists x. unfold userIdOf, deactivate in *.
      rewrite !lookup_insert_ne by discriminate. exact Hx.
    + rewrite list_lookup_insert_ne in Hi by exact Hne.
      apply Hs2. eapply list_elem_of_lookup_2, Hi.
  - split; [exact Hr|]. split.
    + exists {| userId := JStr u; isValid := true; error := None |}.
      split; [|reflexivity].
      unfold verifyRefreshToken. rewrite (compact_nonempty r Hc).
      eapply verify_generated; eauto.
      eapply castObjectId_nonempty, Hu.
    + exists doc2. split; [eapply list_elem_of_lookup_2, H3|].
      split; [apply sessionDocument_hash|]. split; [exact Hact|].
      exists (t2 + SEVEN_DAYS). split; [exact Hex|exact Hrec].
Qed.

End Duplicates.

(** ** Revocation on concrete collections *)

(** C1: the revocation of a session does not make every later validation
    fail.  Two logins of one principal within one clock second get the same
    refresh token and two records with its digest; [revokeSession]
    deactivates the first record only, and [validateSession] still returns
    the principal from the second. *)
Theorem C1_revoked_session_still_validates :
  match generateTokenPair (jwt := ToyJwt.library) ∅ alice laptop 1000200 [] with
  | (Return p1, s1) =>
      match generateTokenPair (jwt := ToyJwt.library) ∅ alice phone 1000700 s1 with
      | (Return p2, s2) =>
          refreshToken p1 = refreshToken p2
          /\ fst (revokeSession (refreshToken p1) 2000000 s2) = Return tt
          /\ fst (validateSession (jwt := ToyJwt.library) ∅ (refreshToken p1) 3000000
                    (snd (revokeSession (refreshToken p1) 2000000 s2)))
             = Some alice
      | _ => False
      end
  | _ => False
  end.
Proof. vm_compute. repeat split; reflexivity. Qed.

(** C3: [revokeAllUserSessions] deactivates the two active sessions of the
    principal, returns 2 and leaves the third session alone, but no record
    gets a [revokedAt]: the update carries one, and the schema drops it. *)
Theorem C3_revokeAll_sets_no_revokedAt :
  fst (revokeAllUserSessions alice 5000 threeSessions) = Return 2%nat
  /\ map (fun d : gmap string Mongoose.Value => d !! "isActive")
       (snd (revokeAllUserSessions alice 5000 threeSessions))
     = [Some (Mongoose.VBoolean false); Some (Mongoose.VBoolean false);
        Some (Mongoose.VBoolean true)]
  /\ map (fun d : gmap string Mongoose.Value => d !! "revokedAt")
       (snd (revokeAllUserSessions alice 5000 threeSessions))
     = [None; None; None].
Proof. split; [by_vm|]. split; by_vm. Qed.

(** ** Revoking all the sessions of a principal *)

Section RevokeAll.
Import Js Mongoose Session.

Lemma castFilter_activeOf P h :
  castObjectId P = Some h ->
  castFilter sessionSchema
    [("userId", Equals (IString P)); ("isActive", Equals (IBoolean true))]
  = Some (activeOf h).
Proof.
  intros H. unfold castFilter. cbn -[castObjectId]. rewrite H. reflexivity.
Qed.

Lemma deactivate_changes now h d :
  matches (activeOf h) d = true -> applySet (deactivation now) d <> d.
Proof.
  intros [_ Ha]%matches_activeOf E.
  apply (f_equal (fun m : Document => m !! "isActive")) in E.
  rewrite applySet_deactivation in E. unfold deactivate in E.
  rewrite lookup_insert_ne, lookup_insert_eq, Ha in E by discriminate.
  discriminate E.
Qed.

(** What holds of C3: for a principal id that is an ObjectId,
    [revokeAllUserSessions] deactivates exactly the records of the
    principal that are active, leaves every other record as it is, and
    returns the number of the records it deactivated. *)
Theorem revokeAllUserSessions_spec P h now sessions :
  castObjectId P = Some h ->
  revokeAllUserSessions P now sessions
  = (Return (length (filter (fun d => matches (activeOf h) d = true) sessions)),
     map (fun d => if matches (activeOf h) d then deactivate now d else d) sessions).
Proof.
  intros H. unfold revokeAllUserSessions, updateMany.
  assert (HP : falsyString P = false) by (destruct P; [discriminate H|reflexivity]).
  rewrite HP, (castFilter_activeOf P h H), castUpdate_revoke.
  pose proof (updateAll_map (activeOf h) (deactivation now) sessions) as Hm.
  pose proof (updateAll_modified (activeOf h) (deactivation now) sessions
                (deactivate_changes now h)) as Hc.
  destruct (updateAll (activeOf h) (deactivation now) sessions) as [r s'].
  cbn [fst snd] in *. rewrite Hc, Hm. reflexivity.
Qed.

(** No record gets a [revokedAt] from it. *)
Corollary revokeAllUserSessions_revokedAt P h now sessions i d' :
  castObjectId P = Some h ->
  snd (revokeAllUserSessions P now sessions) !! i = Some d' ->
  exists d, sessions !! i = Some d /\ d' !! "revokedAt" = d !! "revokedAt".
Proof.
  intros H. rewrite (revokeAllUserSessions_spec P h now sessions H). cbn [snd].
  rewrite list_lookup_fmap. destruct (sessions !! i) as [d|]; [|discriminate].
  cbn [fmap option_fmap option_map]. intros Hd'.
  assert (E : d' = if matches (activeOf h) d then deactivate now d else d)
    by congruence.
  exists d. split; [reflexivity|]. rewrite E.
  destruct (matches (activeOf h) d); [|reflexivity].
  apply deactivate_other; discriminate.
Qed.

End RevokeAll.

(** ** The session controller and its cache *)

Section Controller.
Import Js Jwt HybridAuthController.
Context {jwt : Library}.
Variable env : gmap string string.

Lemma buildSessionData_lookups this userId now db :
  lookups (snd (buildSessionData this userId now db)) = S (lookups db).
Proof.
  unfold buildSessionData, findById.
  destruct (match Mongoose.castObjectId (toStr userId) with
            | Some hex => users db !! hex | None => None end) as [u|];
    [destruct (negb (isActive u))|]; reflexivity.
Qed.

Lemma buildSessionData_none this userId now db :
  isActiveUser userId db = false ->
  fst (buildSessionData this userId now db) = None.
Proof.
  unfold isActiveUser, userOf, buildSessionData, findById.
  destruct (match Mongoose.castObjectId (toStr userId) with
            | Some hex => users db !! hex | None => None end) as [u|];
    [|reflexivity].
  intros ->. reflexivity.
Qed.

Lemma buildSessionData_some this userId now db :
  isActiveUser userId db = true ->
  exists s,
    fst (buildSessionData this userId now db) = Some s
    /\ tokenExpiresAt (sessionMetadata s) = now + DAY
    /\ refreshAt (sessionMetadata s)
       = now + DAY - REFRESH_BEFORE_EXPIRY_SECONDS this * 1000
    /\ cacheExpiresAt (sessionMetadata s) = now + CACHE_TTL_SECONDS this * 1000.
Proof.
  unfold isActiveUser, userOf, buildSessionData, findById.
  destruct (match Mongoose.castObjectId (toStr userId) with
            | Some hex => users db !! hex | None => None end) as [u|];
    [|discriminate].
  intros ->. cbn [negb fst]. eexists. split; [reflexivity|]. auto.
Qed.

Lemma buildSessionData_times this userId now db s db' :
  buildSessionData this userId now db = (Some s, db') ->
  tokenExpiresAt (sessionMetadata s) = now + DAY
  /\ refreshAt (sessionMetadata s)
     = now + DAY - REFRESH_BEFORE_EXPIRY_SECONDS this * 1000
  /\ cacheExpiresAt (sessionMetadata s) = now + CACHE_TTL_SECONDS this * 1000.
Proof.
  intros H. destruct (isActiveUser userId db) eqn:E.
  - destruct (buildSessionData_some this userId now db E) as (s0 & Hs & Ht).
    rewrite H in Hs. injection Hs as ->. exact Ht.
  - pose proof (buildSessionData_none this userId now db E) as Hn.
    rewrite H in Hn. discriminate Hn.
Qed.

End Controller.

Section Reads.
Import Js Jwt HybridAuthController.
Context {jwt : Library}.
Variable env : gmap string string.

Lemma constructor_fields cacheInstance this :
  constructor cacheInstance = Constructed this ->
  cache this = cacheInstance /\ CACHE_KEY_PREFIX this = "user_session:"
  /\ CACHE_TTL_SECONDS this = 1800 /\ REFRESH_BEFORE_EXPIRY_SECONDS this = 300.
Proof. intros [= <-]. auto. Qed.

(** A read that finds nothing usable in the cache: one rebuild. *)
Lemma getSessionData_rebuild this token now db userId :
  verifyToken env token now = Some userId ->
  (forall s, fst (MemoryCache.get (CACHE_KEY_PREFIX this +:+ toStr userId) now (cache this))
             = Some s -> shouldRefreshCache s now = true) ->
  let key := CACHE_KEY_PREFIX this +:+ toStr userId in
  let this0 := withCache this (snd (MemoryCache.get key now (cache this))) in
  getSessionData env this token now db =
    match fst (buildSessionData this0 userId now db) with
    | None => (Unauthenticated "User not found", this0,
               snd (buildSessionData this0 userId now db))
    | Some fresh => (Authenticated fresh, cacheSession this0 key fresh now,
                     snd (buildSessionData this0 userId now db))
    end.
Proof.
  intros Hv Hstale key this0. unfold getSessionData, getCachedSession.
  rewrite Hv. fold key. subst this0.
  fold key in Hstale.
  destruct (MemoryCache.get key now (cache this)) as [cached c] eqn:Eg.
  cbn [fst snd] in *.
  destruct cached as [s|].
  - rewrite (Hstale s eq_refl). cbn [negb].
    destruct (buildSessionData (withCache this c) userId now db) as [[f|] db'];
      reflexivity.
  - destruct (buildSessionData (withCache this c) userId now db) as [[f|] db'];
      reflexivity.
Qed.

(** An entry the controller has written is never due for a refresh while
    the cache still returns it: its [refreshAt] is the rebuild plus 23 h
    55 min, its expiry in the cache the rebuild plus 30 min. *)
Lemma refresh_window_unreachable cacheInstance this userId key t0 db s now s' :
  constructor cacheInstance = Constructed this ->
  fst (buildSessionData this userId t0 db) = Some s ->
  fst (getCachedSession (cacheSession this key s t0) key now) = Some s' ->
  shouldRefreshCache s' now = false.
Proof.
  intros Hc Hb Hg.
  destruct (constructor_fields _ _ Hc) as (_ & _ & Httl & Hlead).
  destruct (buildSessionData this userId t0 db) as [o db'] eqn:Eb.
  cbn [fst] in Hb. subst o.
  destruct (buildSessionData_times _ _ _ _ _ _ Eb) as (_ & Hr & _).
  unfold getCachedSession, cacheSession, MemoryCache.get, MemoryCache.setex in Hg.
  cbn [cache withCache] in Hg. rewrite lookup_insert_eq in Hg.
  unfold MemoryCache.isExpired in Hg. cbn [MemoryCache.expiresAt MemoryCache.data] in Hg.
  rewrite Httl in Hg.
  destruct (Z.ltb_spec (t0 + 1800 * 1000) now) as [Hlt|Hge]; [discriminate Hg|].
  cbn [fst] in Hg. injection Hg as <-.
  unfold shouldRefreshCache. rewrite Hr, Hlead. unfold DAY.
  apply Z.leb_gt. lia.
Qed.

Lemma withCache_same this : withCache this (cache this) = this.
Proof. destruct this; reflexivity. Qed.

(** A read that the cache serves: the entry is there, has not expired and
    is not due for a refresh. *)
Lemma getSessionData_hit this token now db userId entry :
  verifyToken env token now = Some userId ->
  cache this !! (CACHE_KEY_PREFIX this +:+ toStr userId) = Some entry ->
  now <= MemoryCache.expiresAt entry ->
  now < refreshAt (sessionMetadata (MemoryCache.data entry)) ->
  getSessionData env this token now db
  = (Authenticated (MemoryCache.data entry), this, db)
  /\ servedFromCache env this token now = true.
Proof.
  intros Hv Hc Hexp Href.
  unfold getSessionData, servedFromCache, getCachedSession, MemoryCache.get.
  rewrite Hv, Hc. unfold MemoryCache.isExpired, shouldRefreshCache.
  destruct (Z.ltb_spec (MemoryCache.expiresAt entry) now); [lia|].
  cbn [fst].
  destruct (Z.leb_spec (refreshAt (sessionMetadata (MemoryCache.data entry))) now);
    [lia|].
  cbn [negb]. rewrite withCache_same. auto.
Qed.

(** A read that the cache cannot serve, having no entry or an expired one. *)
Lemma getSessionData_miss this token now db userId :
  verifyToken env token now = Some userId ->
  (forall e, cache this !! (CACHE_KEY_PREFIX this +:+ toStr userId) = Some e ->
     MemoryCache.expiresAt e < now) ->
  let key := CACHE_KEY_PREFIX this +:+ toStr userId in
  let this0 := withCache this (delete key (cache this)) in
  servedFromCache env this token now = false
  /\ getSessionData env this token now db =
     match fst (buildSessionData this0 userId now db) with
     | None => (Unauthenticated "User not found", this0,
                snd (buildSessionData this0 userId now db))
     | Some fresh => (Authenticated fresh, cacheSession this0 key fresh now,
                      snd (buildSessionData this0 userId now db))
     end.
Proof.
  intros Hv Hc key this0.
  assert (Hg : MemoryCache.get key now (cache this) = (None, delete key (cache this))).
  { unfold MemoryCache.get. fold key in Hc.
    destruct (cache this !! key) as [e|] eqn:E.
    - unfold MemoryCache.isExpired.
      destruct (Z.ltb_spec (MemoryCache.expiresAt e) now) as [_|H]; [reflexivity|].
      specialize (Hc e eq_refl). lia.
    - rewrite delete_id by exact E. reflexivity. }
  split.
  - unfold servedFromCache, getCachedSession. rewrite Hv. fold key. rewrite Hg.
    reflexivity.
  - rewrite (getSessionData_rebuild this token now db userId Hv).
    + fold key. rewrite Hg. reflexivity.
    + fold key. rewrite Hg. discriminate.
Qed.

Lemma cacheSession_lookup this key s now :
  cache (cacheSession this key s now) !! key
  = Some {| MemoryCache.data := s;
            MemoryCache.expiresAt := now + CACHE_TTL_SECONDS this * 1000 |}.
Proof. unfold cacheSession, MemoryCache.setex. cbn. apply lookup_insert_eq. Qed.

End Reads.

(** C8, as amended.  The constructor takes a cache instance and nothing
    else; it always yields a controller, whose two durations are the
    constants 1800 s and 300 s, the second below the first. *)
Theorem C8_constructor_total :
  forall cacheInstance,
    exists this,
      HybridAuthController.constructor cacheInstance
      = HybridAuthController.Constructed this
      /\ HybridAuthController.cache this = cacheInstance
      /\ HybridAuthController.CACHE_TTL_SECONDS this = 1800
      /\ HybridAuthController.REFRESH_BEFORE_EXPIRY_SECONDS this = 300
      /\ HybridAuthController.REFRESH_BEFORE_EXPIRY_SECONDS this
         < HybridAuthController.CACHE_TTL_SECONDS this.
Proof.
  intros c. eexists. split; [reflexivity|]. cbn. repeat split; lia.
Qed.

(** C8, as stated, fails: whatever pair of durations with
    [refreshLeadSeconds >= ttlSeconds] one has in mind, the construction is
    not rejected; there is no configuration to pass and no check. *)
Lemma C8_counterexample :
  ~ (forall ttlSeconds refreshLeadSeconds : Z,
       refreshLeadSeconds >= ttlSeconds ->
       forall cacheInstance,
         HybridAuthController.constructor cacheInstance
         = HybridAuthController.Rejected).
Proof.
  intros H. specialize (H 300 300 ltac:(lia) ∅). discriminate H.
Qed.

(** C5, as amended.  A snapshot the read path has rebuilt at [now] carries
    [tokenExpiresAt = now + 24 h], [refreshAt = tokenExpiresAt - 300 s] and
    [cacheExpiresAt = now + 1800 s]: so [refreshAt < tokenExpiresAt], and
    [refreshAt] is later than [cacheExpiresAt], not earlier.  The snapshot
    is stored, and the cache keeps it until [cacheExpiresAt] at least. *)
Theorem C5_snapshot_times :
  forall (jwt : Jwt.Library) (env : gmap string string) cacheInstance this
         (token : string) (now : Z) db s this' db',
    HybridAuthController.constructor cacheInstance
    = HybridAuthController.Constructed this ->
    HybridAuthController.getSessionData env this token now db
    = (HybridAuthController.Authenticated s, this', db') ->
    HybridAuthController.lookups db' <> HybridAuthController.lookups db ->
    let m := HybridAuthController.sessionMetadata s in
    HybridAuthController.tokenExpiresAt m = now + 24 * 60 * 60 * 1000
    /\ HybridAuthController.refreshAt m
       = HybridAuthController.tokenExpiresAt m - 300 * 1000
    /\ HybridAuthController.cacheExpiresAt m = now + 1800 * 1000
    /\ HybridAuthController.refreshAt m < HybridAuthController.tokenExpiresAt m
    /\ HybridAuthController.cacheExpiresAt m < HybridAuthController.refreshAt m
    /\ exists key entry,
         HybridAuthController.cache this' !! key = Some entry
         /\ MemoryCache.data entry = s
         /\ HybridAuthController.cacheExpiresAt m <= MemoryCache.expiresAt entry.
Proof.
  intros jwt env cacheInstance this token now db s this' db' Hc Hg Hl m.
  destruct (constructor_fields _ _ Hc) as (_ & _ & Httl & Hlead).
  unfold HybridAuthController.getSessionData in Hg.
  destruct (HybridAuthController.verifyToken env token now) as [userId|];
    [|discriminate Hg].
  set (key := HybridAuthController.CACHE_KEY_PREFIX this +:+ Js.toStr userId) in *.
  destruct (HybridAuthController.getCachedSession this key now) as [cached this0] eqn:Eg.
  assert (Hthis0 : HybridAuthController.CACHE_TTL_SECONDS this0 = 1800
                   /\ HybridAuthController.REFRESH_BEFORE_EXPIRY_SECONDS this0 = 300).
  { unfold HybridAuthController.getCachedSession in Eg.
    destruct (MemoryCache.get key now (HybridAuthController.cache this)).
    injection Eg as _ <-. auto. }
  destruct Hthis0 as [Httl0 Hlead0].
  assert (Hfresh : forall fresh dbx,
            HybridAuthController.buildSessionData this0 userId now db = (Some fresh, dbx) ->
            (HybridAuthController.Authenticated fresh,
             HybridAuthController.cacheSession this0 key fresh now, dbx)
            = (HybridAuthController.Authenticated s, this', db') ->
            HybridAuthController.tokenExpiresAt m = now + 24 * 60 * 60 * 1000
            /\ HybridAuthController.refreshAt m
               = HybridAuthController.tokenExpiresAt m - 300 * 1000
            /\ HybridAuthController.cacheExpiresAt m = now + 1800 * 1000
            /\ HybridAuthController.refreshAt m < HybridAuthController.tokenExpiresAt m
            /\ HybridAuthController.cacheExpiresAt m < HybridAuthController.refreshAt m
            /\ exists key entry,
                 HybridAuthController.cache this' !! key = Some entry
                 /\ MemoryCache.data entry = s
                 /\ HybridAuthController.cacheExpiresAt m
                    <= MemoryCache.expiresAt entry).
  { intros fresh dbx Hb Heq. injection Heq as -> <- _.
    destruct (buildSessionData_times _ _ _ _ _ _ Hb) as (Ht & Hr & Hce).
    fold m in Ht, Hr, Hce. rewrite Httl0 in Hce. rewrite Hlead0 in Hr.
    unfold HybridAuthController.DAY in *.
    repeat split; try lia.
    exists key, {| MemoryCache.data := s; MemoryCache.expiresAt := now + 1800 * 1000 |}.
    split; [|split; [reflexivity|cbn [MemoryCache.expiresAt]; lia]].
    unfold HybridAuthController.cacheSession, MemoryCache.setex.
    cbn [HybridAuthController.cache HybridAuthController.withCache].
    rewrite lookup_insert_eq, Httl0. reflexivity. }
  destruct cached as [c|].
  - destruct (negb (HybridAuthController.shouldRefreshCache c now)).
    + injection Hg as _ _ Hdb. subst db'. contradiction.
    + destruct (HybridAuthController.buildSessionData this0 userId now db)
        as [[fresh|] dbx] eqn:Eb; [|discriminate Hg].
      exact (Hfresh fresh dbx eq_refl Hg).
  - destruct (HybridAuthController.buildSessionData this0 userId now db)
      as [[fresh|] dbx] eqn:Eb; [|discriminate Hg].
    exact (Hfresh fresh dbx eq_refl Hg).
Qed.

Lemma C5_snapshot_times_witness :
  fst (fst firstRead) = HybridAuthController.Authenticated (snapshotOf (fst (fst firstRead)))
  /\ HybridAuthController.refreshAt
       (HybridAuthController.sessionMetadata (snapshotOf (fst (fst firstRead))))
     < HybridAuthController.tokenExpiresAt
         (HybridAuthController.sessionMetadata (snapshotOf (fst (fst firstRead))))
  /\ HybridAuthController.cacheExpiresAt
       (HybridAuthController.sessionMetadata (snapshotOf (fst (fst firstRead))))
     < HybridAuthController.refreshAt
         (HybridAuthController.sessionMetadata (snapshotOf (fst (fst firstRead)))).
Proof.
  split; [by_vm|].
  destruct (C5_snapshot_times ToyJwt.library secretEnv ∅ freshController aliceToken 0
              (dbWith true) (snapshotOf (fst (fst firstRead)))
              (snd (fst firstRead)) (snd firstRead))
    as (_ & _ & _ & H1 & H2 & _).
  - reflexivity.
  - by_vm.
  - assert (Hl : HybridAuthController.lookups (snd firstRead) = 1%nat) by by_vm.
    rewrite Hl. intros H. discriminate H.
  - split; assumption.
Defined.

(** C5, as stated, fails: a snapshot rebuilt at the instant 0 is stored
    until 1 800 000 (30 min) and has its [refreshAt] at 86 100 000
    (23 h 55 min). *)
Lemma C5_counterexample :
  fst (fst firstRead) = HybridAuthController.Authenticated (snapshotOf (fst (fst firstRead)))
  /\ HybridAuthController.refreshAt
       (HybridAuthController.sessionMetadata (snapshotOf (fst (fst firstRead))))
     = 86100000
  /\ HybridAuthController.cacheExpiresAt
       (HybridAuthController.sessionMetadata (snapshotOf (fst (fst firstRead))))
     = 1800000
  /\ MemoryCache.expiresAt <$>
       (HybridAuthController.cache (snd (fst firstRead)) !! ("user_session:" +:+ alice))
     = Some 1800000
  /\ ~ (HybridAuthController.refreshAt
          (HybridAuthController.sessionMetadata (snapshotOf (fst (fst firstRead))))
        < HybridAuthController.cacheExpiresAt
            (HybridAuthController.sessionMetadata (snapshotOf (fst (fst firstRead))))).
Proof.
  assert (Hr : HybridAuthController.refreshAt
                 (HybridAuthController.sessionMetadata (snapshotOf (fst (fst firstRead))))
               = 86100000) by by_vm.
  assert (Hc : HybridAuthController.cacheExpiresAt
                 (HybridAuthController.sessionMetadata (snapshotOf (fst (fst firstRead))))
               = 1800000) by by_vm.
  split; [by_vm|]. split; [exact Hr|]. split; [exact Hc|]. split; [by_vm|].
  rewrite Hr, Hc. lia.
Qed.




(* ===================================================================== *)
(** * Further properties of the code *)
(* ===================================================================== *)

(** ** The in-memory cache *)

Section CacheProperties.
Context {A : Type}.
Implicit Types c : gmap string (MemoryCache.CacheEntry A).

Lemma sweep_lookup now c key e :
  MemoryCache.removeExpiredEntries now c !! key = Some e
  <-> c !! key = Some e /\ now <= MemoryCache.expiresAt e.
Proof.
  unfold MemoryCache.removeExpiredEntries.
  rewrite map_lookup_filter_Some. cbn [snd].
  rewrite negb_true_iff, Z.ltb_ge. reflexivity.
Qed.

(** X1: A value stored with [setex] is returned by [get] up to and including
    the millisecond of its expiry and the store is left as it is; after it,
    [get] returns nothing and removes the entry. *)
Theorem setex_then_get key ttlSeconds (value : A) t0 t c :
  MemoryCache.get key t (MemoryCache.setex key ttlSeconds value t0 c)
  = if t0 + ttlSeconds * 1000 <? t
    then (None, delete key c)
    else (Some value, MemoryCache.setex key ttlSeconds value t0 c).
Proof.
  unfold MemoryCache.get, MemoryCache.setex, MemoryCache.isExpired.
  rewrite lookup_insert_eq. cbn [MemoryCache.expiresAt MemoryCache.data].
  destruct (t0 + ttlSeconds * 1000 <? t); [|reflexivity].
  rewrite delete_insert_eq. reflexivity.
Qed.

(** X2: The sweep of the expired entries leaves no entry that has expired,
    and no later [get] can tell that it has run. *)
Theorem removeExpiredEntries_unobservable now now' key c :
  now <= now' ->
  fst (MemoryCache.get key now' (MemoryCache.removeExpiredEntries now c))
  = fst (MemoryCache.get key now' c)
  /\ (forall k e, MemoryCache.removeExpiredEntries now c !! k = Some e ->
        now <= MemoryCache.expiresAt e).
Proof.
  intros Hle. split.
  - unfold MemoryCache.get.
    destruct (c !! key) as [e|] eqn:Ec.
    + destruct (Z.ltb_spec (MemoryCache.expiresAt e) now) as [Hexp|Hlive].
      * assert (Hn : MemoryCache.removeExpiredEntries now c !! key = None).
        { destruct (MemoryCache.removeExpiredEntries now c !! key) as [e'|] eqn:E;
            [|reflexivity].
          apply sweep_lookup in E as [E1 E2]. rewrite Ec in E1.
          injection E1 as <-. lia. }
        rewrite Hn. unfold MemoryCache.isExpired.
        destruct (Z.ltb_spec (MemoryCache.expiresAt e) now'); [reflexivity|lia].
      * assert (Hs : MemoryCache.removeExpiredEntries now c !! key = Some e)
          by (apply sweep_lookup; auto).
        rewrite Hs. destruct (MemoryCache.isExpired e now'); reflexivity.
    + assert (Hn : MemoryCache.removeExpiredEntries now c !! key = None).
      { destruct (MemoryCache.removeExpiredEntries now c !! key) as [e'|] eqn:E;
          [|reflexivity].
        apply sweep_lookup in E as [E1 _]. congruence. }
      rewrite Hn. reflexivity.
  - intros k e H. apply sweep_lookup in H as [_ H]. exact H.
Qed.

End CacheProperties.

Lemma removeExpiredEntries_unobservable_witness :
  fst (MemoryCache.get "k" 4 (MemoryCache.removeExpiredEntries 3
         ({[ "k" := {| MemoryCache.data := "v"; MemoryCache.expiresAt := 5 |} ]}
            : gmap string (MemoryCache.CacheEntry string))))
  = fst (MemoryCache.get "k" 4
         ({[ "k" := {| MemoryCache.data := "v"; MemoryCache.expiresAt := 5 |} ]}
            : gmap string (MemoryCache.CacheEntry string))).
Proof.
  apply (removeExpiredEntries_unobservable 3 4 "k"
           ({[ "k" := {| MemoryCache.data := "v"; MemoryCache.expiresAt := 5 |} ]}
              : gmap string (MemoryCache.CacheEntry string))).
  lia.
Defined.


(** ** The endpoints of the session controller *)

Section EndpointProperties.
Import Js Jwt HybridAuthController.
Context {jwt : Library}.
Variable env : gmap string string.

Lemma session_run this request token now db :
  extractToken request = Some token -> token <> "" ->
  session env this request now db
  = let '(sessionData, this', db') := getSessionData env this token now db in
    match sessionData with
    | Unauthenticated _ =>
        ({| code := 401; headers := None; body := sessionData |}, this', db')
    | Authenticated s =>
        if servedFromCache env this token now
        then ({| code := 500; headers := None;
                 body := Unauthenticated "Internal server error" |}, this', db')
        else
          ({| code := 200;
              headers :=
                Some {| cacheControl :=
                          "private, max-age="
                          +:+ toStr (Some (JNum (Z.max 0
                                ((cacheExpiresAt (sessionMetadata s) - now) / 1000))));
                        xSessionExpires := tokenExpiresAt (sessionMetadata s);
                        xRefreshAt := refreshAt (sessionMetadata s) |};
              body := sessionData |}, this', db')
    end.
Proof.
  intros He Ht. unfold session. rewrite He, (falsyString_false token Ht).
  reflexivity.
Qed.

(** X3: An answer that would come from the cache is the status 500: whenever
    the cache holds for the principal of the token an entry that has not
    expired and is not due for a refresh, [session] answers "Internal server
    error", without headers, and changes nothing. *)
Theorem session_cached_is_500 this request token now db userId entry :
  extractToken request = Some token -> token <> "" ->
  verifyToken env token now = Some userId ->
  cache this !! (CACHE_KEY_PREFIX this +:+ toStr userId) = Some entry ->
  now <= MemoryCache.expiresAt entry ->
  now < refreshAt (sessionMetadata (MemoryCache.data entry)) ->
  session env this request now db
  = ({| code := 500; headers := None;
        body := Unauthenticated "Internal server error" |}, this, db).
Proof.
  intros He Ht Hv Hc Hexp Href.
  rewrite (session_run this request token now db He Ht).
  destruct (getSessionData_hit env this token now db userId entry Hv Hc Hexp Href)
    as [-> ->].
  reflexivity.
Qed.

(** What [session] does when the cache cannot serve the read of an active
    principal. *)
Lemma session_rebuilt cacheInstance this request token now db userId :
  constructor cacheInstance = Constructed this ->
  extractToken request = Some token -> token <> "" ->
  verifyToken env token now = Some userId ->
  (forall e, cacheInstance !! ("user_session:" +:+ toStr userId) = Some e ->
     MemoryCache.expiresAt e < now) ->
  isActiveUser userId db = true ->
  exists s,
    session env this request now db
    = ({| code := 200;
          headers := Some {| cacheControl := "private, max-age=1800";
                             xSessionExpires := now + 86400000;
                             xRefreshAt := now + 86100000 |};
          body := Authenticated s |},
       cacheSession (withCache this (delete ("user_session:" +:+ toStr userId)
                                       cacheInstance))
         ("user_session:" +:+ toStr userId) s now,
       {| users := users db; lookups := S (lookups db) |})
    /\ tokenExpiresAt (sessionMetadata s) = now + 86400000
    /\ refreshAt (sessionMetadata s) = now + 86100000
    /\ cacheExpiresAt (sessionMetadata s) = now + 1800000.
Proof.
  intros Hc He Ht Hv Hmiss Hact.
  destruct (constructor_fields _ _ Hc) as (Hcache & Hpre & Httl & Hlead).
  rewrite (session_run this request token now db He Ht).
  destruct (getSessionData_miss env this token now db userId Hv) as [Hs Hg].
  { rewrite Hcache, Hpre. exact Hmiss. }
  rewrite Hs, Hg, Hcache, Hpre.
  set (this0 := withCache this (delete ("user_session:" +:+ toStr userId) cacheInstance)).
  destruct (buildSessionData_some this0 userId now db Hact)
    as (s & Hb & H1 & H2 & H3).
  assert (Hdb : snd (buildSessionData this0 userId now db)
                = {| users := users db; lookups := S (lookups db) |}).
  { unfold buildSessionData, findById.
    destruct (match Mongoose.castObjectId (toStr userId) with
              | Some hex => users db !! hex | None => None end) as [u|];
      [destruct (negb (isActive u))|]; reflexivity. }
  rewrite Hb, Hdb. exists s.
  assert (Httl0 : CACHE_TTL_SECONDS this0 = 1800) by (subst this0; exact Httl).
  assert (Hlead0 : REFRESH_BEFORE_EXPIRY_SECONDS this0 = 300)
    by (subst this0; exact Hlead).
  rewrite Httl0 in H3. rewrite Hlead0 in H2. unfold DAY in H1, H2.
  rewrite H1, H2, H3.
  replace ((now + 1800 * 1000 - now) / 1000) with 1800
    by (replace (now + 1800 * 1000 - now) with (1800 * 1000) by lia;
        symmetry; apply Z.div_mul; lia).
  split; [|split; [lia|split; lia]].
  replace (now + 24 * 60 * 60 * 1000 - 300 * 1000) with (now + 86100000) by lia.
  reflexivity.
Qed.

(** X4: The first read of an active principal is answered 200 with the
    snapshot that was built.  The header of the session expiry is the
    [tokenExpiresAt] of the snapshot, a day or more after [now]; the header
    of the refresh is its [refreshAt], five minutes before; the [max-age] is
    a number of seconds between 0 and 1800.  The snapshot is then in the
    cache, which keeps it until its [cacheExpiresAt] at least, half an hour
    or more after [now], and the principal has been looked up once. *)
Theorem session_first_request cacheInstance this request token now db userId :
  constructor cacheInstance = Constructed this ->
  extractToken request = Some token -> token <> "" ->
  verifyToken env token now = Some userId ->
  (forall e, cacheInstance !! ("user_session:" +:+ toStr userId) = Some e ->
     MemoryCache.expiresAt e < now) ->
  isActiveUser userId db = true ->
  exists s r this' db',
    session env this request now db = (r, this', db')
    /\ code r = 200
    /\ body r = Authenticated s
    /\ (exists h n,
          headers r = Some h
          /\ xSessionExpires h = tokenExpiresAt (sessionMetadata s)
          /\ now + 86400000 <= xSessionExpires h
          /\ xRefreshAt h = refreshAt (sessionMetadata s)
          /\ xRefreshAt h = xSessionExpires h - 300000
          /\ cacheControl h = "private, max-age=" +:+ toStr (Some (JNum n))
          /\ 0 <= n <= 1800)
    /\ (exists entry,
          cache this' !! ("user_session:" +:+ toStr userId) = Some entry
          /\ MemoryCache.data entry = s
          /\ cacheExpiresAt (sessionMetadata s) <= MemoryCache.expiresAt entry
          /\ now + 1800000 <= cacheExpiresAt (sessionMetadata s))
    /\ lookups db' = S (lookups db).
Proof.
  intros Hc He Ht Hv Hmiss Hact.
  destruct (session_rebuilt cacheInstance this request token now db userId
              Hc He Ht Hv Hmiss Hact) as (s & Hs & H1 & H2 & H3).
  destruct (constructor_fields _ _ Hc) as (_ & _ & Httl & _).
  eexists s, _, _, _. split; [exact Hs|]. cbn [code body headers].
  split; [reflexivity|]. split; [reflexivity|].
  split; [|split; [|reflexivity]].
  - eexists _, 1800. split; [reflexivity|].
    cbn [xSessionExpires xRefreshAt cacheControl].
    rewrite H1, H2.
    split; [reflexivity|]. split; [lia|]. split; [reflexivity|].
    split; [lia|]. split; [reflexivity|lia].
  - eexists. split; [apply cacheSession_lookup|].
    cbn [CACHE_TTL_SECONDS withCache MemoryCache.data MemoryCache.expiresAt].
    rewrite Httl, H3. split; [reflexivity|]. split; lia.
Qed.

(** X5: The second read. After a first read that was answered 200, every
    read of the same principal during the half hour that follows is answered
    500: the cache serves it, and the instants of a cached snapshot are
    strings. *)
Theorem session_second_request cacheInstance this request token now now' db userId :
  constructor cacheInstance = Constructed this ->
  extractToken request = Some token -> token <> "" ->
  verifyToken env token now = Some userId ->
  verifyToken env token now' = Some userId ->
  (forall e, cacheInstance !! ("user_session:" +:+ toStr userId) = Some e ->
     MemoryCache.expiresAt e < now) ->
  isActiveUser userId db = true ->
  now <= now' <= now + 1800000 ->
  exists r this' db',
    session env this request now db = (r, this', db')
    /\ code r = 200
    /\ forall db'',
         session env this' request now' db''
         = ({| code := 500; headers := None;
               body := Unauthenticated "Internal server error" |}, this', db'').
Proof.
  intros Hc He Ht Hv Hv' Hmiss Hact Hnow.
  destruct (session_rebuilt cacheInstance this request token now db userId
              Hc He Ht Hv Hmiss Hact) as (s & Hs & _ & Hr & _).
  destruct (constructor_fields _ _ Hc) as (_ & Hpre & Httl & _).
  eexists _, _, _. split; [exact Hs|]. split; [reflexivity|]. intros db''.
  set (this0 := withCache this (delete ("user_session:" +:+ toStr userId) cacheInstance)).
  set (this' := cacheSession this0 ("user_session:" +:+ toStr userId) s now).
  assert (Hpre' : CACHE_KEY_PREFIX this' = "user_session:") by exact Hpre.
  rewrite (session_run this' request token now' db'' He Ht).
  destruct (getSessionData_hit env this' token now' db'' userId
              {| MemoryCache.data := s;
                 MemoryCache.expiresAt := now + CACHE_TTL_SECONDS this0 * 1000 |} Hv')
    as [-> ->].
  - rewrite Hpre'. apply cacheSession_lookup.
  - cbn [MemoryCache.expiresAt]. subst this0. cbn [CACHE_TTL_SECONDS withCache].
    rewrite Httl. lia.
  - cbn [MemoryCache.data]. rewrite Hr. lia.
  - reflexivity.
Qed.

(** X6: [invalidateSession] with a token that verifies removes the entry of
    its principal and no other; the next read of that principal looks the
    principal up. *)
Theorem invalidateSession_then_read this request token now userId :
  extractToken request = Some token -> token <> "" ->
  verifyToken env token now = Some userId ->
  let key := CACHE_KEY_PREFIX this +:+ toStr userId in
  let this' := snd (invalidateSession env this request now) in
  ackCode (fst (invalidateSession env this request now)) = 200
  /\ cache this' !! key = None
  /\ (forall k, k <> key -> cache this' !! k = cache this !! k)
  /\ forall now' db,
       verifyToken env token now' = Some userId ->
       lookups (snd (getSessionData env this' token now' db)) = S (lookups db).
Proof.
  intros He Ht Hv key this'.
  assert (E : this' = withCache this (delete key (cache this))).
  { subst this'. unfold invalidateSession.
    rewrite He, (falsyString_false token Ht), Hv. reflexivity. }
  split; [reflexivity|]. rewrite E.
  split; [apply lookup_delete_eq|].
  split; [intros k Hk; cbn [cache withCache]; apply lookup_delete_ne; congruence|].
  intros now' db Hv'.
  destruct (getSessionData_miss env (withCache this (delete key (cache this)))
              token now' db userId Hv') as [_ ->].
  - cbn [cache withCache CACHE_KEY_PREFIX]. fold key.
    rewrite lookup_delete_eq. discriminate.
  - match goal with
    | |- context [buildSessionData ?t userId now' db] =>
        pose proof (buildSessionData_lookups t userId now' db) as Hl;
        destruct (buildSessionData t userId now' db) as [[f|] db']
    end; exact Hl.
Qed.

(** X7: A read touches the cache entry of the principal of its token only. *)
Theorem getSessionData_other_entries this token now db k :
  (forall userId, verifyToken env token now = Some userId ->
     k <> CACHE_KEY_PREFIX this +:+ toStr userId) ->
  cache (snd (fst (getSessionData env this token now db))) !! k = cache this !! k.
Proof.
  intros Hk. unfold getSessionData.
  destruct (verifyToken env token now) as [userId|]; [|reflexivity].
  specialize (Hk userId eq_refl).
  set (key := CACHE_KEY_PREFIX this +:+ toStr userId) in *.
  unfold getCachedSession, MemoryCache.get.
  assert (Hd : delete key (cache this) !! k = cache this !! k)
    by (apply lookup_delete_ne; congruence).
  assert (Hi : forall (c : gmap string (MemoryCache.CacheEntry SessionData)) e,
             c !! k = cache this !! k -> <[key := e]> c !! k = cache this !! k).
  { intros c e Hc. rewrite lookup_insert_ne by congruence. exact Hc. }
  destruct (cache this !! key) as [entry|] eqn:Ec.
  - destruct (MemoryCache.isExpired entry now).
    + destruct (buildSessionData _ userId now db) as [[f|] db']; cbn.
      * apply Hi, Hd.
      * exact Hd.
    + destruct (negb (shouldRefreshCache (MemoryCache.data entry) now)); [reflexivity|].
      destruct (buildSessionData _ userId now db) as [[f|] db']; cbn.
      * apply Hi. reflexivity.
      * reflexivity.
  - destruct (buildSessionData _ userId now db) as [[f|] db']; cbn.
    + apply Hi. reflexivity.
    + reflexivity.
Qed.

(** X8: The controller and the token service. An access token of the service
    is accepted by the service whatever the environment is, by its fallback
    secret; the controller has no fallback, and accepts it exactly when
    [JWT_SECRET] is set and not empty. *)
Theorem controller_accepts_service_tokens (laws : Laws jwt) u t t' tok :
  TokenService.generateAccessToken env u None t = TokenService.Return tok ->
  t' / 1000 < t / 1000 + TokenService.ACCESS_TOKEN_EXPIRY ->
  TokenService.verifyAccessToken env tok t'
  = Some {| TokenService.userId := JStr u; TokenService.isValid := true;
            TokenService.error := None |}
  /\ verifyToken env tok t'
     = if falsyString (orElse (env !! "JWT_SECRET") "") then None
       else Some (Some (JStr u)).
Proof.
  intros Hg Hlt. unfold TokenService.generateAccessToken in Hg.
  destruct (falsyString u) eqn:Eu; [discriminate Hg|].
  assert (Hu : u <> "").
  { intros ->. discriminate Eu. }
  destruct (sign _ _ _ t) as [tok'|e] eqn:Es; [|discriminate Hg].
  injection Hg as ->.
  pose proof (fun Hp Ha => verify_sign jwt laws _ _ _ _ _ t' Hp Ha Es Hlt) as Hver.
  specialize (Hver eq_refl eq_refl).
  pose proof (sign_compact jwt laws _ _ _ _ _ Es) as Hcomp.
  split.
  - unfold TokenService.verifyAccessToken.
    rewrite (compact_nonempty tok Hcomp), (replaceBearer_compact tok Hcomp).
    eapply verify_generated; eauto.
  - unfold verifyToken.
    unfold TokenService.getSecret in Hver.
    destruct (env !! "JWT_SECRET") as [secret|] eqn:E; cbn [orElse]; [|reflexivity].
    destruct (falsyString secret) eqn:Ef; [reflexivity|].
    cbn [orElse] in Hver. rewrite Ef in Hver. rewrite Ef, Hver.
    unfold claim. rewrite stamp_userId. reflexivity.
Qed.

(** X9: The controller does not look at the type of a token. When the two
    secrets of the environment are the same, a refresh token of the service
    is accepted as the credential of a session read, while
    [verifyAccessToken] refuses it. *)
Theorem controller_accepts_refresh_tokens (laws : Laws jwt) u t t' r secret :
  env !! "JWT_SECRET" = Some secret ->
  env !! "JWT_REFRESH_SECRET" = Some secret ->
  secret <> "" ->
  TokenService.generateRefreshToken env u t = TokenService.Return r ->
  t' / 1000 < t / 1000 + TokenService.REFRESH_TOKEN_EXPIRY ->
  verifyToken env r t' = Some (Some (JStr u))
  /\ TokenService.verifyAccessToken env r t' = None.
Proof.
  intros Ha Hr Hs Hg Hlt. unfold TokenService.generateRefreshToken in Hg.
  destruct (falsyString u); [discriminate Hg|].
  destruct (sign _ _ _ t) as [tok|e] eqn:Es; [|discriminate Hg].
  injection Hg as ->.
  pose proof (fun Hp Ha => verify_sign jwt laws _ _ _ _ _ t' Hp Ha Es Hlt) as Hver.
  specialize (Hver eq_refl eq_refl).
  pose proof (sign_compact jwt laws _ _ _ _ _ Es) as Hcomp.
  unfold TokenService.getSecret in Hver. rewrite Hr in Hver.
  cbn [orElse] in Hver. rewrite (falsyString_false secret Hs) in Hver.
  split.
  - unfold verifyToken. rewrite Ha, (falsyString_false secret Hs), Hver.
    unfold claim. rewrite stamp_userId. reflexivity.
  - unfold TokenService.verifyAccessToken.
    rewrite (compact_nonempty r Hcomp), (replaceBearer_compact r Hcomp).
    unfold TokenService.getSecret. rewrite Ha. cbn [orElse].
    rewrite (falsyString_false secret Hs), Hver.
    unfold TokenService.checkDecoded, claim. rewrite stamp_type.
    rewrite bool_decide_false by discriminate. reflexivity.
Qed.

(** X10: No role that the user schema admits is given the right to teach, to
    manage a shaala or to see the analytics: the roles that
    [generatePermissions] knows, apart from [student], are not roles of the
    schema. *)
Theorem permissions_of_schema_roles r :
  In r User.roles ->
  canTeach (generatePermissions r) = false
  /\ canManageShaalas (generatePermissions r) = false
  /\ canViewAnalytics (generatePermissions r) = false
  /\ canBookClasses (generatePermissions r) = String.eqb r "student".
Proof.
  unfold User.roles. simpl.
  intros [<-|[<-|[<-|[<-|[]]]]]; repeat split; reflexivity.
Qed.

End EndpointProperties.

Lemma session_cached_is_500_witness :
  fst (fst (HybridAuthController.session (jwt := ToyJwt.library) secretEnv
              warmController aliceRequest 60000 (dbWith true)))
  = {| HybridAuthController.code := 500;
       HybridAuthController.headers := None;
       HybridAuthController.body :=
         HybridAuthController.Unauthenticated "Internal server error" |}.
Proof.
  rewrite (session_cached_is_500 (jwt := ToyJwt.library) secretEnv warmController
             aliceRequest aliceToken 60000 (dbWith true) (Some (Js.JStr alice))
             warmEntry).
  - reflexivity.
  - by_vm.
  - assert (H : Js.falsyString aliceToken = false) by by_vm.
    intros E. rewrite E in H. discriminate H.
  - by_vm.
  - by_vm.
  - assert (H : MemoryCache.expiresAt warmEntry = 1800000) by reflexivity.
    rewrite H. lia.
  - assert (H : HybridAuthController.refreshAt
                  (HybridAuthController.sessionMetadata (MemoryCache.data warmEntry))
                = 86100000) by by_vm.
    rewrite H. lia.
Defined.

Lemma session_first_request_witness :
  exists s r this' db',
    HybridAuthController.session (jwt := ToyJwt.library) secretEnv freshController
      aliceRequest 0 (dbWith true) = (r, this', db')
    /\ HybridAuthController.code r = 200
    /\ HybridAuthController.body r = HybridAuthController.Authenticated s
    /\ HybridAuthController.lookups db' = 1%nat.
Proof.
  destruct (session_first_request (jwt := ToyJwt.library) secretEnv ∅ freshController
              aliceRequest aliceToken 0 (dbWith true) (Some (Js.JStr alice)))
    as (s & r & this' & db' & H & Hcode & Hbody & _ & _ & Hl).
  - reflexivity.
  - by_vm.
  - assert (H : Js.falsyString aliceToken = false) by by_vm.
    intros E. rewrite E in H. discriminate H.
  - by_vm.
  - intros e He. rewrite lookup_empty in He. discriminate He.
  - by_vm.
  - exists s, r, this', db'. split; [exact H|]. split; [exact Hcode|].
    split; [exact Hbody|exact Hl].
Defined.

Lemma session_second_request_witness :
  exists r this' db',
    HybridAuthController.session (jwt := ToyJwt.library) secretEnv freshController
      aliceRequest 0 (dbWith true) = (r, this', db')
    /\ HybridAuthController.code r = 200
    /\ fst (fst (HybridAuthController.session (jwt := ToyJwt.library) secretEnv this'
                   aliceRequest 60000 db'))
       = {| HybridAuthController.code := 500;
            HybridAuthController.headers := None;
            HybridAuthController.body :=
              HybridAuthController.Unauthenticated "Internal server error" |}.
Proof.
  destruct (session_second_request (jwt := ToyJwt.library) secretEnv ∅ freshController
              aliceRequest aliceToken 0 60000 (dbWith true) (Some (Js.JStr alice)))
    as (r & this' & db' & H1 & H2 & H3).
  - reflexivity.
  - by_vm.
  - assert (H : Js.falsyString aliceToken = false) by by_vm.
    intros E. rewrite E in H. discriminate H.
  - by_vm.
  - by_vm.
  - intros e He. rewrite lookup_empty in He. discriminate He.
  - by_vm.
  - lia.
  - exists r, this', db'. split; [exact H1|]. split; [exact H2|].
    rewrite (H3 db'). reflexivity.
Defined.

Lemma invalidateSession_then_read_witness :
  HybridAuthController.cache
    (snd (HybridAuthController.invalidateSession (jwt := ToyJwt.library) secretEnv
            warmController aliceRequest 60000))
    !! (HybridAuthController.CACHE_KEY_PREFIX warmController
        +:+ Js.toStr (Some (Js.JStr alice)))
  = None.
Proof.
  destruct (invalidateSession_then_read (jwt := ToyJwt.library) secretEnv
              warmController aliceRequest aliceToken 60000 (Some (Js.JStr alice)))
    as (_ & H & _).
  - by_vm.
  - assert (H : Js.falsyString aliceToken = false) by by_vm.
    intros E. rewrite E in H. discriminate H.
  - by_vm.
  - exact H.
Defined.

Lemma getSessionData_other_entries_witness :
  HybridAuthController.cache
    (snd (fst (HybridAuthController.getSessionData (jwt := ToyJwt.library) secretEnv
                 staleController aliceToken 1000 (dbWith true))))
    !! "user_session:65a1b2c3d4e5f60718293a4b"
  = HybridAuthController.cache staleController !! "user_session:65a1b2c3d4e5f60718293a4b".
Proof.
  apply (getSessionData_other_entries (jwt := ToyJwt.library) secretEnv staleController
           aliceToken 1000 (dbWith true) "user_session:65a1b2c3d4e5f60718293a4b").
  intros userId Hv.
  assert (E : HybridAuthController.verifyToken (jwt := ToyJwt.library) secretEnv
                aliceToken 1000 = Some (Some (Js.JStr alice))) by by_vm.
  rewrite E in Hv. injection Hv as <-. discriminate.
Defined.

Lemma controller_accepts_service_tokens_witness :
  HybridAuthController.verifyToken (jwt := ToyJwt.library) secretEnv aliceToken 1000
  = Some (Some (Js.JStr alice)).
Proof.
  destruct (controller_accepts_service_tokens (jwt := ToyJwt.library) secretEnv
              toy_laws alice 0 1000 aliceToken) as [_ H].
  - by_vm.
  - vm_compute. reflexivity.
  - exact H.
Defined.

Lemma controller_accepts_refresh_tokens_witness :
  HybridAuthController.verifyToken (jwt := ToyJwt.library) sharedSecretEnv
    aliceRefresh 1000
  = Some (Some (Js.JStr alice)).
Proof.
  destruct (controller_accepts_refresh_tokens (jwt := ToyJwt.library)
              sharedSecretEnv toy_laws alice 0 1000 aliceRefresh "s3cret")
    as [H _].
  - reflexivity.
  - reflexivity.
  - discriminate.
  - by_vm.
  - vm_compute. reflexivity.
  - exact H.
Defined.

Lemma permissions_of_schema_roles_witness :
  HybridAuthController.canTeach (HybridAuthController.generatePermissions "instructor")
  = false.
Proof.
  apply (permissions_of_schema_roles "instructor"). simpl. auto.
Defined.

(** ** The session store, operation by operation *)

Section StoreProperties.
Import Js Jwt Mongoose Session.

(** A record after [validateSession] has found it at the instant [now]. *)
Lemma save_lastUsed_eq i d now sessions :
  sessions !! i = Some d ->
  save sessionSchema i "lastUsed" (IDate now) now sessions
  = Some (if bool_decide (d !! "lastUsed" = Some (VDate now)) then sessions
          else <[i := <["updatedAt" := VDate now]> (<["lastUsed" := VDate now]> d)]>
                 sessions).
Proof.
  intros H. unfold save. rewrite H.
  change (pathOf sessionSchema "lastUsed")
    with (Some {| ptype := TDate; required := false; pdefault := DefaultNow |}).
  cbn [ptype cast]. destruct (bool_decide _); reflexivity.
Qed.

Lemma hashRefreshToken_nonempty R :
  falsyString R = false -> hashRefreshToken R = Return (Sha256.hex R).
Proof. intros H. unfold hashRefreshToken. rewrite H. reflexivity. Qed.

Section WithLibrary.
Context {jwt : Library}.
Variable env : gmap string string.

(** What [validateSession] returns, and what it writes. *)
Lemma validateSession_cases R now sessions :
  (fst (validateSession env R now sessions) = None
   /\ snd (validateSession env R now sessions) = sessions)
  \/ exists tv i d,
       R <> "" /\ verifyRefreshToken env R now = Some tv /\ isValid tv = true
       /\ findFirst (usable (Sha256.hex R) now) 0 sessions = Some (i, d)
       /\ sessions !! i = Some d
       /\ fst (validateSession env R now sessions) = userIdOf d
       /\ snd (validateSession env R now sessions)
          = if bool_decide (d !! "lastUsed" = Some (VDate now)) then sessions
            else <[i := <["updatedAt" := VDate now]> (<["lastUsed" := VDate now]> d)]>
                   sessions.
Proof.
  destruct (String.eqb_spec R "") as [->|HR]; [left; split; reflexivity|].
  destruct (verifyRefreshToken env R now) as [tv|] eqn:Ev.
  2:{ left. rewrite validateSession_unverified; [split; reflexivity|].
      intros tv Htv. rewrite Ev in Htv. discriminate Htv. }
  destruct (isValid tv) eqn:Evalid.
  2:{ left. rewrite validateSession_unverified; [split; reflexivity|].
      intros tv' Htv. rewrite Ev in Htv. injection Htv as <-. exact Evalid. }
  rewrite (validateSession_run env R now sessions tv HR Ev Evalid).
  destruct (findFirst (usable (Sha256.hex R) now) 0 sessions) as [[i d]|] eqn:Ef;
    [|left; split; reflexivity].
  destruct (findFirst_lookup _ _ _ _ _ Ef) as (_ & Hl & Hm).
  rewrite Nat.sub_0_r in Hl.
  right. exists tv, i, d. rewrite (save_lastUsed_eq i d now sessions Hl).
  do 5 (split; [assumption || reflexivity|]).
  destruct (userIdOf d); split; reflexivity.
Qed.

(** X11: [validateSession] writes the time of use and nothing else: the
    collection keeps its length, and every field of every record other than
    [lastUsed] and [updatedAt] keeps its value, so the expiry of a session
    that is used is not moved; and when a principal is returned, the record
    it was read from has [now] as its [lastUsed]. *)
Theorem validateSession_writes_lastUsed_only R now sessions :
  length (snd (validateSession env R now sessions)) = length sessions
  /\ (forall i k, k <> "lastUsed" -> k <> "updatedAt" ->
        (snd (validateSession env R now sessions) !! i) ≫= (fun d => d !! k)
        = (sessions !! i) ≫= (fun d => d !! k))
  /\ (forall u, fst (validateSession env R now sessions) = Some u ->
        exists i d, sessions !! i = Some d /\ userIdOf d = Some u
          /\ (snd (validateSession env R now sessions) !! i)
               ≫= (fun d => d !! "lastUsed") = Some (VDate now)).
Proof.
  destruct (validateSession_cases R now sessions)
    as [[Hn ->]|(tv & i & d & _ & _ & _ & _ & Hl & Hu & ->)].
  { split; [reflexivity|]. split; [reflexivity|]. intros u Hu. congruence. }
  destruct (bool_decide_reflect (d !! "lastUsed" = Some (VDate now))) as [Hsame|Hnew].
  { split; [reflexivity|]. split; [reflexivity|].
    intros u Hv. exists i, d. rewrite Hl. cbn. split; [reflexivity|].
    split; [congruence|exact Hsame]. }
  split; [apply length_insert|]. split.
  - intros j k Hk1 Hk2. destruct (decide (i = j)) as [<-|Hne].
    + rewrite list_lookup_insert_eq by (eapply lookup_lt_Some, Hl).
      rewrite Hl. cbn. rewrite !lookup_insert_ne by congruence. reflexivity.
    + rewrite list_lookup_insert_ne by exact Hne. reflexivity.
  - intros u Hv. exists i, d. split; [exact Hl|]. split; [congruence|].
    rewrite list_lookup_insert_eq by (eapply lookup_lt_Some, Hl). cbn.
    rewrite lookup_insert_ne by discriminate. apply lookup_insert_eq.
Qed.

End WithLibrary.

(** X12: The digest under which a session is stored is the SHA-256 of the
    token in hex: for a token that is not empty [hashRefreshToken] returns
    [Sha256.hex] of it, which has 64 characters, all of them lower-case hex
    digits; for the empty token it throws [HASH_GENERATION_FAILED]. *)
Theorem hashRefreshToken_shape token :
  token <> "" ->
  hashRefreshToken token = Return (Sha256.hex token)
  /\ String.length (Sha256.hex token) = 64%nat
  /\ allChars isLowerHex (Sha256.hex token) = true
  /\ hashRefreshToken "" = Throws "HASH_GENERATION_FAILED".
Proof.
  intros Hne. unfold hashRefreshToken at 1. rewrite (falsyString_false token Hne).
  split; [reflexivity|]. split; [apply digest_length|].
  split; [apply digest_chars|reflexivity].
Qed.

(** X13: [createSession] stores a record exactly when the principal is an
    ObjectId (24 hex digits), the token is not empty and the address is not
    empty. It then appends one active record that expires seven days later;
    otherwise it throws [SESSION_CREATION_FAILED] and stores nothing. *)
Theorem createSession_outcome u R sd now sessions :
  (fst (createSession u R sd now sessions) = Return tt
   <-> is_Some (castObjectId u) /\ R <> "" /\ ipAddress sd <> "")
  /\ (fst (createSession u R sd now sessions) = Return tt ->
      exists d, snd (createSession u R sd now sessions) = sessions ++ [d]
                /\ d !! "refreshTokenHash" = Some (VString (Sha256.hex R))
                /\ d !! "isActive" = Some (VBoolean true)
                /\ d !! "expiresAt" = Some (VDate (now + SEVEN_DAYS)))
  /\ (fst (createSession u R sd now sessions) <> Return tt ->
      createSession u R sd now sessions
      = (Throws "SESSION_CREATION_FAILED", sessions)).
Proof.
  rewrite createSession_run.
  destruct (castObjectId u) as [h|] eqn:Eu.
  2:{ split; [split; [discriminate|intros [[x Hx] _]; discriminate Hx]|].
      split; [discriminate|reflexivity]. }
  destruct (String.eqb_spec R "") as [->|HR].
  { cbn [falsyString String.eqb orb fst snd].
    split; [split; [discriminate|intros (_ & H & _); contradiction]|].
    split; [discriminate|reflexivity]. }
  rewrite (falsyString_false R HR). cbn [orb].
  destruct (String.eqb_spec (ipAddress sd) "") as [Hip|Hip].
  { unfold falsyString. rewrite Hip. cbn [String.eqb fst snd].
    split; [split; [discriminate|intros (_ & _ & H); contradiction]|].
    split; [discriminate|reflexivity]. }
  rewrite (falsyString_false _ Hip). cbn [fst snd].
  split; [split; [auto|reflexivity]|].
  split; [|intros H; contradiction].
  intros _. exists (sessionDocument h (Sha256.hex R) sd now).
  split; [reflexivity|]. split; [apply sessionDocument_hash|].
  destruct (sessionDocument_fields h (Sha256.hex R) sd now) as (Ha & He & _).
  auto.
Qed.

End StoreProperties.

Lemma hashRefreshToken_shape_witness :
  hashRefreshToken "abc"
  = Return "ba7816bf8f01cfea414140de5dae2223b00361a396177a9cb410ff61f20015ad".
Proof.
  destruct (hashRefreshToken_shape "abc") as (H & _).
  - discriminate.
  - rewrite H. by_vm.
Defined.


(** ** The records of a reachable collection *)

Section Invariant.
Import Js Jwt Mongoose Session.

Lemma lower_length s : String.length (lower s) = String.length s.
Proof. induction s as [|c s IH]; [reflexivity|]. simpl. congruence. Qed.

Lemma castObjectId_length u h :
  castObjectId u = Some h -> String.length h = 24%nat.
Proof.
  unfold castObjectId.
  destruct (Z.eqb_spec (Z.of_nat (String.length u)) 24) as [E|E]; [|discriminate].
  destruct (allChars isHexDigit u); [|discriminate].
  cbn [andb]. intros [= <-]. rewrite lower_length. lia.
Qed.

Lemma wellFormed_sessionDocument u h R sd now :
  castObjectId u = Some h -> ipAddress sd <> "" ->
  wellFormed (sessionDocument h (Sha256.hex R) sd now).
Proof.
  intros Hu Hip. unfold wellFormed, sessionDocument.
  split; [exists h; split;
          [destruct (userAgent sd); reflexivity|
           split; [eapply castObjectId_length, Hu|eapply castObjectId_chars, Hu]]|].
  split; [exists (Sha256.hex R); split;
          [destruct (userAgent sd); reflexivity|apply digest_length]|].
  split; [exists (ipAddress sd); split;
          [destruct (userAgent sd); reflexivity|exact Hip]|].
  split; [exists now, (now + SEVEN_DAYS);
          split; [|split; [|lia]]; destruct (userAgent sd); reflexivity|].
  split; [exists true; destruct (userAgent sd); reflexivity|].
  destruct (userAgent sd); reflexivity.
Qed.

(** A write to a field that the shape does not mention keeps the shape. *)
Lemma wellFormed_insert k v d :
  k <> "userId" -> k <> "refreshTokenHash" -> k <> "ipAddress" ->
  k <> "createdAt" -> k <> "expiresAt" -> k <> "isActive" -> k <> "revokedAt" ->
  wellFormed d -> wellFormed (<[k := v]> d).
Proof.
  intros ? ? ? ? ? ? ?. unfold wellFormed.
  rewrite !lookup_insert_ne by congruence. auto.
Qed.

Lemma wellFormed_isActive b d :
  wellFormed d -> wellFormed (<["isActive" := VBoolean b]> d).
Proof.
  unfold wellFormed. intros (H1 & H2 & H3 & H4 & _ & H6).
  rewrite lookup_insert_eq.
  rewrite !(lookup_insert_ne d "isActive") by discriminate.
  split; [exact H1|]. split; [exact H2|]. split; [exact H3|].
  split; [exact H4|]. split; [exists b; reflexivity|exact H6].
Qed.

Lemma wellFormed_deactivate now d : wellFormed d -> wellFormed (deactivate now d).
Proof.
  intros H. unfold deactivate.
  apply wellFormed_insert; try discriminate. apply wellFormed_isActive, H.
Qed.

Lemma createSession_store u R sd now sessions :
  snd (createSession u R sd now sessions) = sessions
  \/ exists h, castObjectId u = Some h /\ R <> "" /\ ipAddress sd <> ""
               /\ snd (createSession u R sd now sessions)
                  = sessions ++ [sessionDocument h (Sha256.hex R) sd now].
Proof.
  rewrite createSession_run.
  destruct (castObjectId u) as [h|]; [|left; reflexivity].
  destruct (String.eqb_spec R "") as [->|HR]; [left; reflexivity|].
  rewrite (falsyString_false R HR). cbn [orb].
  destruct (String.eqb_spec (ipAddress sd) "") as [Hip|Hip].
  { unfold falsyString. rewrite Hip. left. reflexivity. }
  rewrite (falsyString_false _ Hip). right. exists h. auto.
Qed.

Lemma revokeSession_store R now sessions :
  snd (revokeSession R now sessions)
  = if falsyString R then sessions
    else snd (updateFirst (byHash (Sha256.hex R)) (deactivation now) sessions).
Proof.
  destruct (String.eqb_spec R "") as [->|HR]; [reflexivity|].
  rewrite (revokeSession_run R now sessions HR), (falsyString_false R HR).
  reflexivity.
Qed.

Lemma revokeAllUserSessions_store P now sessions :
  snd (revokeAllUserSessions P now sessions)
  = match castObjectId P with
    | Some h => map (fun d => if matches (activeOf h) d then deactivate now d else d)
                  sessions
    | None => sessions
    end.
Proof.
  destruct (castObjectId P) as [h|] eqn:E.
  - rewrite (revokeAllUserSessions_spec P h now sessions E). reflexivity.
  - unfold revokeAllUserSessions. destruct (falsyString P); [reflexivity|].
    unfold updateMany, castFilter. cbn -[castObjectId]. rewrite E. reflexivity.
Qed.

Lemma matches_expired now d :
  matches [("expiresAt", Before now)] d = expiredBefore now d.
Proof.
  unfold matches, holds, expiredBefore. cbn [forallb fst snd].
  rewrite andb_true_r. destruct (d !! "expiresAt") as [[]|]; reflexivity.
Qed.

Lemma matches_revoked t d :
  matches [("isActive", IsValue (VBoolean false)); ("revokedAt", Before t)] d
  = revokedBefore t d.
Proof.
  unfold matches, holds, revokedBefore. cbn [forallb fst snd].
  rewrite andb_true_r.
  destruct (d !! "isActive") as [w|];
    [destruct (decide (VBoolean false = w)) as [<-|Hne];
     [rewrite !bool_decide_true by reflexivity
     |rewrite !bool_decide_false by congruence]
    |rewrite bool_decide_false by discriminate];
    destruct (d !! "revokedAt") as [[]|]; reflexivity.
Qed.

(** [cleanupExpiredSessions] never throws; it removes the records of its
    two alternatives and counts them. *)
Lemma cleanupExpiredSessions_run now sessions :
  cleanupExpiredSessions now sessions
  = let kept :=
      List.filter (fun d => negb (expiredBefore now d
                                  || revokedBefore (now - THIRTY_DAYS) d)) sessions in
    (Return (length sessions - length kept)%nat, kept).
Proof.
  unfold cleanupExpiredSessions, deleteMany.
  change (mapM (castFilter sessionSchema)
            [ [("expiresAt", LessThan now)];
              [("isActive", Equals (IBoolean false));
               ("revokedAt", LessThan (now - THIRTY_DAYS))] ])
    with (Some [ [("expiresAt", Before now)];
                 [("isActive", IsValue (VBoolean false));
                  ("revokedAt", Before (now - THIRTY_DAYS))] ]).
  cbn zeta. f_equal.
  - f_equal. f_equal. f_equal. apply List.filter_ext. intros d. cbn [existsb].
    rewrite matches_expired, matches_revoked, orb_false_r. reflexivity.
  - apply List.filter_ext. intros d. cbn [existsb].
    rewrite matches_expired, matches_revoked, orb_false_r. reflexivity.
Qed.

Lemma Forall_filter_bool (P : Document -> Prop) f (l : list Document) :
  Forall P l -> Forall P (List.filter f l).
Proof.
  intros H. apply List.Forall_forall. intros x Hx.
  apply List.filter_In in Hx as [Hx _].
  eapply List.Forall_forall in H; eauto.
Qed.

(** The shape is an invariant of the calls of the service. *)
Lemma Reachable_Forall_wellFormed sessions :
  Reachable sessions -> Forall wellFormed sessions.
Proof.
  assert (Hcreate : forall u R sd now s,
            Forall wellFormed s -> Forall wellFormed (snd (createSession u R sd now s))).
  { intros u R sd now s IH.
    destruct (createSession_store u R sd now s) as [->|(h & Hu & _ & Hip & ->)];
      [exact IH|].
    apply Forall_app. split; [exact IH|].
    apply Forall_singleton. eapply wellFormed_sessionDocument; eauto. }
  assert (Hvalidate : forall (jwt : Library) env R now s,
            Forall wellFormed s ->
            Forall wellFormed (snd (validateSession env R now s))).
  { intros jwt env R now s IH.
    destruct (validateSession_cases env R now s)
      as [[_ ->]|(tv & i & d & _ & _ & _ & _ & Hl & _ & ->)]; [exact IH|].
    destruct (bool_decide _); [exact IH|].
    apply Forall_insert; [exact IH|].
    apply wellFormed_insert; try discriminate.
    apply wellFormed_insert; try discriminate.
    eapply Forall_lookup_1; eauto. }
  induction 1 as [|u R sd now s _ IH|jwt env R now s _ IH|R now s _ IH
                  |u now s _ IH|now s _ IH|jwt env u sd now s _ IH
                  |jwt env R now s _ IH].
  - constructor.
  - apply Hcreate, IH.
  - apply Hvalidate, IH.
  - rewrite revokeSession_store. destruct (falsyString R); [exact IH|].
    rewrite (updateFirst_findFirst _ _ _ 0%nat).
    destruct (findFirst _ 0%nat s) as [[i d]|] eqn:Ef; [|exact IH].
    destruct (findFirst_lookup _ _ _ _ _ Ef) as (_ & Hl & _).
    apply Forall_insert; [exact IH|].
    rewrite applySet_deactivation. apply wellFormed_deactivate.
    eapply Forall_lookup_1; eauto.
  - rewrite revokeAllUserSessions_store.
    destruct (castObjectId u) as [h|]; [|exact IH].
    apply Forall_fmap. eapply Forall_impl; [exact IH|].
    intros d Hd. unfold compose. destruct (matches (activeOf h) d);
      [apply wellFormed_deactivate, Hd|exact Hd].
  - rewrite cleanupExpiredSessions_run. cbn [snd]. apply Forall_filter_bool, IH.
  - unfold generateTokenPair.
    destruct (generateAccessToken env u None now); [|exact IH].
    destruct (generateRefreshToken env u now) as [r|]; [|exact IH].
    pose proof (Hcreate u r sd now s IH) as H.
    destruct (createSession u r sd now s) as [[[]|c] s']; exact H.
  - unfold refreshAccessToken.
    pose proof (Hvalidate jwt env R now s IH) as H.
    destruct (validateSession env R now s) as [[x|] s']; [|exact H].
    destruct (generateAccessToken env x None now); exact H.
Qed.

(** X14: Every record of a reachable collection has the shape of a session:
    whatever the calls were, a record has a principal that is an ObjectId, a
    digest of 64 characters and a non-empty address, expires no later than
    seven days after it was created, has an activity flag, and has no
    [revokedAt]. *)
Theorem reachable_wellFormed sessions d :
  Reachable sessions -> d ∈ sessions ->
  (exists h, d !! "userId" = Some (VObjectId h)
             /\ String.length h = 24%nat /\ allChars isLowerHex h = true)
  /\ (exists x, d !! "refreshTokenHash" = Some (VString x)
                /\ String.length x = 64%nat)
  /\ (exists a, d !! "ipAddress" = Some (VString a) /\ a <> "")
  /\ (exists t e, d !! "createdAt" = Some (VDate t)
                  /\ d !! "expiresAt" = Some (VDate e)
                  /\ e <= t + SEVEN_DAYS)
  /\ (exists b, d !! "isActive" = Some (VBoolean b))
  /\ d !! "revokedAt" = None.
Proof.
  intros Hr Hd. apply Reachable_Forall_wellFormed in Hr.
  rewrite Forall_forall in Hr. exact (Hr d Hd).
Qed.

End Invariant.

Lemma reachable_wellFormed_witness :
  exists t e,
    sessionDocument alice (Sha256.hex "a.b.c") laptop 1000 !! "createdAt"
    = Some (Mongoose.VDate t)
    /\ sessionDocument alice (Sha256.hex "a.b.c") laptop 1000 !! "expiresAt"
       = Some (Mongoose.VDate e)
    /\ e <= t + SEVEN_DAYS.
Proof.
  destruct (reachable_wellFormed threeSessions
              (sessionDocument alice (Sha256.hex "a.b.c") laptop 1000))
    as (_ & _ & _ & H & _).
  - unfold threeSessions. do 3 apply reach_createSession. apply reach_empty.
  - assert (E : threeSessions !! 0%nat
                = Some (sessionDocument alice (Sha256.hex "a.b.c") laptop 1000))
      by by_vm.
    apply (list_elem_of_lookup_2 _ 0%nat), E.
  - exact H.
Defined.

(** ** Cleaning up, revoking everything, refreshing, logging in *)

Section Lifecycle.
Import Js Jwt Mongoose Session.

Lemma filter_complement_length (p : Document -> bool) l :
  (length l - length (List.filter (fun d => negb (p d)) l))%nat
  = length (List.filter p l).
Proof.
  induction l as [|d l IH]; [reflexivity|]. simpl.
  pose proof (List.filter_length_le (fun d => negb (p d)) l) as Hle.
  destruct (p d); simpl; lia.
Qed.

Lemma wellFormed_not_revokedBefore t d : wellFormed d -> revokedBefore t d = false.
Proof.
  intros (_ & _ & _ & _ & _ & H). unfold revokedBefore. rewrite H.
  apply andb_false_r.
Qed.

(** X15: On a reachable collection [cleanupExpiredSessions] removes the
    records whose expiry is before [now], returns their number, and removes
    nothing else: its alternative for revoked sessions matches no record,
    since no record has a [revokedAt], so a revoked session stays until it
    expires. *)
Theorem cleanup_removes_expired_only now sessions :
  Reachable sessions ->
  cleanupExpiredSessions now sessions
  = (Return (length (List.filter (expiredBefore now) sessions)),
     List.filter (fun d => negb (expiredBefore now d)) sessions).
Proof.
  intros Hr. apply Reachable_Forall_wellFormed in Hr.
  rewrite cleanupExpiredSessions_run. cbn zeta.
  assert (E : List.filter (fun d => negb (expiredBefore now d
                                          || revokedBefore (now - THIRTY_DAYS) d))
                sessions
              = List.filter (fun d => negb (expiredBefore now d)) sessions).
  { apply List.filter_ext_in. intros d Hd.
    eapply List.Forall_forall in Hr; [|exact Hd].
    rewrite (wellFormed_not_revokedBefore _ d Hr), orb_false_r. reflexivity. }
  rewrite E, filter_complement_length. reflexivity.
Qed.

(** X17: [revokeAllUserSessions] for a principal that is an ObjectId is
    idempotent: a second call finds no active session, returns 0 and writes
    nothing. For any other principal it throws [BULK_REVOCATION_FAILED] and
    writes nothing. *)
Theorem revokeAll_twice P now now' sessions :
  match castObjectId P with
  | Some _ =>
      revokeAllUserSessions P now' (snd (revokeAllUserSessions P now sessions))
      = (Return 0%nat, snd (revokeAllUserSessions P now sessions))
  | None =>
      revokeAllUserSessions P now sessions
      = (Throws "BULK_REVOCATION_FAILED", sessions)
  end.
Proof.
  destruct (castObjectId P) as [h|] eqn:E.
  - rewrite (revokeAllUserSessions_spec P h now sessions E). cbn [snd].
    rewrite (revokeAllUserSessions_spec P h now' _ E).
    set (f := fun d : Document => if matches (activeOf h) d then deactivate now d else d).
    assert (Hf : forall d, matches (activeOf h) (f d) = false).
    { intros d. subst f. cbv beta. destruct (matches (activeOf h) d) eqn:Em; [|exact Em].
      apply not_true_iff_false. intros [_ Ha]%matches_activeOf.
      unfold deactivate in Ha. rewrite lookup_insert_ne in Ha by discriminate.
      rewrite lookup_insert_eq in Ha. discriminate Ha. }
    f_equal.
    + f_equal. induction sessions as [|d l IH]; [reflexivity|]. cbn [map].
      rewrite filter_cons_False by (rewrite Hf; discriminate). exact IH.
    + induction sessions as [|d l IH]; [reflexivity|]. cbn [map].
      rewrite Hf. f_equal. exact IH.
  - unfold revokeAllUserSessions. destruct (falsyString P); [reflexivity|].
    unfold updateMany, castFilter. cbn -[castObjectId]. rewrite E. reflexivity.
Qed.

Lemma findFirst_filter (f : list (string * Test)) (keep : Document -> bool) coll :
  (forall d, matches f d = true -> keep d = true) ->
  forall n m,
    snd <$> findFirst f n (List.filter keep coll) = snd <$> findFirst f m coll.
Proof.
  intros Hk. induction coll as [|d coll IH]; intros n m; [reflexivity|].
  simpl. destruct (matches f d) eqn:Em.
  - rewrite (Hk d Em). simpl. rewrite Em. reflexivity.
  - destruct (keep d); simpl; [rewrite Em|]; apply IH.
Qed.

Section WithLibrary.
Context {jwt : Library}.
Variable env : gmap string string.

Lemma validateSession_fst R now sessions :
  fst (validateSession env R now sessions)
  = match verifyRefreshToken env R now with
    | Some tv =>
        if isValid tv
        then (snd <$> findFirst (usable (Sha256.hex R) now) 0 sessions) ≫= userIdOf
        else None
    | None => None
    end.
Proof.
  destruct (String.eqb_spec R "") as [->|HR]; [reflexivity|].
  destruct (verifyRefreshToken env R now) as [tv|] eqn:Ev.
  2:{ rewrite validateSession_unverified; [reflexivity|].
      intros tv Htv. rewrite Ev in Htv. discriminate Htv. }
  destruct (isValid tv) eqn:Evalid.
  2:{ rewrite validateSession_unverified; [reflexivity|].
      intros tv' Htv. rewrite Ev in Htv. injection Htv as <-. exact Evalid. }
  rewrite (validateSession_run env R now sessions tv HR Ev Evalid).
  destruct (findFirst (usable (Sha256.hex R) now) 0 sessions) as [[i d]|] eqn:Ef;
    [|reflexivity].
  destruct (findFirst_lookup _ _ _ _ _ Ef) as (_ & Hl & _).
  rewrite Nat.sub_0_r in Hl.
  rewrite (save_lastUsed_eq i d now sessions Hl). cbn.
  destruct (userIdOf d); reflexivity.
Qed.

(** X16: No validation can tell that the clean-up has run: a session that
    validates is neither expired nor revoked, and is kept. *)
Theorem cleanup_unobservable R now now' sessions :
  now <= now' ->
  fst (validateSession env R now' (snd (cleanupExpiredSessions now sessions)))
  = fst (validateSession env R now' sessions).
Proof.
  intros Hle. rewrite !validateSession_fst, cleanupExpiredSessions_run.
  cbn [snd].
  rewrite (findFirst_filter (usable (Sha256.hex R) now') _ sessions) with (m := 0%nat);
    [reflexivity|].
  intros d (_ & Ha & x & Hx & Hlt)%matches_usable.
  unfold expiredBefore, revokedBefore. rewrite Hx, Ha.
  rewrite bool_decide_false by discriminate.
  destruct (Z.ltb_spec x now); [lia|reflexivity].
Qed.

(** X18: Logging out of every device: after [revokeAllUserSessions] for a
    principal, a refresh token all of whose records are records of that
    principal validates no more. *)
Theorem revokeAll_then_validate P h R now now' sessions :
  castObjectId P = Some h ->
  (forall d, d ∈ sessions ->
     d !! "refreshTokenHash" = Some (VString (Sha256.hex R)) ->
     d !! "userId" = Some (VObjectId h)) ->
  fst (validateSession env R now' (snd (revokeAllUserSessions P now sessions)))
  = None.
Proof.
  intros HP Hown. rewrite validateSession_fst, revokeAllUserSessions_store, HP.
  destruct (verifyRefreshToken env R now') as [tv|]; [|reflexivity].
  destruct (isValid tv); [|reflexivity].
  assert (Hnone : findFirst (usable (Sha256.hex R) now') 0
                    (map (fun d => if matches (activeOf h) d
                                   then deactivate now d else d) sessions)
                  = None).
  { apply findFirst_none. intros d' Hd'.
    apply list_elem_of_fmap in Hd' as (d & -> & Hd).
    destruct (matches (activeOf h) d) eqn:Em.
    - apply not_true_iff_false. intros (_ & Ha & _)%matches_usable.
      unfold deactivate in Ha. rewrite lookup_insert_ne in Ha by discriminate.
      rewrite lookup_insert_eq in Ha. discriminate Ha.
    - apply not_true_iff_false. intros (Hh & Ha & _)%matches_usable.
      apply not_true_iff_false in Em. apply Em, matches_activeOf.
      split; [apply Hown; assumption|exact Ha]. }
  rewrite Hnone. reflexivity.
Qed.

(** X19: [refreshAccessToken] returns an access token exactly when
    [validateSession] returns a principal that is not the empty string; the
    token is one of that principal, which [verifyAccessToken] accepts until
    it expires; and the collection is the one [validateSession] leaves. *)
Theorem refreshAccessToken_spec (laws : Laws jwt) R now sessions :
  snd (refreshAccessToken env R now sessions)
  = snd (validateSession env R now sessions)
  /\ (forall a, fst (refreshAccessToken env R now sessions) = Some a ->
        exists u, fst (validateSession env R now sessions) = Some u
                  /\ u <> ""
                  /\ forall now', now' / 1000 < now / 1000 + ACCESS_TOKEN_EXPIRY ->
                       verifyAccessToken env a now'
                       = Some {| userId := JStr u; isValid := true; error := None |})
  /\ (forall u, fst (validateSession env R now sessions) = Some u -> u <> "" ->
        is_Some (fst (refreshAccessToken env R now sessions))).
Proof.
  unfold refreshAccessToken.
  destruct (validateSession env R now sessions) as [[u|] s'] eqn:Ev; cbn [fst snd].
  2:{ split; [reflexivity|]. split; [discriminate|discriminate]. }
  destruct (generateAccessToken env u None now) as [a|c] eqn:Eg; cbn [fst snd].
  - split; [reflexivity|]. split; [|eauto].
    intros a' [= <-]. exists u. split; [reflexivity|].
    assert (Hu : u <> "").
    { intros ->. discriminate Eg. }
    split; [exact Hu|]. intros now' Hlt.
    unfold generateAccessToken in Eg. rewrite (falsyString_false u Hu) in Eg.
    destruct (sign _ _ _ now) as [tok|e] eqn:Es; [|discriminate Eg].
    injection Eg as ->.
    pose proof (sign_compact jwt laws _ _ _ _ _ Es) as Hcomp.
    unfold verifyAccessToken.
    rewrite (compact_nonempty a Hcomp), (replaceBearer_compact a Hcomp).
    eapply verify_generated; eauto.
  - split; [reflexivity|]. split; [discriminate|].
    intros u' [= <-] Hu. exfalso.
    unfold generateAccessToken in Eg. rewrite (falsyString_false u Hu) in Eg.
    destruct (sign_plain jwt laws (payload u "access" None) (getSecret env access)
                (signOptions env ACCESS_TOKEN_EXPIRY) now
                (getSecret_nonempty env access) (payload_plain u "access") eq_refl eq_refl)
      as [tok Htok].
    rewrite Htok in Eg. discriminate Eg.
Qed.

(** The record of a session expires with its token or after it: the
    token counts whole seconds from the second of the login, the record
    milliseconds from its instant. *)
Lemma record_outlives_token t t' :
  t' / 1000 < t / 1000 + REFRESH_TOKEN_EXPIRY -> t' < t + SEVEN_DAYS.
Proof.
  unfold REFRESH_TOKEN_EXPIRY, SEVEN_DAYS. intros H.
  pose proof (Z.mul_div_le t 1000 ltac:(lia)).
  pose proof (Z.mul_succ_div_gt t' 1000 ltac:(lia)). lia.
Qed.

(** What a login leaves behind: a pair of tokens that verify and validate. *)
Lemma generateTokenPair_round_trip (laws : Laws jwt) u h sd t sessions :
  castObjectId u = Some h -> ipAddress sd <> "" ->
  (forall d, d ∈ sessions -> is_Some (userIdOf d)) ->
  exists p s',
    generateTokenPair env u sd t sessions = (Return p, s')
    /\ (forall t', t' / 1000 < t / 1000 + ACCESS_TOKEN_EXPIRY ->
          verifyAccessToken env (accessToken p) t'
          = Some {| userId := JStr u; isValid := true; error := None |})
    /\ (forall t', t' / 1000 < t / 1000 + REFRESH_TOKEN_EXPIRY ->
          is_Some (fst (validateSession env (refreshToken p) t' s'))
          /\ ((forall d, d ∈ sessions ->
                 d !! "refreshTokenHash"
                 <> Some (VString (Sha256.hex (refreshToken p)))) ->
              fst (validateSession env (refreshToken p) t' s') = Some h)).
Proof.
  intros Hu Hip Hwf.
  pose proof (castObjectId_nonempty u h Hu) as Hne.
  destruct (generateTokenPair_run env laws u h sd t sessions Hu Hip)
    as (a & r & Hga & Hgr & Hs & Hp).
  exists {| accessToken := a; refreshToken := r |},
    (sessions ++ [sessionDocument h (Sha256.hex r) sd t]).
  split; [exact Hp|]. cbn [accessToken refreshToken].
  pose proof (sign_compact jwt laws _ _ _ _ _ Hs) as Hcr.
  assert (Hr : r <> "") by (intros ->; discriminate Hcr).
  split.
  - intros t' Hlt. unfold generateAccessToken in Hga.
    rewrite (falsyString_false u Hne) in Hga.
    destruct (sign _ _ _ t) as [tok|e] eqn:Es in Hga; [|discriminate Hga].
    injection Hga as ->.
    pose proof (sign_compact jwt laws _ _ _ _ _ Es) as Hca.
    unfold verifyAccessToken.
    rewrite (compact_nonempty a Hca), (replaceBearer_compact a Hca).
    eapply verify_generated; eauto.
  - intros t' Hlt. pose proof (record_outlives_token t t' Hlt) as Hrec.
    set (doc := sessionDocument h (Sha256.hex r) sd t).
    destruct (sessionDocument_fields h (Sha256.hex r) sd t) as (Hact & Hex & Hid).
    assert (Hver : verifyRefreshToken env r t'
                   = Some {| userId := JStr u; isValid := true; error := None |}).
    { unfold verifyRefreshToken. rewrite (compact_nonempty r Hcr).
      eapply verify_generated; eauto. }
    assert (Hm : matches (usable (Sha256.hex r) t') doc = true).
    { apply matches_usable. split; [apply sessionDocument_hash|].
      split; [exact Hact|]. exists (t + SEVEN_DAYS). split; [exact Hex|exact Hrec]. }
    split.
    + apply validateSession_spec.
      * intros d [Hd|Hd%list_elem_of_singleton]%elem_of_app; [apply Hwf, Hd|].
        subst d. exists h. exact Hid.
      * split; [exact Hr|]. split; [eauto|].
        exists doc. split; [apply elem_of_app; right; apply list_elem_of_singleton;
                            reflexivity|].
        apply matches_usable, Hm.
    + intros Hfresh. rewrite validateSession_fst, Hver. cbn [isValid].
      rewrite (findFirst_first _ 0%nat (sessions ++ [doc]) (length sessions) doc).
      * cbn. exact Hid.
      * rewrite lookup_app_r by lia. rewrite Nat.sub_diag. reflexivity.
      * exact Hm.
      * intros j e Hj He. rewrite lookup_app_l in He by exact Hj.
        apply not_true_iff_false. intros (Hh & _)%matches_usable.
        apply (Hfresh e); [eapply list_elem_of_lookup_2, He|exact Hh].
Qed.

(** X20: The round trip of a login. [generateTokenPair] for a principal that
    is an ObjectId, from a device with an address, returns a pair whose
    access token verifies for the principal until it expires, after fifteen
    minutes, and whose refresh token validates until it expires, after seven
    days; it validates to the principal, in lower case, when no older record
    has its digest. *)
Theorem login_round_trip (laws : Laws jwt) u h sd t sessions :
  castObjectId u = Some h -> ipAddress sd <> "" ->
  (forall d, d ∈ sessions -> is_Some (userIdOf d)) ->
  exists p s',
    generateTokenPair env u sd t sessions = (Return p, s')
    /\ (forall t', t' / 1000 < t / 1000 + ACCESS_TOKEN_EXPIRY ->
          verifyAccessToken env (accessToken p) t'
          = Some {| userId := JStr u; isValid := true; error := None |})
    /\ (forall t', t' / 1000 < t / 1000 + REFRESH_TOKEN_EXPIRY ->
          is_Some (fst (validateSession env (refreshToken p) t' s'))
          /\ ((forall d, d ∈ sessions ->
                 d !! "refreshTokenHash"
                 <> Some (VString (Sha256.hex (refreshToken p)))) ->
              fst (validateSession env (refreshToken p) t' s') = Some h)).
Proof. exact (generateTokenPair_round_trip laws u h sd t sessions). Qed.

(** X27: [generateTokenPair] succeeds exactly for a principal that is an
    ObjectId and a device with an address. For any other principal the two
    tokens are signed and then dropped: the call throws
    [TOKEN_PAIR_GENERATION_FAILED] and stores nothing. *)
Theorem generateTokenPair_outcome (laws : Laws jwt) u sd t sessions :
  ((exists p, fst (generateTokenPair env u sd t sessions) = Return p)
   <-> is_Some (castObjectId u) /\ ipAddress sd <> "")
  /\ ((forall p, fst (generateTokenPair env u sd t sessions) <> Return p) ->
      generateTokenPair env u sd t sessions
      = (Throws "TOKEN_PAIR_GENERATION_FAILED", sessions)).
Proof.
  destruct (castObjectId u) as [h|] eqn:Eu.
  - destruct (String.eqb_spec (ipAddress sd) "") as [Hip|Hip].
    + assert (E : generateTokenPair env u sd t sessions
                  = (Throws "TOKEN_PAIR_GENERATION_FAILED", sessions)).
      { unfold generateTokenPair.
        destruct (generateAccessToken env u None t); [|reflexivity].
        destruct (generateRefreshToken env u t) as [r|]; [|reflexivity].
        rewrite createSession_run, Eu. unfold falsyString at 2. rewrite Hip.
        rewrite orb_true_r. reflexivity. }
      rewrite E. split; [|reflexivity].
      split; [intros [p Hp]; discriminate Hp|intros [_ H]; contradiction].
    + destruct (generateTokenPair_run env laws u h sd t sessions Eu Hip)
        as (a & r & _ & _ & _ & ->).
      split; [split; [eauto|eauto]|].
      intros H. exfalso. eapply H. reflexivity.
  - assert (E : generateTokenPair env u sd t sessions
                = (Throws "TOKEN_PAIR_GENERATION_FAILED", sessions)).
    { unfold generateTokenPair.
      destruct (generateAccessToken env u None t); [|reflexivity].
      destruct (generateRefreshToken env u t) as [r|]; [|reflexivity].
      rewrite createSession_run, Eu. reflexivity. }
    rewrite E. split; [|reflexivity].
    split; [intros [p Hp]; discriminate Hp|intros [[x Hx] _]; discriminate Hx].
Qed.

End WithLibrary.

End Lifecycle.

Lemma cleanup_removes_expired_only_witness :
  cleanupExpiredSessions 604802500 threeSessions
  = (Return (length (List.filter (expiredBefore 604802500) threeSessions)),
     List.filter (fun d => negb (expiredBefore 604802500 d)) threeSessions).
Proof.
  apply (cleanup_removes_expired_only 604802500 threeSessions). unfold threeSessions.
  do 3 apply reach_createSession. apply reach_empty.
Defined.

Lemma cleanup_unobservable_witness :
  fst (validateSession (jwt := ToyJwt.library) ∅ "a.b.c" 604802500
         (snd (cleanupExpiredSessions 604802500 threeSessions)))
  = fst (validateSession (jwt := ToyJwt.library) ∅ "a.b.c" 604802500 threeSessions).
Proof.
  apply (cleanup_unobservable (jwt := ToyJwt.library) ∅ "a.b.c" 604802500 604802500
           threeSessions).
  lia.
Defined.

Lemma revokeAll_then_validate_witness :
  fst (validateSession (jwt := ToyJwt.library) ∅ "a.b.c" 6000
         (snd (revokeAllUserSessions alice 5000 oneSession)))
  = None.
Proof.
  apply (revokeAll_then_validate (jwt := ToyJwt.library) ∅ alice alice "a.b.c"
           5000 6000 oneSession).
  - by_vm.
  - intros d Hd _.
    assert (E : oneSession = [sessionDocument alice (Sha256.hex "a.b.c") laptop 1000])
      by by_vm.
    rewrite E in Hd. apply list_elem_of_singleton in Hd. subst d. reflexivity.
Defined.

Lemma refreshAccessToken_spec_witness :
  snd (refreshAccessToken (jwt := ToyJwt.library) ∅ "a.b.c" 2000 oneSession)
  = snd (validateSession (jwt := ToyJwt.library) ∅ "a.b.c" 2000 oneSession).
Proof.
  apply (refreshAccessToken_spec (jwt := ToyJwt.library) ∅ toy_laws "a.b.c" 2000
           oneSession).
Defined.

Lemma generateTokenPair_outcome_witness :
  generateTokenPair (jwt := ToyJwt.library) ∅ "user123" laptop 1000200 []
  = (Throws "TOKEN_PAIR_GENERATION_FAILED", []).
Proof.
  apply (generateTokenPair_outcome (jwt := ToyJwt.library) ∅ toy_laws "user123"
           laptop 1000200 []).
  intros p. assert (E : fst (generateTokenPair (jwt := ToyJwt.library) ∅ "user123"
                               laptop 1000200 [])
                        = Throws "TOKEN_PAIR_GENERATION_FAILED") by by_vm.
  rewrite E. discriminate.
Defined.

Lemma login_round_trip_witness :
  exists p s',
    generateTokenPair (jwt := ToyJwt.library) ∅ alice laptop 1000200 [] = (Return p, s')
    /\ fst (validateSession (jwt := ToyJwt.library) ∅ (refreshToken p) 3000000 s')
       = Some alice.
Proof.
  destruct (login_round_trip (jwt := ToyJwt.library) ∅ toy_laws alice alice laptop
              1000200 []) as (p & s' & H1 & _ & H2).
  - by_vm.
  - discriminate.
  - intros d Hd. inversion Hd.
  - exists p, s'. split; [exact H1|].
    destruct (H2 3000000) as [_ H].
    + vm_compute. reflexivity.
    + apply H. intros d Hd. inversion Hd.
Defined.

(** ** Strings *)

Section MoreStrings.
Import Js.

Lemma prefix_app p a : String.prefix p (p +:+ a) = true.
Proof.
  induction p as [|c p IH]; simpl; [destruct a; reflexivity|].
  destruct (Ascii.ascii_dec c c); [exact IH|contradiction].
Qed.

Lemma drop_app p a : drop (String.length p) (p +:+ a) = a.
Proof. induction p as [|c p IH]; [reflexivity|exact IH]. Qed.

Lemma prefix_drop p s :
  String.prefix p s = true -> s = p +:+ drop (String.length p) s.
Proof.
  revert s. induction p as [|c p IH]; intros s; [reflexivity|].
  destruct s as [|d s]; simpl; [discriminate|].
  destruct (Ascii.ascii_dec c d) as [->|]; [|discriminate].
  intros H. change (String d s = String d (p +:+ drop (String.length p) s)).
  f_equal. apply IH, H.
Qed.

Lemma removeFirst_eq p s :
  removeFirst p s
  = if String.prefix p s then drop (String.length p) s
    else match s with
         | String c r => String c (removeFirst p r)
         | EmptyString => EmptyString
         end.
Proof. destruct s; reflexivity. Qed.

Lemma removeFirst_prefix p a : removeFirst p (p +:+ a) = a.
Proof. rewrite removeFirst_eq, prefix_app. apply drop_app. Qed.

Lemma removeFirst_absent p s : includes p s = false -> removeFirst p s = s.
Proof.
  induction s as [|c s IH]; simpl.
  - intros H. apply orb_false_iff in H as [-> _]. reflexivity.
  - intros H. apply orb_false_iff in H as [-> H]. rewrite IH by exact H.
    reflexivity.
Qed.

End MoreStrings.

(** ** The middleware *)

Section MiddlewareProperties.
Import Js Jwt Mongoose.
Context {jwt : Library}.
Variable env : gmap string string.

Lemma lowerHex_fixed c :
  isLowerHex c = true -> isHexDigit c = true /\ lowerChar c = c.
Proof. destruct c as [[] [] [] [] [] [] [] []]; vm_compute; auto; discriminate. Qed.

Lemma lower_fixed s : allChars isLowerHex s = true ->
  allChars isHexDigit s = true /\ lower s = s.
Proof.
  induction s as [|c s IH]; [auto|]. cbn [allChars lower].
  intros [Hc Hs]%andb_true_iff.
  destruct (lowerHex_fixed c Hc) as [-> ->]. destruct (IH Hs) as [-> ->]. auto.
Qed.

(** The ObjectId of a principal, written out, is the principal again. *)
Lemma castObjectId_idem u h : castObjectId u = Some h -> castObjectId h = Some h.
Proof.
  intros H. pose proof (castObjectId_length u h H) as Hl.
  pose proof (castObjectId_chars u h H) as Hc.
  destruct (lower_fixed h Hc) as [Hx Hf].
  unfold castObjectId. rewrite Hl, Hx, Hf. reflexivity.
Qed.

Lemma bearer_Some authHeader token :
  AuthFastify.bearer authHeader = Some token ->
  authHeader = Some ("Bearer " +:+ token).
Proof.
  unfold AuthFastify.bearer. destruct authHeader as [h|]; [|discriminate].
  unfold startsWith. destruct (String.prefix "Bearer " h) eqn:E; [|discriminate].
  intros [= <-]. f_equal. exact (prefix_drop "Bearer " h E).
Qed.

Lemma findById_found userId db h doc db' :
  AuthFastify.findById userId db = (Some (Some (h, doc)), db') ->
  castObjectId (toStr (Some userId)) = Some h
  /\ HybridAuthController.users db !! h = Some doc.
Proof.
  unfold AuthFastify.findById. intros H. injection H as H _.
  assert (Hn : userId <> JNull) by (intros ->; discriminate H).
  assert (H' : match castObjectId (toStr (Some userId)) with
               | Some hex =>
                   Some ((fun u => (hex, u)) <$> HybridAuthController.users db !! hex)
               | None => None
               end = Some (Some (h, doc)))
    by (destruct userId; [contradiction|exact H..]).
  destruct (castObjectId (toStr (Some userId))) as [x|]; [|discriminate H'].
  injection H' as H'.
  destruct (HybridAuthController.users db !! x) as [y|] eqn:E; [|discriminate H'].
  cbn in H'. injection H' as -> ->. auto.
Qed.

(** The result of a verifier is "valid", or names no principal. *)
Lemma checkDecoded_cases expected r tv :
  checkDecoded expected r = Some tv ->
  (exists u, tv = {| userId := u; isValid := true; error := None |})
  \/ userId tv = JStr "".
Proof.
  unfold checkDecoded. destruct r as [d|e].
  - destruct (negb _); [discriminate|].
    destruct (claim d "userId") as [u|]; [|discriminate].
    destruct (negb _); [discriminate|]. intros [= <-]. left. eauto.
  - destruct (instanceofJsonWebTokenError e); [intros [= <-]; right; reflexivity|].
    destruct (instanceofTokenExpiredError e); [intros [= <-]; right; reflexivity|].
    discriminate.
Qed.

Lemma checkDecoded_results expected r tv :
  checkDecoded expected r = Some tv ->
  (exists u, truthy (Some u) = true
             /\ tv = {| userId := u; isValid := true; error := None |})
  \/ tv = {| userId := JStr ""; isValid := false;
             error := Some "Invalid token signature" |}.
Proof.
  unfold checkDecoded. destruct r as [d|e].
  - destruct (negb _); [discriminate|].
    destruct (claim d "userId") as [u|]; [|discriminate].
    destruct (truthy (Some u)) eqn:Eu; [|discriminate].
    intros [= <-]. left. eauto.
  - destruct e; cbn; try discriminate; intros [= <-]; right; reflexivity.
Qed.

(** X28: The two verifiers have two kinds of result: a valid one, with a
    truthy [userId] and no error, and the invalid one with the error
    "Invalid token signature".  The error "Token expired" is never
    returned: the exception of an expired token is a [JsonWebTokenError],
    and that class is tested first. *)
Theorem verifier_results token now tv :
  verifyAccessToken env token now = Some tv
  \/ verifyRefreshToken env token now = Some tv ->
  ((exists u, truthy (Some u) = true
              /\ tv = {| userId := u; isValid := true; error := None |})
   \/ tv = {| userId := JStr ""; isValid := false;
              error := Some "Invalid token signature" |})
  /\ error tv <> Some "Token expired".
Proof.
  intros H.
  assert (Hr : (exists u, truthy (Some u) = true
                          /\ tv = {| userId := u; isValid := true; error := None |})
               \/ tv = {| userId := JStr ""; isValid := false;
                          error := Some "Invalid token signature" |}).
  { destruct H as [H|H].
    - unfold verifyAccessToken in H. destruct (falsyString token); [discriminate H|].
      eapply checkDecoded_results, H.
    - unfold verifyRefreshToken in H. destruct (falsyString token); [discriminate H|].
      eapply checkDecoded_results, H. }
  split; [exact Hr|].
  destruct Hr as [(u & _ & ->) | ->]; discriminate.
Qed.

(** X21: For a token whose verified [userId] is a string, as the tokens of
    the service have it, [authMiddleware] lets a request through only with
    a user, and only when the header is [Bearer] and a token that
    [verifyAccessToken] finds valid for a principal who is an ObjectId,
    exists and is active; anything else is answered 401. The flag [isValid]
    is not read: a token that fails the verification names the principal
    [""], which is no ObjectId. *)
Theorem authMiddleware_attaches authHeader now db r db' :
  (forall token tv,
     authHeader = Some ("Bearer " +:+ token) ->
     verifyAccessToken env token now = Some tv ->
     exists s, userId tv = JStr s) ->
  AuthFastify.authMiddleware env authHeader now db = (r, db') ->
  (exists m, r = AuthFastify.Reply 401 m)
  \/ exists token s h doc,
       authHeader = Some ("Bearer " +:+ token) /\ token <> ""
       /\ verifyAccessToken env token now
          = Some {| userId := JStr s; isValid := true; error := None |}
       /\ castObjectId s = Some h
       /\ HybridAuthController.users db !! h = Some doc
       /\ HybridAuthController.isActive doc = true
       /\ r = AuthFastify.Continue (Some (AuthFastify.attach h doc)).
Proof.
  intros Hstr. unfold AuthFastify.authMiddleware.
  destruct (AuthFastify.bearer authHeader) as [token|] eqn:Eb;
    [|intros [= <- <-]; left; eauto].
  apply bearer_Some in Eb.
  destruct (String.eqb_spec token "") as [->|Ht];
    [intros [= <- <-]; left; eauto|].
  rewrite (falsyString_false token Ht).
  destruct (verifyAccessToken env token now) as [tv|] eqn:Ev;
    [|intros [= <- <-]; left; eauto].
  destruct (Hstr token tv Eb Ev) as [s Hs].
  assert (Hcases : (exists u, tv = {| userId := u; isValid := true; error := None |})
                   \/ userId tv = JStr "").
  { unfold verifyAccessToken in Ev. rewrite (falsyString_false token Ht) in Ev.
    eapply checkDecoded_cases, Ev. }
  destruct (AuthFastify.findById (userId tv) db) as [[[[h doc]|]|] db1] eqn:Ef;
    [|intros [= <- <-]; left; eauto|intros [= <- <-]; left; eauto].
  destruct (HybridAuthController.isActive doc) eqn:Ea; cbn [negb];
    [|intros [= <- <-]; left; eauto].
  intros [= <- <-]. right.
  destruct (findById_found _ _ _ _ _ Ef) as [Hc Hd].
  rewrite Hs in Hc. cbn [toStr] in Hc.
  destruct Hcases as [[u ->]|Hempty].
  - cbn [userId] in Hs. subst u. exists token, s, h, doc. auto 10.
  - rewrite Hs in Hempty. injection Hempty as ->. discriminate Hc.
Qed.

(** X22: The optional middleware attaches the user that [authMiddleware]
    would attach, and lets the request through without one where
    [authMiddleware] answers 401. *)
Theorem optionalAuthMiddleware_agrees authHeader now db :
  AuthFastify.optionalAuthMiddleware env authHeader now db
  = match AuthFastify.authMiddleware env authHeader now db with
    | (AuthFastify.Continue user, db') => (AuthFastify.Continue user, db')
    | (AuthFastify.Reply _ _, db') => (AuthFastify.Continue None, db')
    end.
Proof.
  unfold AuthFastify.optionalAuthMiddleware, AuthFastify.authMiddleware.
  destruct (AuthFastify.bearer authHeader) as [token|]; [|reflexivity].
  destruct (falsyString token); [reflexivity|].
  destruct (verifyAccessToken env token now) as [tv|]; [|reflexivity].
  destruct (AuthFastify.findById (userId tv) db) as [[[[h doc]|]|] db'];
    [|reflexivity|reflexivity].
  destruct (HybridAuthController.isActive doc); reflexivity.
Qed.

End MiddlewareProperties.

Lemma verifier_results_witness :
  error {| userId := Js.JStr ""; isValid := false;
           error := Some "Invalid token signature" |}
  <> Some "Token expired".
Proof.
  apply (verifier_results (jwt := ToyJwt.library) secretEnv aliceToken 900000
           {| userId := Js.JStr ""; isValid := false;
              error := Some "Invalid token signature" |}).
  left. by_vm.
Defined.

Lemma authMiddleware_attaches_witness :
  (exists m, fst aliceThrough = AuthFastify.Reply 401 m)
  \/ exists token s h doc,
       Some ("Bearer " +:+ aliceToken) = Some ("Bearer " +:+ token) /\ token <> ""
       /\ verifyAccessToken (jwt := ToyJwt.library) secretEnv token 1000
          = Some {| userId := Js.JStr s; isValid := true; error := None |}
       /\ Mongoose.castObjectId s = Some h
       /\ HybridAuthController.users (dbWith true) !! h = Some doc
       /\ HybridAuthController.isActive doc = true
       /\ fst aliceThrough = AuthFastify.Continue (Some (AuthFastify.attach h doc)).
Proof.
  apply (authMiddleware_attaches (jwt := ToyJwt.library) secretEnv
           (Some ("Bearer " +:+ aliceToken)) 1000 (dbWith true)
           (fst aliceThrough) (snd aliceThrough)).
  - intros token tv E Hv. injection E as E.
    change (aliceToken = token) in E. subst token.
    assert (Ha : verifyAccessToken (jwt := ToyJwt.library) secretEnv aliceToken 1000
                 = Some {| userId := Js.JStr alice; isValid := true; error := None |})
      by by_vm.
    rewrite Ha in Hv. injection Hv as <-. exists alice. reflexivity.
  - unfold aliceThrough. apply surjective_pairing.
Defined.

(** ** Login, refresh and logout *)

Section ControllerProperties.
Import Js Jwt Mongoose.

(** X23: The address that is stored. The prefix of an IPv4-mapped address is
    removed; an address without it is stored as it is; and a request without
    address is stored with the address [unknown]. *)
Theorem getDeviceInfo_address request :
  (forall a, AuthControllerFastify.ip request = Some ("::ffff:" +:+ a) ->
     ipAddress (AuthControllerFastify.getDeviceInfo request) = a)
  /\ (forall x, AuthControllerFastify.ip request = Some x -> x <> "" ->
        includes "::ffff:" x = false ->
        ipAddress (AuthControllerFastify.getDeviceInfo request) = x)
  /\ (AuthControllerFastify.ip request = None ->
      AuthControllerFastify.remoteAddress request = None ->
      ipAddress (AuthControllerFastify.getDeviceInfo request) = "unknown").
Proof.
  unfold AuthControllerFastify.getDeviceInfo. cbn [ipAddress].
  split; [|split].
  - intros a ->. cbn [orElse falsyString String.append String.eqb].
    apply (removeFirst_prefix "::ffff:" a).
  - intros x -> Hx Hi. cbn [orElse]. rewrite (falsyString_false x Hx).
    apply removeFirst_absent, Hi.
  - intros -> ->. reflexivity.
Qed.

Section WithLibrary.
Context {jwt : Library}.
Variable env : gmap string string.

Lemma generateAccessToken_succeeds (laws : Laws jwt) u now :
  u <> "" -> exists a, generateAccessToken env u None now = Return a.
Proof.
  intros Hu. unfold generateAccessToken. rewrite (falsyString_false u Hu).
  destruct (sign_plain jwt laws (payload u "access" None) (getSecret env access)
              (signOptions env ACCESS_TOKEN_EXPIRY) now
              (getSecret_nonempty env access) (payload_plain u "access") eq_refl eq_refl)
    as [tok ->].
  eauto.
Qed.

Lemma validateSession_principal R now sessions u :
  Forall wellFormed sessions ->
  fst (validateSession env R now sessions) = Some u -> u <> "".
Proof.
  intros Hwf Hv.
  destruct (validateSession_cases env R now sessions)
    as [[Hn _]|(tv & i & d & _ & _ & _ & _ & Hl & Hu & _)]; [congruence|].
  rewrite Hv in Hu.
  destruct (Forall_lookup_1 _ _ _ _ Hwf Hl) as ((h & Hh & Hlen & _) & _).
  unfold userIdOf in Hu. rewrite Hh in Hu. injection Hu as ->.
  intros ->. discriminate Hlen.
Qed.

(** X24: The handler of the refresh and [refreshAccessToken] agree: the
    handler sends the token that [refreshAccessToken] returns, with the
    status 200, and answers 401 where it returns none; the records are left
    the same. On a reachable collection the handler never answers 500. *)
Theorem refreshToken_handler (laws : Laws jwt) request R now sessions :
  AuthControllerFastify.refreshTokenCookie request = Some R ->
  Reachable sessions ->
  let reply := fst (AuthControllerFastify.refreshToken env request now sessions) in
  snd (AuthControllerFastify.refreshToken env request now sessions)
  = snd (refreshAccessToken env R now sessions)
  /\ AuthControllerFastify.accessToken reply
     = fst (refreshAccessToken env R now sessions)
  /\ AuthControllerFastify.status reply
     = match fst (refreshAccessToken env R now sessions) with
       | Some _ => 200
       | None => 401
       end.
Proof.
  intros Hc Hr reply. subst reply. apply Reachable_Forall_wellFormed in Hr.
  unfold AuthControllerFastify.refreshToken, refreshAccessToken. rewrite Hc.
  destruct (String.eqb_spec R "") as [->|HR]; [repeat split; reflexivity|].
  rewrite (falsyString_false R HR).
  destruct (validateSession env R now sessions) as [[u|] s'] eqn:Ev;
    [|repeat split; reflexivity].
  assert (Hu : u <> "").
  { eapply validateSession_principal; [exact Hr|]. rewrite Ev. reflexivity. }
  destruct (generateAccessToken_succeeds laws u now Hu) as [a ->].
  repeat split; reflexivity.
Qed.

(** X25: Logging out. [logout] with a cookie answers 200 and clears it; when
    the digest of the cookie's token is that of one record at most, the
    refresh that presents this token afterwards is answered 401. *)
Theorem logout_then_refresh request R now now' sessions :
  AuthControllerFastify.refreshTokenCookie request = Some R ->
  (forall i j d e, sessions !! i = Some d -> sessions !! j = Some e ->
     d !! "refreshTokenHash" = Some (VString (Sha256.hex R)) ->
     e !! "refreshTokenHash" = Some (VString (Sha256.hex R)) -> i = j) ->
  let out := AuthControllerFastify.logout request now sessions in
  AuthControllerFastify.status (fst out) = 200
  /\ AuthControllerFastify.clearsCookie (fst out) = true
  /\ fst (AuthControllerFastify.refreshToken env request now' (snd out))
     = {| AuthControllerFastify.status := 401;
          AuthControllerFastify.success := false;
          AuthControllerFastify.message :=
            Some (if falsyString R then "No refresh token provided"
                  else "Invalid or expired refresh token");
          AuthControllerFastify.accessToken := None;
          AuthControllerFastify.clearsCookie := false |}.
Proof.
  intros Hc Huniq out. subst out.
  unfold AuthControllerFastify.logout, AuthControllerFastify.refreshToken.
  rewrite Hc.
  destruct (String.eqb_spec R "") as [->|HR]; [repeat split; reflexivity|].
  rewrite (falsyString_false R HR).
  pose proof (revoke_then_validate_unique jwt env R now now' sessions HR Huniq) as Hv.
  rewrite (revokeSession_run R now sessions HR) in Hv |- *.
  cbn [fst snd] in Hv |- *.
  destruct (validateSession env R now' _) as [[u|] s']; [discriminate Hv|].
  repeat split; reflexivity.
Qed.

(** X26: From the login to an authenticated request. [setAuthResponse] for
    an active user stores a session and sets a cookie; the refresh that
    presents this cookie before the token expires is answered 200 with an
    access token; and [authMiddleware] lets a request with that token
    through, until it expires, as the user. *)
Theorem login_refresh_authenticate (laws : Laws jwt)
    request request' u h doc db sessions t1 t2 t3 :
  castObjectId u = Some h ->
  ipAddress (AuthControllerFastify.getDeviceInfo request) <> "" ->
  Reachable sessions ->
  (forall r d, generateRefreshToken env u t1 = Return r -> d ∈ sessions ->
     d !! "refreshTokenHash" <> Some (VString (Sha256.hex r))) ->
  HybridAuthController.users db !! h = Some doc ->
  HybridAuthController.isActive doc = true ->
  t2 / 1000 < t1 / 1000 + REFRESH_TOKEN_EXPIRY ->
  t3 / 1000 < t2 / 1000 + ACCESS_TOKEN_EXPIRY ->
  exists a cookie s1 a' s2,
    AuthControllerFastify.setAuthResponse env request u t1 sessions
    = (Return (a, cookie), s1)
    /\ (AuthControllerFastify.refreshTokenCookie request'
        = Some (AuthControllerFastify.value cookie) ->
        AuthControllerFastify.refreshToken env request' t2 s1
        = ({| AuthControllerFastify.status := 200;
              AuthControllerFastify.success := true;
              AuthControllerFastify.message := None;
              AuthControllerFastify.accessToken := Some a';
              AuthControllerFastify.clearsCookie := false |}, s2))
    /\ fst (AuthFastify.authMiddleware env (Some ("Bearer " +:+ a')) t3 db)
       = AuthFastify.Continue (Some (AuthFastify.attach h doc)).
Proof.
  intros Hu Hip Hreach Hfresh Hdoc Hact Ht2 Ht3.
  pose proof (Reachable_Forall_wellFormed sessions Hreach) as Hwf.
  assert (Hids : forall d, d ∈ sessions -> is_Some (userIdOf d)).
  { intros d Hd. eapply List.Forall_forall in Hwf; [|apply list_elem_of_In, Hd].
    destruct Hwf as ((x & Hx & _) & _). exists x. unfold userIdOf. rewrite Hx.
    reflexivity. }
  destruct (generateTokenPair_round_trip env laws u h (AuthControllerFastify.getDeviceInfo request)
              t1 sessions Hu Hip Hids) as (p & s1 & Hp & _ & Hval).
  destruct (generateTokenPair_run env laws u h
              (AuthControllerFastify.getDeviceInfo request) t1 sessions Hu Hip)
    as (a & r & Hga & Hgr & _ & Hp').
  rewrite Hp' in Hp. injection Hp as <- <-. cbn [refreshToken] in Hval.
  destruct (Hval t2 Ht2) as [_ Hv].
  specialize (Hv (fun d Hd => Hfresh r d Hgr Hd)).
  pose proof (castObjectId_idem u h Hu) as Hh.
  pose proof (castObjectId_nonempty h h Hh) as Hhne.
  destruct (generateAccessToken_succeeds laws h t2 Hhne) as [a' Ha'].
  exists a,
    {| AuthControllerFastify.value := r;
       AuthControllerFastify.httpOnly := true;
       AuthControllerFastify.secure := bool_decide (env !! "NODE_ENV" = Some "production");
       AuthControllerFastify.sameSite := "strict";
       AuthControllerFastify.maxAge := 7 * 24 * 60 * 60 * 1000;
       AuthControllerFastify.path := "/" |},
    (sessions ++ [sessionDocument h (Sha256.hex r)
                    (AuthControllerFastify.getDeviceInfo request) t1]),
    a',
    (snd (validateSession env r t2
            (sessions ++ [sessionDocument h (Sha256.hex r)
                            (AuthControllerFastify.getDeviceInfo request) t1]))).
  split; [|split].
  - unfold AuthControllerFastify.setAuthResponse. rewrite Hga, Hgr.
    unfold generateTokenPair in Hp'. rewrite Hga, Hgr in Hp'.
    destruct (createSession u r _ t1 sessions) as [[[]|c] s'];
      [|discriminate Hp'].
    injection Hp' as ->. reflexivity.
  - intros Hc. cbn [AuthControllerFastify.value] in Hc.
    unfold AuthControllerFastify.refreshToken. rewrite Hc.
    assert (Hr : r <> "").
    { intros ->. unfold createSession in Hp'. unfold generateTokenPair in Hp'.
      rewrite Hga, Hgr in Hp'. rewrite createSession_run, Hu in Hp'.
      discriminate Hp'. }
    rewrite (falsyString_false r Hr).
    destruct (validateSession env r t2 _) as [o s2] eqn:Ev. cbn [fst snd] in *.
    subst o. rewrite Ha'. reflexivity.
  - unfold AuthFastify.authMiddleware. cbn [AuthFastify.bearer].
    change (startsWith "Bearer " ("Bearer " +:+ a')) with (String.prefix "" a').
    assert (Hpre : String.prefix "" a' = true) by (destruct a'; reflexivity).
    rewrite Hpre. change (drop 7 ("Bearer " +:+ a')) with a'.
    pose proof Ha' as Hg. unfold generateAccessToken in Hg.
    rewrite (falsyString_false h Hhne) in Hg.
    destruct (sign _ _ _ t2) as [tok|e] eqn:Es; [|discriminate Hg].
    injection Hg as ->.
    pose proof (sign_compact jwt laws _ _ _ _ _ Es) as Hcomp.
    rewrite (compact_nonempty a' Hcomp).
    assert (Hver : verifyAccessToken env a' t3
                   = Some {| userId := JStr h; isValid := true; error := None |}).
    { unfold verifyAccessToken.
      rewrite (compact_nonempty a' Hcomp), (replaceBearer_compact a' Hcomp).
      eapply verify_generated; eauto. }
    rewrite Hver. unfold AuthFastify.findById. cbn [userId toStr].
    rewrite Hh, Hdoc. cbn. rewrite Hact. reflexivity.
Qed.

End WithLibrary.

End ControllerProperties.

Lemma refreshToken_handler_witness :
  AuthControllerFastify.accessToken
    (fst (AuthControllerFastify.refreshToken (jwt := ToyJwt.library) ∅
            (browserRequest (Some "a.b.c")) 2000 oneSession))
  = fst (refreshAccessToken (jwt := ToyJwt.library) ∅ "a.b.c" 2000 oneSession).
Proof.
  apply (refreshToken_handler (jwt := ToyJwt.library) ∅ toy_laws
           (browserRequest (Some "a.b.c")) "a.b.c" 2000 oneSession).
  - reflexivity.
  - unfold oneSession. apply reach_createSession, reach_empty.
Defined.

Lemma logout_then_refresh_witness :
  AuthControllerFastify.status
    (fst (AuthControllerFastify.logout (browserRequest (Some "a.b.c")) 2000 oneSession))
  = 200.
Proof.
  apply (logout_then_refresh (jwt := ToyJwt.library) ∅ (browserRequest (Some "a.b.c"))
           "a.b.c" 2000 3000 oneSession).
  - reflexivity.
  - assert (Hlen : length oneSession = 1%nat) by by_vm.
    intros i j d e Hi Hj _ _.
    apply lookup_lt_Some in Hi. apply lookup_lt_Some in Hj.
    rewrite Hlen in Hi, Hj. lia.
Defined.

Lemma login_refresh_authenticate_witness :
  exists a cookie s1 a',
    AuthControllerFastify.setAuthResponse (jwt := ToyJwt.library) secretEnv
      (browserRequest None) alice 1000200 [] = (Return (a, cookie), s1)
    /\ fst (AuthFastify.authMiddleware (jwt := ToyJwt.library) secretEnv
              (Some ("Bearer " +:+ a')) 3500000 (dbWith true))
       = AuthFastify.Continue (Some (AuthFastify.attach alice (aliceDoc true))).
Proof.
  destruct (login_refresh_authenticate (jwt := ToyJwt.library) secretEnv toy_laws
              (browserRequest None) (browserRequest None) alice alice (aliceDoc true)
              (dbWith true) [] 1000200 3000000 3500000)
    as (a & cookie & s1 & a' & s2 & H1 & _ & H3).
  - by_vm.
  - vm_compute. discriminate.
  - apply reach_empty.
  - intros r d _ Hd. inversion Hd.
  - by_vm.
  - reflexivity.
  - vm_compute. reflexivity.
  - vm_compute. reflexivity.
  - exists a, cookie, s1, a'. split; assumption.
Defined.
